(** * recall-ai-backend: AI provider adapters and daily usage limits

    A shallow embedding of the parts of the backend that carry a contract.
    Some files of the sources hold several modules of the repository one
    after the other; a module is cited below with the file that holds it.
    - The daily rate limiter, utils/rateLimit.ts: the second module of
      src/utils/vertex-ai-credentials.ts (lines 112 to 273).
    - The provider selection, src/config/ai.config.ts, and the factory
      services/ai.service.ts: unnamed/part_004.
    - The adapters, services/openai.service.ts and
      services/vertex-ai.service.ts, and their interface
      services/ai.interface.ts: the three modules of
      src/services/openai.service.ts (from lines 1, 381 and 303).
    - The two persisting handlers of src/routes/flashcards-ai.ts.

    Conventions.
    - A JavaScript string is the list of its UTF-16 code units
      ([jsstring]); [str] turns an ASCII literal into one.
    - A time value is the number of milliseconds since the epoch, in [Z].
    - Card counts are integers in [Z]; the only other numbers the
      modelled code can produce ([Infinity] and [NaN], from a division by
      the length of an empty topic list) are kept in [jsnum].
    - A call that throws, or a promise that rejects, is a value of an
      option or result type; the outside world (the LLM provider, the
      clock, the data store) is an explicit argument. *)

From Stdlib Require Import ZArith NArith List Bool Lia String Ascii.
Import ListNotations.
Open Scope Z_scope.
Set Warnings "-register-all".

(* ================================================================== *)
(** * Part I: definitions                                              *)
(* ================================================================== *)

(** ** JavaScript strings *)

Definition jsstring := list N.

Definition str (s : string) : jsstring :=
  map N_of_ascii (list_ascii_of_string s).

Definition jsstring_eqb (a b : jsstring) : bool :=
  if list_eq_dec N.eq_dec a b then true else false.

(** For JSON texts: the literal with every apostrophe standing for a
    double quote. *)
Definition dq (s : string) : jsstring :=
  map (fun c => if (c =? 39)%N then 34%N else c) (str s).

(** The line feed. *)
Definition LF : jsstring := [10%N].

(** ** The runtime's date arithmetic (ECMAScript, Date objects) *)

Module JSDate.

Definition msPerDay : Z := 86400000.

Definition Day (t : Z) : Z := t / msPerDay.

Definition TimeWithinDay (t : Z) : Z := t mod msPerDay.

Definition DaysInYear (y : Z) : Z :=
  if negb (y mod 4 =? 0) then 365
  else if negb (y mod 100 =? 0) then 366
  else if negb (y mod 400 =? 0) then 365
  else 366.

Definition DayFromYear (y : Z) : Z :=
  365 * (y - 1970) + (y - 1969) / 4 - (y - 1901) / 100 + (y - 1601) / 400.

Definition TimeFromYear (y : Z) : Z := msPerDay * DayFromYear y.

(** [YearFromTime t] is "the largest integer y such that TimeFromYear(y)
    is at most t".  The search runs downwards from an estimate that is
    never too small; the fuel covers the distance to the answer. *)
Fixpoint largestYear (fuel : nat) (y t : Z) : Z :=
  match fuel with
  | O => y
  | S f => if TimeFromYear y <=? t then y else largestYear f (y - 1) t
  end.

Definition YearFromTime (t : Z) : Z :=
  let d := Day t in
  largestYear (Z.to_nat (Z.abs (d / 365 - d / 366) + 1))
              (1970 + (if 0 <=? d then d / 365 else d / 366)) t.

Definition InLeapYear (t : Z) : Z :=
  if DaysInYear (YearFromTime t) =? 366 then 1 else 0.

Definition DayWithinYear (t : Z) : Z := Day t - DayFromYear (YearFromTime t).

Definition MonthFromTime (t : Z) : Z :=
  let d := DayWithinYear t in
  let leap := InLeapYear t in
  if d <? 31 then 0
  else if d <? 59 + leap then 1
  else if d <? 90 + leap then 2
  else if d <? 120 + leap then 3
  else if d <? 151 + leap then 4
  else if d <? 181 + leap then 5
  else if d <? 212 + leap then 6
  else if d <? 243 + leap then 7
  else if d <? 273 + leap then 8
  else if d <? 304 + leap then 9
  else if d <? 334 + leap then 10
  else 11.

Definition DateFromTime (t : Z) : Z :=
  let d := DayWithinYear t in
  let leap := InLeapYear t in
  match MonthFromTime t with
  | 0 => d + 1
  | 1 => d - 30
  | 2 => d - 58 - leap
  | 3 => d - 89 - leap
  | 4 => d - 119 - leap
  | 5 => d - 150 - leap
  | 6 => d - 180 - leap
  | 7 => d - 211 - leap
  | 8 => d - 242 - leap
  | 9 => d - 272 - leap
  | 10 => d - 303 - leap
  | _ => d - 333 - leap
  end.

(** Days from the first of January to the first of month [mn] (0..11). *)
Definition daysBeforeMonth (mn leap : Z) : Z :=
  match mn with
  | 0 => 0
  | 1 => 31
  | 2 => 59 + leap
  | 3 => 90 + leap
  | 4 => 120 + leap
  | 5 => 151 + leap
  | 6 => 181 + leap
  | 7 => 212 + leap
  | 8 => 243 + leap
  | 9 => 273 + leap
  | 10 => 304 + leap
  | _ => 334 + leap
  end.

Definition MakeDay (year month date : Z) : Z :=
  let ym := year + month / 12 in
  let mn := month mod 12 in
  let leap := if DaysInYear ym =? 366 then 1 else 0 in
  DayFromYear ym + daysBeforeMonth mn leap + date - 1.

Definition MakeTime (hour min sec ms : Z) : Z :=
  hour * 3600000 + min * 60000 + sec * 1000 + ms.

Definition MakeDate (day time : Z) : Z := day * msPerDay + time.

Definition MakeFullYear (year : Z) : Z :=
  if (0 <=? year) && (year <=? 99) then 1900 + year else year.

(** [None] is the time value NaN of an invalid Date. *)
Definition TimeClip (time : Z) : option Z :=
  if Z.abs time <=? 8640000000000000 then Some time else None.

Definition UTC (year month date hours minutes seconds ms : Z) : option Z :=
  TimeClip (MakeDate (MakeDay (MakeFullYear year) month date)
                     (MakeTime hours minutes seconds ms)).

Definition getUTCFullYear (t : Z) : Z := YearFromTime t.
Definition getUTCMonth (t : Z) : Z := MonthFromTime t.
Definition getUTCDate (t : Z) : Z := DateFromTime t.

(** The time values a running clock can deliver to this code: valid
    time values from the epoch on. *)
Definition validNow (t : Z) : Prop := 0 <= t <= 8640000000000000.

End JSDate.

(** ** The runtime's string operations used by the adapters *)

Module JSString.
Local Open Scope N_scope.

(** WhiteSpace and LineTerminator code units, the ones [trim] removes. *)
Definition isTrimSpace (c : N) : bool :=
  (c =? 9) || (c =? 10) || (c =? 11) || (c =? 12) || (c =? 13) || (c =? 32)
  || (c =? 160) || (c =? 5760) || ((8192 <=? c) && (c <=? 8202))
  || (c =? 8232) || (c =? 8233) || (c =? 8239) || (c =? 8287)
  || (c =? 12288) || (c =? 65279).

Fixpoint trimStart (s : jsstring) : jsstring :=
  match s with
  | [] => []
  | c :: r => if isTrimSpace c then trimStart r else s
  end.

Fixpoint trimEnd (s : jsstring) : jsstring :=
  match s with
  | [] => []
  | c :: r =>
      match trimEnd r with
      | [] => if isTrimSpace c then [] else [c]
      | r' => c :: r'
      end
  end.

Definition trim (s : jsstring) : jsstring := trimEnd (trimStart s).

Fixpoint startsWith (s p : jsstring) {struct p} : bool :=
  match p, s with
  | [], _ => true
  | _ :: _, [] => false
  | a :: p', b :: s' => (a =? b) && startsWith s' p'
  end.

(** [includes s p]: [p] occurs somewhere in [s]. *)
Fixpoint includes (s p : jsstring) : bool :=
  startsWith s p ||
  match s with
  | [] => false
  | _ :: r => includes r p
  end.

(** [s.replace(/lit\n?/g, '')] for a literal [lit] of one code unit or
    more: every match, found from left to right, is removed, together
    with one line feed right after it when there is one.  [skip] counts
    the code units of the current match that are still to be removed;
    [eatNl] says that a match has just ended. *)
Fixpoint removeAllFrom (lit : jsstring) (skip : nat) (eatNl : bool)
         (s : jsstring) : jsstring :=
  match s with
  | [] => []
  | c :: r =>
      match skip with
      | S (S k) => removeAllFrom lit (S k) false r
      | S O => removeAllFrom lit O true r
      | O =>
          if eatNl && (c =? 10) then removeAllFrom lit O false r
          else if startsWith s lit
               then match List.length lit with
                    | S (S k) => removeAllFrom lit (S k) false r
                    | _ => removeAllFrom lit O true r
                    end
               else c :: removeAllFrom lit O false r
      end
  end.

Definition removeAll (lit s : jsstring) : jsstring :=
  removeAllFrom lit O false s.

(** [s.replace(/lit\n?$/g, '')]: the pattern is anchored at the end of
    the text, so the first position from which [lit], or [lit] and a
    line feed, runs to the end is the match, and it is the only one. *)
Fixpoint removeAtEnd (lit s : jsstring) : jsstring :=
  match s with
  | [] => []
  | c :: r =>
      if jsstring_eqb s lit || jsstring_eqb s (lit ++ [10])
      then []
      else c :: removeAtEnd lit r
  end.

End JSString.

(** ** JSON values and the runtime's [JSON.parse] *)

Module JSON.
Local Open Scope N_scope.

(** A number keeps its literal: the adapters never compute with a parsed
    number, they only test it for truthiness. *)
Inductive json : Type :=
| JNull
| JBool (b : bool)
| JNum (literal : jsstring)
| JStr (s : jsstring)
| JArr (items : list json)
| JObj (members : list (jsstring * json)).

Inductive token : Type :=
| TLBracket | TRBracket | TLBrace | TRBrace | TColon | TComma
| TString (s : jsstring)
| TNumber (literal : jsstring)
| TTrue | TFalse | TNull.

(** *** Lexical grammar *)

Definition isJsonSpace (c : N) : bool :=
  (c =? 9) || (c =? 10) || (c =? 13) || (c =? 32).

Definition isDigit (c : N) : bool := (48 <=? c) && (c <=? 57).

Definition isLetter (c : N) : bool :=
  ((97 <=? c) && (c <=? 122)) || ((65 <=? c) && (c <=? 90)).

(** Code units a number or a literal name is made of. *)
Definition isAtomChar (c : N) : bool :=
  isDigit c || isLetter c || (c =? 43) || (c =? 45) || (c =? 46).

Definition punctuation (c : N) : option token :=
  if c =? 91 then Some TLBracket
  else if c =? 93 then Some TRBracket
  else if c =? 123 then Some TLBrace
  else if c =? 125 then Some TRBrace
  else if c =? 58 then Some TColon
  else if c =? 44 then Some TComma
  else None.

Fixpoint spanDigits (s : jsstring) : jsstring * jsstring :=
  match s with
  | c :: r => if isDigit c
              then let (d, rest) := spanDigits r in (c :: d, rest)
              else ([], s)
  | [] => ([], [])
  end.

Definition nonEmpty (s : jsstring) : bool :=
  match s with [] => false | _ => true end.

(** exp: [eE] [+-]? digit+, up to the end of the literal. *)
Definition validExponent (s : jsstring) : bool :=
  match s with
  | [] => true
  | c :: r =>
      if (c =? 101) || (c =? 69) then
        let r' := match r with
                  | x :: r0 => if (x =? 43) || (x =? 45) then r0 else r
                  | [] => r
                  end in
        let (d, rest) := spanDigits r' in
        nonEmpty d && negb (nonEmpty rest)
      else false
  end.

(** frac: '.' digit+, then an optional exponent. *)
Definition validFraction (s : jsstring) : bool :=
  match s with
  | c :: r =>
      if c =? 46 then
        let (d, rest) := spanDigits r in nonEmpty d && validExponent rest
      else validExponent s
  | [] => true
  end.

(** number: '-'? ('0' | [1-9] digit* ) frac? exp? *)
Definition validNumber (s : jsstring) : bool :=
  let s' := match s with
            | c :: r => if c =? 45 then r else s
            | [] => s
            end in
  let (d, rest) := spanDigits s' in
  match d with
  | [] => false
  | c :: more => ((negb (c =? 48)) || negb (nonEmpty more)) && validFraction rest
  end.

Definition classifyAtom (s : jsstring) : option token :=
  if jsstring_eqb s (str "true") then Some TTrue
  else if jsstring_eqb s (str "false") then Some TFalse
  else if jsstring_eqb s (str "null") then Some TNull
  else if validNumber s then Some (TNumber s)
  else None.

Definition hexValue (c : N) : option N :=
  if isDigit c then Some (c - 48)
  else if (97 <=? c) && (c <=? 102) then Some (c - 87)
  else if (65 <=? c) && (c <=? 70) then Some (c - 55)
  else None.

Definition escapeValue (c : N) : option N :=
  if c =? 34 then Some 34
  else if c =? 92 then Some 92
  else if c =? 47 then Some 47
  else if c =? 98 then Some 8
  else if c =? 102 then Some 12
  else if c =? 110 then Some 10
  else if c =? 114 then Some 13
  else if c =? 116 then Some 9
  else None.

(** The scanner's state: between tokens, inside a number or literal
    name, inside a string, after a backslash, inside a [\u] escape. The
    accumulated code units are kept in reverse. *)
Inductive lexstate : Type :=
| LIdle
| LAtom (acc : jsstring)
| LStr (acc : jsstring)
| LEsc (acc : jsstring)
| LUni (acc : jsstring) (seen : nat) (value : N).

Definition stepIdle (c : N) : option (list token * lexstate) :=
  if isJsonSpace c then Some ([], LIdle)
  else match punctuation c with
       | Some t => Some ([t], LIdle)
       | None =>
           if c =? 34 then Some ([], LStr [])
           else if isAtomChar c then Some ([], LAtom [c])
           else None
       end.

Definition step (st : lexstate) (c : N) : option (list token * lexstate) :=
  match st with
  | LIdle => stepIdle c
  | LAtom acc =>
      if isAtomChar c then Some ([], LAtom (c :: acc))
      else match classifyAtom (rev acc), stepIdle c with
           | Some t, Some (ts, st') => Some (t :: ts, st')
           | _, _ => None
           end
  | LStr acc =>
      if c =? 34 then Some ([TString (rev acc)], LIdle)
      else if c =? 92 then Some ([], LEsc acc)
      else if c <? 32 then None
      else Some ([], LStr (c :: acc))
  | LEsc acc =>
      if c =? 117 then Some ([], LUni acc 0 0)
      else match escapeValue c with
           | Some v => Some ([], LStr (v :: acc))
           | None => None
           end
  | LUni acc seen value =>
      match hexValue c with
      | Some h =>
          match seen with
          | 3%nat => Some ([], LStr ((value * 16 + h) :: acc))
          | _ => Some ([], LUni acc (S seen) (value * 16 + h))
          end
      | None => None
      end
  end.

Definition finish (st : lexstate) : option (list token) :=
  match st with
  | LIdle => Some []
  | LAtom acc => match classifyAtom (rev acc) with
                 | Some t => Some [t]
                 | None => None
                 end
  | _ => None
  end.

Fixpoint lex (st : lexstate) (s : jsstring) : option (list token) :=
  match s with
  | [] => finish st
  | c :: r =>
      match step st c with
      | Some (ts, st') => option_map (app ts) (lex st' r)
      | None => None
      end
  end.

(** *** Syntactic grammar, as a pushdown automaton over the tokens *)

Inductive frame : Type :=
| FArr (items : list json)
| FObj (members : list (jsstring * json)) (key : option jsstring).

Inductive pmode : Type :=
| MValue      (* a value must follow *)
| MArrStart   (* after '[': a value or ']' *)
| MObjStart   (* after '{': a member name or '}' *)
| MKey        (* after ',' in an object: a member name *)
| MColon      (* after a member name *)
| MAfter      (* after a value inside an array or object *)
| MDone (v : json).

Definition pstate : Type := list frame * pmode.

(** A value [v] is complete: it is the whole text, the next array item,
    or the value of the pending member. *)
Definition complete (v : json) (stack : list frame) : option pstate :=
  match stack with
  | [] => Some ([], MDone v)
  | FArr items :: s => Some (FArr (v :: items) :: s, MAfter)
  | FObj ms (Some k) :: s => Some (FObj ((k, v) :: ms) None :: s, MAfter)
  | FObj _ None :: _ => None
  end.

Definition startValue (t : token) (stack : list frame) : option pstate :=
  match t with
  | TString s => complete (JStr s) stack
  | TNumber l => complete (JNum l) stack
  | TTrue => complete (JBool true) stack
  | TFalse => complete (JBool false) stack
  | TNull => complete JNull stack
  | TLBracket => Some (FArr [] :: stack, MArrStart)
  | TLBrace => Some (FObj [] None :: stack, MObjStart)
  | _ => None
  end.

Definition closeArray (stack : list frame) : option pstate :=
  match stack with
  | FArr items :: s => complete (JArr (rev items)) s
  | _ => None
  end.

Definition closeObject (stack : list frame) : option pstate :=
  match stack with
  | FObj ms None :: s => complete (JObj (rev ms)) s
  | _ => None
  end.

Definition memberName (t : token) (stack : list frame) : option pstate :=
  match t, stack with
  | TString k, FObj ms None :: s => Some (FObj ms (Some k) :: s, MColon)
  | _, _ => None
  end.

Definition pstep (st : pstate) (t : token) : option pstate :=
  let (stack, mode) := st in
  match mode with
  | MValue => startValue t stack
  | MArrStart =>
      match t with
      | TRBracket => closeArray stack
      | _ => startValue t stack
      end
  | MObjStart =>
      match t with
      | TRBrace => closeObject stack
      | _ => memberName t stack
      end
  | MKey => memberName t stack
  | MColon =>
      match t with
      | TColon => Some (stack, MValue)
      | _ => None
      end
  | MAfter =>
      match t, stack with
      | TComma, FArr _ :: _ => Some (stack, MValue)
      | TComma, FObj _ _ :: _ => Some (stack, MKey)
      | TRBracket, _ => closeArray stack
      | TRBrace, _ => closeObject stack
      | _, _ => None
      end
  | MDone _ => None
  end.

Fixpoint prun (st : pstate) (ts : list token) : option json :=
  match ts with
  | [] => match st with
          | (_, MDone v) => Some v
          | _ => None
          end
  | t :: r => match pstep st t with
              | Some st' => prun st' r
              | None => None
              end
  end.

(** [JSON.parse(text)]; [None] is the SyntaxError it throws. *)
Definition parse (text : jsstring) : option json :=
  match lex LIdle text with
  | Some ts => prun ([], MValue) ts
  | None => None
  end.

(** *** Reading parsed values *)

Fixpoint lookupLast (k : jsstring) (ms : list (jsstring * json))
  : option json :=
  match ms with
  | [] => None
  | (k', v) :: r =>
      match lookupLast k r with
      | Some v' => Some v'
      | None => if jsstring_eqb k k' then Some v else None
      end
  end.

(** [v.k] for a member name [k] that no prototype defines; the outer
    [None] is the TypeError of reading a property of [null], the inner
    [None] is [undefined].  When a name occurs twice in an object text,
    the last occurrence is the one [JSON.parse] keeps. *)
Definition getProp (v : json) (k : jsstring) : option (option json) :=
  match v with
  | JNull => None
  | JObj ms => Some (lookupLast k ms)
  | _ => Some None
  end.

Definition numberIsZero (literal : jsstring) : bool :=
  let mantissa :=
    (fix upToExp (s : jsstring) : jsstring :=
       match s with
       | [] => []
       | c :: r => if (c =? 101) || (c =? 69) then [] else c :: upToExp r
       end) literal in
  forallb (fun c => negb ((49 <=? c) && (c <=? 57))) mantissa.

(** ToBoolean.  A literal so small that it rounds to zero is outside the
    range of literals this model reads exactly. *)
Definition truthy (v : json) : bool :=
  match v with
  | JNull => false
  | JBool b => b
  | JNum l => negb (numberIsZero l)
  | JStr s => nonEmpty s
  | JArr _ => true
  | JObj _ => true
  end.

(** [x || d] for a possibly undefined [x]. *)
Definition orElse (x : option json) (d : json) : json :=
  match x with
  | Some v => if truthy v then v else d
  | None => d
  end.

End JSON.

(** ** JavaScript numbers *)

(** The numbers of the orchestration are card counts: integers, and the
    values a division by the length of an empty topic list produces. *)
Inductive jsnum : Type :=
| Fin (z : Z)
| PosInf
| NegInf
| NaN.

(** [Math.floor(a / b)] for an integer [a] and a length [b]. *)
Definition floorDiv (a : Z) (b : Z) : jsnum :=
  if b =? 0 then
    if 0 <? a then PosInf else if a <? 0 then NegInf else NaN
  else Fin (a / b).

Definition Math_max (a b : jsnum) : jsnum :=
  match a, b with
  | NaN, _ | _, NaN => NaN
  | PosInf, _ | _, PosInf => PosInf
  | NegInf, x | x, NegInf => x
  | Fin x, Fin y => Fin (Z.max x y)
  end.

Definition Math_min (a b : jsnum) : jsnum :=
  match a, b with
  | NaN, _ | _, NaN => NaN
  | NegInf, _ | _, NegInf => NegInf
  | PosInf, x | x, PosInf => x
  | Fin x, Fin y => Fin (Z.min x y)
  end.

(** [x <= 0] *)
Definition leZero (x : jsnum) : bool :=
  match x with
  | Fin z => z <=? 0
  | NegInf => true
  | PosInf | NaN => false
  end.

(** [count || fallback] for a possibly missing integer [count]. *)
Definition numOr (count : option Z) (fallback : jsnum) : jsnum :=
  match count with
  | Some z => if z =? 0 then fallback else Fin z
  | None => fallback
  end.

(** [a.slice(0, end)] *)
Definition slice0 {A : Type} (a : list A) (end_ : Z) : list A :=
  let len := Z.of_nat (List.length a) in
  let final := if end_ <? 0 then Z.max (len + end_) 0 else Z.min end_ len in
  firstn (Z.to_nat final) a.

(** ** Errors *)

(** What made a call throw.  The adapters wrap every cause in one
    [Error] with a message prefix; the cause is kept to tell them apart. *)
Inductive Cause : Type :=
| ProviderError      (* the request to the provider threw *)
| SyntaxError        (* JSON.parse threw *)
| NotAnArray         (* 'AI response is not an array' *)
| TypeError          (* a property of null was read *)
| InvalidStructure.  (* 'Invalid study module structure from AI' *)

Inductive result (A : Type) : Type :=
| Ok (a : A)
| Failed (cause : Cause).
Arguments Ok {A} a.
Arguments Failed {A} cause.

(** ** services/ai.interface.ts *)

Module Flashcard.
(** After [JSON.parse] a field holds whatever the provider sent; an
    absent [options] is [None]. *)
Record t : Type := {
  question : JSON.json;
  answer : JSON.json;
  questionType : JSON.json;
  difficultyLevel : JSON.json;
  options : option JSON.json
}.
End Flashcard.

Module GenerateFlashcardsOptions.
Record t : Type := {
  content : jsstring;
  subject : option jsstring;
  educationLevel : option jsstring;
  difficultyLevel : option jsstring;
  numberOfCards : option jsnum;
  questionTypes : option (list jsstring)
}.
End GenerateFlashcardsOptions.

Module GenerateFlashcardsFromTopicOptions.
Record t : Type := {
  topic : jsstring;
  subject : option jsstring;
  educationLevel : option jsstring;
  difficultyLevel : option jsstring;
  numberOfCards : option jsnum;
  questionTypes : option (list jsstring)
}.
End GenerateFlashcardsFromTopicOptions.

Module WeekPlan.
Record t : Type := {
  week : Z;
  topic : jsstring;
  description : jsstring;
  flashcardsCount : option Z
}.
End WeekPlan.

Module StudyModulePlan.
(** The parsed structure, read at its declared type; a field the
    provider left out is [None]. *)
Record t : Type := {
  title : option jsstring;
  description : option jsstring;
  topics : option (list jsstring);
  learningPlan : option (list WeekPlan.t);
  estimatedHours : option Z
}.
End StudyModulePlan.

Module StudyModuleWithFlashcards.
Record t : Type := {
  module : StudyModulePlan.t;
  flashcards : list Flashcard.t
}.
End StudyModuleWithFlashcards.

Module GenerateStudyModuleOptions.
Record t : Type := {
  topic : jsstring;
  subject : option jsstring;
  educationLevel : option jsstring;
  difficultyLevel : option jsstring;
  numberOfCards : option Z;
  estimatedHours : option Z
}.
End GenerateStudyModuleOptions.

(** ** services/openai.service.ts (and, with the same text,
       services/vertex-ai.service.ts) *)

Module Adapter.
Import JSON JSString.

Definition orDefault {A : Type} (x : option A) (d : A) : A :=
  match x with Some v => v | None => d end.

(** *** extractJSON (openai.service.ts 72-83; inlined in
        vertex-ai.service.ts, lines 551-556 of the file) *)

Definition fence : jsstring := str "```".
Definition fenceJson : jsstring := str "```json".

(** The text handed to [JSON.parse]. *)
Definition stripFence (text : jsstring) : jsstring :=
  let jsonText := trim text in
  if startsWith jsonText fenceJson then
    removeAtEnd fence (removeAll fenceJson jsonText)
  else if startsWith jsonText fence then
    removeAll fence jsonText
  else jsonText.

Definition extractJSON (text : jsstring) : option json :=
  parse (stripFence text).

(** *** getEducationPrompt (lines 88-103 and 491-506) *)

(** What a property read on the [prompts] object literal can yield: one
    of its own strings, or a member it inherits from [Object.prototype]
    (a function, or the prototype object itself for [__proto__]). *)
Inductive member : Type :=
| OwnString (s : jsstring)
| Inherited (name : jsstring).

Definition prompts : list (jsstring * jsstring) :=
  [ (str "elementary",
     str "You are a child-friendly educational content creator. Create simple, engaging flashcards with basic vocabulary, visual descriptions, and encouraging language suitable for elementary school students (1st-5th grade).");
    (str "middle",
     str "You are an educational content creator for middle school students. Create flashcards that use age-appropriate vocabulary, clear explanations, and encourage critical thinking suitable for 6th-8th grade students.");
    (str "high_school",
     str "You are an educational content creator for high school students. Create flashcards that use appropriate academic vocabulary, detailed explanations, and prepare students for standardized tests.");
    (str "college",
     str "You are an educational content creator for college students. Create flashcards that use advanced academic vocabulary, complex concepts, and test deep understanding suitable for university-level studies.");
    (str "competitive",
     str "You are an expert educational content creator for competitive exam preparation. Create flashcards with precise terminology, comprehensive explanations, and analytical questions suitable for exams like UPSC, GRE, etc.") ].

(** The keys of the table. *)
Definition knownLevels : list jsstring :=
  [ str "elementary"; str "middle"; str "high_school"; str "college";
    str "competitive" ].

(** The members every object literal inherits. *)
Definition objectPrototypeNames : list jsstring :=
  [ str "constructor"; str "__defineGetter__"; str "__defineSetter__";
    str "hasOwnProperty"; str "__lookupGetter__"; str "__lookupSetter__";
    str "isPrototypeOf"; str "propertyIsEnumerable"; str "toString";
    str "valueOf"; str "__proto__"; str "toLocaleString" ].

Fixpoint ownProperty (k : jsstring) (o : list (jsstring * jsstring))
  : option jsstring :=
  match o with
  | [] => None
  | (k', v) :: r => if jsstring_eqb k k' then Some v else ownProperty k r
  end.

(** [o[k]]: the own property, else the inherited one, else undefined. *)
Definition getMember (o : list (jsstring * jsstring)) (k : jsstring)
  : option member :=
  match ownProperty k o with
  | Some v => Some (OwnString v)
  | None =>
      if existsb (jsstring_eqb k) objectPrototypeNames
      then Some (Inherited k)
      else None
  end.

Definition memberTruthy (m : member) : bool :=
  match m with
  | OwnString s => nonEmpty s
  | Inherited _ => true
  end.

(** [prompts[educationLevel] || prompts.high_school] *)
Definition getEducationPrompt (educationLevel : jsstring) : option member :=
  match getMember prompts educationLevel with
  | Some m => if memberTruthy m then Some m
              else getMember prompts (str "high_school")
  | None => getMember prompts (str "high_school")
  end.

(** *** generateFlashcards (lines 105-164 and 508-577) *)

(** The instruction block sent to the provider, as the values that the
    template interpolates. *)
Record Prompt : Type := {
  systemPrompt : option member;
  promptNumberOfCards : jsnum;
  promptQuestionTypes : list jsstring;
  promptSubject : jsstring;
  promptDifficultyLevel : jsstring;
  promptEducationLevel : jsstring;
  promptContent : jsstring
}.

Definition defaultQuestionTypes : list jsstring :=
  [ str "multiple_choice"; str "true_false"; str "short_answer" ].

(** One element of [flashcards.map(...)]; [None] is the TypeError of
    reading [card.question] on [null]. *)
Definition normalizeCard (difficultyLevel : jsstring) (card : json)
  : option Flashcard.t :=
  match getProp card (str "question"),
        getProp card (str "answer"),
        getProp card (str "questionType"),
        getProp card (str "difficultyLevel"),
        getProp card (str "options") with
  | Some q, Some a, Some ty, Some d, Some o =>
      Some {| Flashcard.question := orElse q (JStr []);
              Flashcard.answer := orElse a (JStr []);
              Flashcard.questionType := orElse ty (JStr (str "short_answer"));
              Flashcard.difficultyLevel := orElse d (JStr difficultyLevel);
              Flashcard.options :=
                match o with
                | Some v => if truthy v then Some v else None
                | None => None
                end |}
  | _, _, _, _, _ => None
  end.

Fixpoint mapCards (difficultyLevel : jsstring) (cards : list json)
  : option (list Flashcard.t) :=
  match cards with
  | [] => Some []
  | card :: r =>
      match normalizeCard difficultyLevel card with
      | Some c =>
          match mapCards difficultyLevel r with
          | Some cs => Some (c :: cs)
          | None => None
          end
      | None => None
      end
  end.

(** [difficultyLevel = 'intermediate'] in the destructuring. *)
Definition requestDifficulty (options : GenerateFlashcardsOptions.t)
  : jsstring :=
  orDefault (GenerateFlashcardsOptions.difficultyLevel options)
            (str "intermediate").

Definition buildPrompt (options : GenerateFlashcardsOptions.t) : Prompt :=
  let content := GenerateFlashcardsOptions.content options in
  let subject :=
    orDefault (GenerateFlashcardsOptions.subject options) (str "General") in
  let educationLevel :=
    orDefault (GenerateFlashcardsOptions.educationLevel options)
              (str "high_school") in
  let difficultyLevel := requestDifficulty options in
  let numberOfCards :=
    orDefault (GenerateFlashcardsOptions.numberOfCards options) (Fin 5) in
  let questionTypes :=
    orDefault (GenerateFlashcardsOptions.questionTypes options)
              defaultQuestionTypes in
  let systemPrompt := getEducationPrompt educationLevel in
  {| systemPrompt := systemPrompt;
     promptNumberOfCards := numberOfCards;
     promptQuestionTypes := questionTypes;
     promptSubject := subject;
     promptDifficultyLevel := difficultyLevel;
     promptEducationLevel := educationLevel;
     promptContent := content |}.

(** [makeRequest] is the call to the provider: [respond prompt] is the
    response text, or [None] when the request throws. *)
Definition generateFlashcards (respond : Prompt -> option jsstring)
           (options : GenerateFlashcardsOptions.t)
  : result (list Flashcard.t) :=
  let difficultyLevel := requestDifficulty options in
  let prompt := buildPrompt options in
  match respond prompt with
  | None => Failed ProviderError
  | Some responseText =>
      match extractJSON responseText with
      | None => Failed SyntaxError
      | Some (JArr flashcards) =>
          match mapCards difficultyLevel flashcards with
          | Some cards => Ok cards
          | None => Failed TypeError
          end
      | Some _ => Failed NotAnArray
      end
  end.

(** *** generateFlashcardsFromTopic (lines 166-179 and 579-599) *)

Definition generateFlashcardsFromTopic (respond : Prompt -> option jsstring)
           (options : GenerateFlashcardsFromTopicOptions.t)
  : result (list Flashcard.t) :=
  let topic := GenerateFlashcardsFromTopicOptions.topic options in
  let subject :=
    orDefault (GenerateFlashcardsFromTopicOptions.subject options)
              (str "General") in
  let educationLevel :=
    orDefault (GenerateFlashcardsFromTopicOptions.educationLevel options)
              (str "high_school") in
  let difficultyLevel :=
    orDefault (GenerateFlashcardsFromTopicOptions.difficultyLevel options)
              (str "intermediate") in
  let numberOfCards :=
    orDefault (GenerateFlashcardsFromTopicOptions.numberOfCards options)
              (Fin 10) in
  let questionTypes :=
    orDefault (GenerateFlashcardsFromTopicOptions.questionTypes options)
              defaultQuestionTypes in
  let content := str "Create flashcards about the topic: " ++ topic in
  generateFlashcards respond
    {| GenerateFlashcardsOptions.content := content;
       GenerateFlashcardsOptions.subject := Some subject;
       GenerateFlashcardsOptions.educationLevel := Some educationLevel;
       GenerateFlashcardsOptions.difficultyLevel := Some difficultyLevel;
       GenerateFlashcardsOptions.numberOfCards := Some numberOfCards;
       GenerateFlashcardsOptions.questionTypes := Some questionTypes |}.

(** *** generateStudyModule (lines 181-288 and 601-720) *)

(** The state of the card-fill loop: the cards accumulated so far, the
    requests made so far through [this.generateFlashcards] and the errors
    given so far to [console.error], each oldest first. *)
Record FillState : Type := {
  allFlashcards : list Flashcard.t;
  requests : list GenerateFlashcardsOptions.t;
  errors : list Cause
}.

Section Orchestration.

(** [gen i options] is the outcome of the [i]-th call (from 0) that this
    run makes to [this.generateFlashcards]. *)
Variable gen : nat -> GenerateFlashcardsOptions.t -> result (list Flashcard.t).

Variables (topic subject educationLevel difficultyLevel : jsstring).
Variable totalCardsNeeded : Z.
Variable cardsPerTopic : jsnum.

Definition remainingCards (st : FillState) : Z :=
  totalCardsNeeded - Z.of_nat (List.length (allFlashcards st)).

Definition requestFor (content : jsstring) (numberOfCards : jsnum)
  : GenerateFlashcardsOptions.t :=
  {| GenerateFlashcardsOptions.content := content;
     GenerateFlashcardsOptions.subject := Some subject;
     GenerateFlashcardsOptions.educationLevel := Some educationLevel;
     GenerateFlashcardsOptions.difficultyLevel := Some difficultyLevel;
     GenerateFlashcardsOptions.numberOfCards := Some numberOfCards;
     GenerateFlashcardsOptions.questionTypes := Some defaultQuestionTypes |}.

(** One guarded call: [try { push(...await generateFlashcards(req)) }
    catch (error) { console.error(..., error) }]. *)
Definition callAndPush (st : FillState) (req : GenerateFlashcardsOptions.t)
  : FillState :=
  match gen (List.length (requests st)) req with
  | Ok cards =>
      {| allFlashcards := allFlashcards st ++ cards;
         requests := requests st ++ [req];
         errors := errors st |}
  | Failed cause =>
      {| allFlashcards := allFlashcards st;
         requests := requests st ++ [req];
         errors := errors st ++ [cause] |}
  end.

Definition cardsForThisTopic (weekPlan : WeekPlan.t) (st : FillState) : jsnum :=
  Math_min (numOr (WeekPlan.flashcardsCount weekPlan) cardsPerTopic)
           (Fin (remainingCards st)).

(** The [for] loop over [modulePlan.learningPlan]. *)
Fixpoint fillTopics (learningPlan : list WeekPlan.t) (st : FillState)
  : FillState :=
  match learningPlan with
  | [] => st
  | weekPlan :: rest =>
      let n := cardsForThisTopic weekPlan st in
      if leZero n then st
      else
        let content :=
          str "Topic: " ++ WeekPlan.topic weekPlan ++ str ". "
              ++ WeekPlan.description weekPlan in
        fillTopics rest (callAndPush st (requestFor content n))
  end.

(** "If we don't have enough flashcards, generate more general ones." *)
Definition backfill (st : FillState) : FillState :=
  if Z.of_nat (List.length (allFlashcards st)) <? totalCardsNeeded then
    callAndPush st
      (requestFor (str "General questions about " ++ topic)
                  (Fin (remainingCards st)))
  else st.

End Orchestration.

(** What a run of [generateStudyModule] does: what it returns or throws,
    the requests it made through [this.generateFlashcards], and what it
    gave to [console.error]. *)
Record Run : Type := {
  outcome : result StudyModuleWithFlashcards.t;
  made : list GenerateFlashcardsOptions.t;
  logged : list Cause
}.

(** The outer [catch]: log, then throw the wrapped error. *)
Definition rethrow (cause : Cause) : Run :=
  {| outcome := Failed cause; made := []; logged := [cause] |}.

(** [structure] is the outcome of the first request, fence stripping and
    [JSON.parse] of the structure phase: the parsed value, read at the
    type [StudyModulePlan], or what made one of them throw. *)
Definition generateStudyModule
           (structure : result StudyModulePlan.t)
           (gen : nat -> GenerateFlashcardsOptions.t -> result (list Flashcard.t))
           (options : GenerateStudyModuleOptions.t) : Run :=
  let topic := GenerateStudyModuleOptions.topic options in
  let subject :=
    orDefault (GenerateStudyModuleOptions.subject options) (str "General") in
  let educationLevel :=
    orDefault (GenerateStudyModuleOptions.educationLevel options)
              (str "high_school") in
  let difficultyLevel :=
    orDefault (GenerateStudyModuleOptions.difficultyLevel options)
              (str "intermediate") in
  let numberOfCards :=
    orDefault (GenerateStudyModuleOptions.numberOfCards options) 20 in
  match structure with
  | Failed cause => rethrow cause
  | Ok modulePlan =>
      match StudyModulePlan.title modulePlan,
            StudyModulePlan.topics modulePlan,
            StudyModulePlan.learningPlan modulePlan with
      | Some title, Some topics, Some learningPlan =>
          if nonEmpty title then
            let totalCardsNeeded := numberOfCards in
            let cardsPerTopic :=
              Math_max (Fin 2)
                       (floorDiv totalCardsNeeded
                                 (Z.of_nat (List.length topics))) in
            let st0 :=
              {| allFlashcards := []; requests := []; errors := [] |} in
            let st1 :=
              fillTopics gen subject educationLevel difficultyLevel
                         totalCardsNeeded cardsPerTopic learningPlan st0 in
            let st2 :=
              backfill gen topic subject educationLevel difficultyLevel
                       totalCardsNeeded st1 in
            {| outcome :=
                 Ok {| StudyModuleWithFlashcards.module := modulePlan;
                       StudyModuleWithFlashcards.flashcards :=
                         slice0 (allFlashcards st2) totalCardsNeeded |};
               made := requests st2;
               logged := errors st2 |}
          else rethrow InvalidStructure
      | _, _, _ => rethrow InvalidStructure
      end
  end.

End Adapter.

(** ** config/ai.config.ts and services/ai.service.ts *)

Module AIConfig.
Import JSON.

(** The enum [AIProvider]; at run time its members are these strings. *)
Definition VERTEX_AI : jsstring := str "vertex-ai".
Definition GOOGLE_API_KEY : jsstring := str "google-api-key".
Definition OPENAI : jsstring := str "openai".
Definition OPENROUTER : jsstring := str "openrouter".

(** [String.prototype.toLowerCase], code unit by code unit: the ASCII
    capitals, and the Kelvin sign U+212A whose lower case is [k].  Every
    other code unit outside ASCII lower-cases to text that still holds a
    code unit outside ASCII; the model keeps it as it is, which changes no
    comparison with the ASCII provider tags. *)
Definition lowerUnit (c : N) : N :=
  if ((65 <=? c) && (c <=? 90))%N then (c + 32)%N
  else if (c =? 8490)%N then 107%N
  else c.

Definition toLowerCase (s : jsstring) : jsstring := map lowerUnit s.

Definition validProviders : list jsstring :=
  [ VERTEX_AI; GOOGLE_API_KEY; OPENAI; OPENROUTER ].

(** [validProviders.includes(provider)] *)
Definition arrayIncludes (a : list jsstring) (x : jsstring) : bool :=
  existsb (jsstring_eqb x) a.

(** The lines written with [console.warn]. *)
Inductive warning : Type :=
| NotSetOrInvalid (provider : option jsstring)
| ValidOptions (options : list jsstring).

Definition warnings (provider : option jsstring) : list warning :=
  [ NotSetOrInvalid provider; ValidOptions validProviders ].

(** [AI_PROVIDER] is [process.env.AI_PROVIDER], [None] when unset.  The
    result is the provider and the warnings written on the way. *)
Definition getAIProvider (AI_PROVIDER : option jsstring)
  : jsstring * list warning :=
  let provider := option_map toLowerCase AI_PROVIDER in
  match provider with
  | None => (GOOGLE_API_KEY, warnings provider)
  | Some p =>
      if negb (nonEmpty p) || negb (arrayIncludes validProviders p)
      then (GOOGLE_API_KEY, warnings provider)
      else (p, [])
  end.

(** The factory of services/ai.service.ts.  The four constructors are
    taken as their outcomes, [None] for a constructor that throws; the
    result is what [getAIService] returns ([None] when it throws) and the
    cached instance afterwards. *)
Section Factory.

Variable AIService : Type.
Variables getVertexAIService getGoogleGeminiService
          getOpenAIService getOpenRouterService : option AIService.

Definition construct (provider : jsstring) : option AIService :=
  if jsstring_eqb provider VERTEX_AI then getVertexAIService
  else if jsstring_eqb provider GOOGLE_API_KEY then getGoogleGeminiService
  else if jsstring_eqb provider OPENAI then getOpenAIService
  else if jsstring_eqb provider OPENROUTER then getOpenRouterService
  else None.

Definition getAIService (aiServiceInstance : option AIService)
           (AI_PROVIDER : option jsstring)
  : option AIService * option AIService :=
  match aiServiceInstance with
  | Some instance => (Some instance, Some instance)
  | None =>
      let provider := fst (getAIProvider AI_PROVIDER) in
      match construct provider with
      | Some instance => (Some instance, Some instance)
      | None => (None, None)
      end
  end.

End Factory.

End AIConfig.

(** ** The data store *)

Module StudyModuleRow.
(** The columns of [study_modules] that the modelled queries read. *)
Record t : Type := {
  id : jsstring;
  userId : jsstring;
  isAIGenerated : bool;
  createdAt : Z
}.
End StudyModuleRow.

Module FlashcardRow.
(** The columns of [flashcards] that the modelled code writes or reads;
    a nullable column holds [None] for NULL. *)
Record t : Type := {
  userId : jsstring;
  question : jsstring;
  answer : jsstring;
  subject : option jsstring;
  difficultyLevel : option jsstring;
  educationLevel : option jsstring;
  moduleId : option jsstring;
  questionType : option jsstring;
  options : option jsstring;
  isAIGenerated : bool;
  createdAt : Z
}.
End FlashcardRow.

Module Store.

Record DB : Type := {
  studyModule : list StudyModuleRow.t;
  flashcard : list FlashcardRow.t
}.

(** Modelled from the spec: the declaration of the column
    [flashcards.isAIGenerated] (the Prisma schema and the migration that
    adds the column are not among the sources).  A card counts as
    AI-generated when it is "flagged AI-generated directly", which
    routes/study-modules.ts does by writing [isAIGenerated: true]; a row
    created without the field is not flagged, as for the column of the same
    name of [study_modules], declared [NOT NULL DEFAULT false]. *)
Definition flashcardIsAIGeneratedDefault : bool := false.

(** [prisma.studyModule.count({ where: { userId, createdAt: { gte } } })] *)
Definition studyModuleCount (db : DB) (userId : jsstring) (gte : Z) : Z :=
  Z.of_nat (List.length
    (filter (fun r => jsstring_eqb (StudyModuleRow.userId r) userId
                      && (gte <=? StudyModuleRow.createdAt r))
            (studyModule db))).

(** The relation filter [module: { isAIGenerated: true }]: the card has
    a module, and that module is AI-generated. *)
Definition moduleIsAIGenerated (db : DB) (moduleId : option jsstring) : bool :=
  match moduleId with
  | None => false
  | Some m =>
      existsb (fun r => jsstring_eqb (StudyModuleRow.id r) m
                        && StudyModuleRow.isAIGenerated r)
              (studyModule db)
  end.

(** [prisma.flashcard.count({ where: { userId, createdAt: { gte },
      OR: [{ isAIGenerated: true }, { module: { isAIGenerated: true } }] } })] *)
Definition aiFlashcardCount (db : DB) (userId : jsstring) (gte : Z) : Z :=
  Z.of_nat (List.length
    (filter (fun r => jsstring_eqb (FlashcardRow.userId r) userId
                      && (gte <=? FlashcardRow.createdAt r)
                      && (FlashcardRow.isAIGenerated r
                          || moduleIsAIGenerated db (FlashcardRow.moduleId r)))
            (flashcard db))).

End Store.

(** ** utils/rateLimit.ts *)

Module RateLimit.
Import Store.

Definition STUDY_MODULES : Z := 3.
Definition AI_CARDS : Z := 30.

(** [now] is the time value of [new Date()]; the result is the time
    value of the Date returned, [None] for an invalid Date. *)
Definition getStartOfTodayUTC (now : Z) : option Z :=
  match JSDate.UTC (JSDate.getUTCFullYear now) (JSDate.getUTCMonth now)
                   (JSDate.getUTCDate now) 0 0 0 0 with
  | Some t => JSDate.TimeClip t
  | None => None
  end.

Record StudyModuleLimit : Type := {
  allowed : bool;
  currentCount : Z;
  limit : Z;
  remaining : Z
}.

Record AICardsLimit : Type := {
  cardsAllowed : bool;
  cardsCurrentCount : Z;
  cardsLimit : Z;
  cardsRemaining : Z;
  requestedCount : Z
}.

(** [None]: the promise rejects (the query refuses an invalid Date). *)
Definition checkStudyModuleDailyLimit (db : DB) (now : Z) (userId : jsstring)
  : option StudyModuleLimit :=
  match getStartOfTodayUTC now with
  | None => None
  | Some startOfToday =>
      let count := studyModuleCount db userId startOfToday in
      let limit := STUDY_MODULES in
      let allowed := count <? limit in
      let remaining := Z.max 0 (limit - count) in
      Some {| allowed := allowed;
              currentCount := count;
              limit := limit;
              remaining := remaining |}
  end.

Definition checkAICardsDailyLimit (db : DB) (now : Z) (userId : jsstring)
           (requestedCount : Z) : option AICardsLimit :=
  match getStartOfTodayUTC now with
  | None => None
  | Some startOfToday =>
      let count := aiFlashcardCount db userId startOfToday in
      let limit := AI_CARDS in
      let newTotal := count + requestedCount in
      let allowed := newTotal <=? limit in
      let remaining := Z.max 0 (limit - count) in
      Some {| cardsAllowed := allowed;
              cardsCurrentCount := count;
              cardsLimit := limit;
              cardsRemaining := remaining;
              requestedCount := requestedCount |}
  end.

End RateLimit.

(** ** routes/flashcards-ai.ts: the two persisting handlers *)

Module FlashcardsAI.
Import JSON JSString Store.

(** The middleware named in a route registration. *)
Inductive middleware : Type :=
| authenticate
| checkStudyModuleRateLimit
| checkAICardsRateLimit.

(** The request body after [express.json()].  [content] and [topic],
    which the handlers test with [typeof], hold any JSON value; the other
    fields are read at the type the options interface declares. *)
Record Body : Type := {
  content : option json;
  topic : option json;
  subject : option jsstring;
  educationLevel : option jsstring;
  difficultyLevel : option jsstring;
  numberOfCards : option Z;
  questionTypes : option (list jsstring)
}.

Inductive Response : Type :=
| Status400
| Status500
| Status201 (count : nat).

(** [x || undefined] for a string. *)
Definition orUndefined (x : option jsstring) : option jsstring :=
  match x with
  | Some s => if nonEmpty s then Some s else None
  | None => None
  end.

(** [numberOfCards = d] in the destructuring, then [numberOfCards || d]. *)
Definition cardsOr (x : option Z) (d : Z) : Z :=
  match x with
  | Some z => if z =? 0 then d else z
  | None => d
  end.

(** The active adapter, as the two methods the handlers call. *)
Record AIService : Type := {
  generateFlashcards :
    GenerateFlashcardsOptions.t -> result (list Flashcard.t);
  generateFlashcardsFromTopic :
    GenerateFlashcardsFromTopicOptions.t -> result (list Flashcard.t)
}.

(** [card.difficultyLevel || options.difficultyLevel || null]; the outer
    [None] is a value the TEXT column refuses. *)
Definition difficultyColumn (card : Flashcard.t) (fromOptions : option jsstring)
  : option (option jsstring) :=
  if truthy (Flashcard.difficultyLevel card) then
    match Flashcard.difficultyLevel card with
    | JStr s => Some (Some s)
    | _ => None
    end
  else Some (orUndefined fromOptions).

(** [prisma.flashcard.create({ data: { userId, question, answer, subject,
    difficultyLevel, educationLevel } })]: the row that is inserted, or
    [None] when the data is refused (a required TEXT column is given
    something that is not a string) and the promise rejects.  The columns
    the call does not name take their defaults. *)
Definition createFlashcard (userId : jsstring) (subject educationLevel
           difficultyLevel : option jsstring) (now : Z) (card : Flashcard.t)
  : option FlashcardRow.t :=
  match Flashcard.question card, Flashcard.answer card,
        difficultyColumn card difficultyLevel with
  | JStr q, JStr a, Some d =>
      Some {| FlashcardRow.userId := userId;
              FlashcardRow.question := q;
              FlashcardRow.answer := a;
              FlashcardRow.subject := orUndefined subject;
              FlashcardRow.difficultyLevel := d;
              FlashcardRow.educationLevel := orUndefined educationLevel;
              FlashcardRow.moduleId := None;
              FlashcardRow.questionType := None;
              FlashcardRow.options := None;
              FlashcardRow.isAIGenerated := flashcardIsAIGeneratedDefault;
              FlashcardRow.createdAt := now |}
  | _, _, _ => None
  end.

(** [Promise.all(generatedFlashcards.map(card => prisma.flashcard.create(...)))]:
    every create is issued; [clock i] is the time at which the [i]-th one
    is stored.  The rows of the accepted creates, in order, and whether
    all were accepted. *)
Fixpoint saveAll (userId : jsstring) (subject educationLevel
         difficultyLevel : option jsstring) (clock : nat -> Z) (i : nat)
         (cards : list Flashcard.t) : list FlashcardRow.t * bool :=
  match cards with
  | [] => ([], true)
  | card :: rest =>
      let (rows, ok) :=
        saveAll userId subject educationLevel difficultyLevel clock (S i) rest in
      match createFlashcard userId subject educationLevel difficultyLevel
                            (clock i) card with
      | Some row => (row :: rows, ok)
      | None => (rows, false)
      end
  end.

(** A row that the AI-card counter never counts, whatever the modules. *)
Definition unflagged (r : FlashcardRow.t) : Prop :=
  FlashcardRow.isAIGenerated r = false /\ FlashcardRow.moduleId r = None.

Definition insertFlashcards (db : DB) (rows : list FlashcardRow.t) : DB :=
  {| studyModule := studyModule db; flashcard := flashcard db ++ rows |}.

Definition respondSaved (db : DB) (saved : list FlashcardRow.t * bool)
  : Response * DB :=
  let (rows, ok) := saved in
  (if ok then Status201 (List.length rows) else Status500,
   insertFlashcards db rows).

(** [router.post("/generate", authenticate, async (req, res) => ...)].
    [userId] is the authenticated user; [aiService] is [None] when
    [getAIService()] throws. *)
Definition generateMiddleware : list middleware := [ authenticate ].

Definition generateHandler (db : DB) (clock : nat -> Z) (userId : jsstring)
           (body : Body) (aiService : option AIService) : Response * DB :=
  match content body with
  | Some (JStr c) =>
      if negb (nonEmpty c) || negb (nonEmpty (trim c)) then (Status400, db)
      else if (50000 <? Z.of_nat (List.length c)) then (Status400, db)
      else
        let options :=
          {| GenerateFlashcardsOptions.content := trim c;
             GenerateFlashcardsOptions.subject := orUndefined (subject body);
             GenerateFlashcardsOptions.educationLevel :=
               orUndefined (educationLevel body);
             GenerateFlashcardsOptions.difficultyLevel :=
               orUndefined (difficultyLevel body);
             GenerateFlashcardsOptions.numberOfCards :=
               Some (Fin (cardsOr (numberOfCards body) 5));
             GenerateFlashcardsOptions.questionTypes := questionTypes body |} in
        match aiService with
        | None => (Status500, db)
        | Some service =>
            match generateFlashcards service options with
            | Failed _ => (Status500, db)
            | Ok generatedFlashcards =>
                respondSaved db
                  (saveAll userId
                     (GenerateFlashcardsOptions.subject options)
                     (GenerateFlashcardsOptions.educationLevel options)
                     (GenerateFlashcardsOptions.difficultyLevel options)
                     clock 0 generatedFlashcards)
            end
        end
  | _ => (Status400, db)
  end.

(** [router.post("/generate-from-topic", authenticate, async (req, res) => ...)] *)
Definition generateFromTopicMiddleware : list middleware := [ authenticate ].

Definition generateFromTopicHandler (db : DB) (clock : nat -> Z)
           (userId : jsstring) (body : Body) (aiService : option AIService)
  : Response * DB :=
  match topic body with
  | Some (JStr t) =>
      if negb (nonEmpty t) || negb (nonEmpty (trim t)) then (Status400, db)
      else if (200 <? Z.of_nat (List.length t)) then (Status400, db)
      else
        let n := match numberOfCards body with Some z => z | None => 10 end in
        if negb (n =? 0) && ((n <? 1) || (50 <? n)) then (Status400, db)
        else
          let options :=
            {| GenerateFlashcardsFromTopicOptions.topic := trim t;
               GenerateFlashcardsFromTopicOptions.subject :=
                 orUndefined (subject body);
               GenerateFlashcardsFromTopicOptions.educationLevel :=
                 orUndefined (educationLevel body);
               GenerateFlashcardsFromTopicOptions.difficultyLevel :=
                 orUndefined (difficultyLevel body);
               GenerateFlashcardsFromTopicOptions.numberOfCards :=
                 Some (Fin (cardsOr (numberOfCards body) 10));
               GenerateFlashcardsFromTopicOptions.questionTypes :=
                 questionTypes body |} in
          match aiService with
          | None => (Status500, db)
          | Some service =>
              match generateFlashcardsFromTopic service options with
              | Failed _ => (Status500, db)
              | Ok generatedFlashcards =>
                  respondSaved db
                    (saveAll userId
                       (GenerateFlashcardsFromTopicOptions.subject options)
                       (GenerateFlashcardsFromTopicOptions.educationLevel options)
                       (GenerateFlashcardsFromTopicOptions.difficultyLevel options)
                       clock 0 generatedFlashcards)
              end
          end
  | _ => (Status400, db)
  end.

End FlashcardsAI.

(** ** The daily counters, in the words of the specification *)

Module DailyUsage.
Import Store.

(** The last UTC midnight at or before [now]. *)
Definition startOfUTCDay (now : Z) : Z := now - now mod JSDate.msPerDay.

Fixpoint countIf {A : Type} (p : A -> bool) (l : list A) : Z :=
  match l with
  | [] => 0
  | x :: r => (if p x then 1 else 0) + countIf p r
  end.

(** "two independent counters per user, studyModulesToday and
    aiCardsToday", each "computed by counting existing persisted rows with
    a creation timestamp >= start of current UTC day". *)
Definition studyModulesToday (db : DB) (userId : jsstring) (now : Z) : Z :=
  countIf (fun r => jsstring_eqb (StudyModuleRow.userId r) userId
                    && (startOfUTCDay now <=? StudyModuleRow.createdAt r))
          (studyModule db).

(** "Counts only cards flagged AI-generated directly or belonging to an
    AI-generated module." *)
Definition aiCardsToday (db : DB) (userId : jsstring) (now : Z) : Z :=
  countIf (fun r => jsstring_eqb (FlashcardRow.userId r) userId
                    && (startOfUTCDay now <=? FlashcardRow.createdAt r)
                    && (FlashcardRow.isAIGenerated r
                        || moduleIsAIGenerated db (FlashcardRow.moduleId r)))
          (flashcard db).

(** 23:59:59 UTC of day number [day], and 00:00:01 UTC of the next. *)
Definition lastSecondOf (day : Z) : Z :=
  day * JSDate.msPerDay + ((23 * 60 + 59) * 60 + 59) * 1000.

Definition firstSecondAfter (day : Z) : Z :=
  (day + 1) * JSDate.msPerDay + 1000.

(** Every stored row was created at or before [t]. *)
Definition storedBy (db : DB) (t : Z) : Prop :=
  Forall (fun r => StudyModuleRow.createdAt r <= t) (studyModule db)
  /\ Forall (fun r => FlashcardRow.createdAt r <= t) (flashcard db).

End DailyUsage.

(** ** Markdown code fences, in the words of the specification *)

Module Fence.
Import Adapter.

(** A payload between an opening fence line, with a language tag or
    bare, and a closing fence line. *)
Definition fenced (tag payload : jsstring) : jsstring :=
  fence ++ tag ++ LF ++ payload ++ LF ++ fence.

Definition bare : jsstring := [].
Definition jsonTag : jsstring := str "json".

End Fence.

(** ** The options invariant, in the words of the specification *)

Module OptionsInvariant.
Import JSON.

(** "questionType == multiple_choice" *)
Definition isMultipleChoice (card : Flashcard.t) : Prop :=
  Flashcard.questionType card = JStr (str "multiple_choice").

(** "options present and exactly length 4" *)
Definition hasFourOptions (card : Flashcard.t) : Prop :=
  exists items, Flashcard.options card = Some (JArr items)
                /\ List.length items = 4%nat.

(** The same of the card as the provider sent it. *)
Definition givenFourOptions (item : json) : Prop :=
  exists items, getProp item (str "options") = Some (Some (JArr items))
                /\ List.length items = 4%nat.

End OptionsInvariant.

(** ** The card-fill phase, in the words of the specification *)

Module CardFill.
Import Adapter.

Section Spec.

Variable gen : nat -> GenerateFlashcardsOptions.t -> result (list Flashcard.t).

(** The cards that the calls numbered [from], [from + 1], ... return for
    the requests [reqs]; a call that fails returns none. *)
Fixpoint accumulated (reqs : list GenerateFlashcardsOptions.t) (from : nat)
  : Z :=
  match reqs with
  | [] => 0
  | req :: rest =>
      match gen from req with
      | Ok cards => Z.of_nat (List.length cards)
      | Failed _ => 0
      end + accumulated rest (S from)
  end.

(** "fallback = max(2, floor(totalRequested / topicCount))" *)
Definition fallback (totalRequested : Z) (topicCount : nat) : jsnum :=
  Math_max (Fin 2) (floorDiv totalRequested (Z.of_nat topicCount)).

(** "cardsForThisTopic = min(entry.flashcardsCount or fallback,
     totalRequested - accumulatedSoFar)" *)
Definition expected (totalRequested : Z) (topicCount : nat)
           (entry : WeekPlan.t) (accumulatedSoFar : Z) : jsnum :=
  Math_min
    (match WeekPlan.flashcardsCount entry with
     | Some count => if count =? 0 then fallback totalRequested topicCount
                     else Fin count
     | None => fallback totalRequested topicCount
     end)
    (Fin (totalRequested - accumulatedSoFar)).

(** What made the failing ones among those calls fail, in order. *)
Fixpoint failures (reqs : list GenerateFlashcardsOptions.t) (from : nat)
  : list Cause :=
  match reqs with
  | [] => []
  | req :: rest =>
      match gen from req with
      | Ok _ => []
      | Failed cause => [cause]
      end ++ failures rest (S from)
  end.

(** The accumulated list holds what the calls made so far returned, and
    the error log what made the failing ones fail. *)
Definition consistent (st : FillState) : Prop :=
  Z.of_nat (List.length (allFlashcards st)) = accumulated (requests st) 0
  /\ errors st = failures (requests st) 0.

(** A provider whose failures are replaced by answers without cards. *)
Definition swallowed (i : nat) (options : GenerateFlashcardsOptions.t)
  : result (list Flashcard.t) :=
  match gen i options with
  | Ok cards => Ok cards
  | Failed _ => Ok []
  end.

End Spec.

(** Two states that differ in the error log only. *)
Definition sameCards (a b : FillState) : Prop :=
  allFlashcards a = allFlashcards b /\ requests a = requests b.

(** The plan has the three fields that the structure phase insists on. *)
Definition wellFormed (plan : StudyModulePlan.t) (topics : list jsstring)
           (learningPlan : list WeekPlan.t) : Prop :=
  (exists title, StudyModulePlan.title plan = Some title
                 /\ JSON.nonEmpty title = true)
  /\ StudyModulePlan.topics plan = Some topics
  /\ StudyModulePlan.learningPlan plan = Some learningPlan.

End CardFill.

(** ** Sample data *)

Module Sample.
Import Store.

Definition alice : jsstring := str "alice".
Definition bob : jsstring := str "bob".

(** Day number 20395 is 2025-11-03. *)
Definition midnight : Z := 20395 * JSDate.msPerDay.

(** 2025-11-03T06:06:40Z *)
Definition morning : Z := 1762150000000.

Definition aliceModule (id : string) (ai : bool) (createdAt : Z)
  : StudyModuleRow.t :=
  {| StudyModuleRow.id := str id;
     StudyModuleRow.userId := alice;
     StudyModuleRow.isAIGenerated := ai;
     StudyModuleRow.createdAt := createdAt |}.

Definition aliceCard (moduleId : option jsstring) (ai : bool) (createdAt : Z)
  : FlashcardRow.t :=
  {| FlashcardRow.userId := alice;
     FlashcardRow.question := str "q";
     FlashcardRow.answer := str "a";
     FlashcardRow.subject := None;
     FlashcardRow.difficultyLevel := None;
     FlashcardRow.educationLevel := None;
     FlashcardRow.moduleId := moduleId;
     FlashcardRow.questionType := None;
     FlashcardRow.options := None;
     FlashcardRow.isAIGenerated := ai;
     FlashcardRow.createdAt := createdAt |}.

(** One module of yesterday and two of today; a card flagged directly, a
    card of an AI-generated module, a card that is neither, and a card of
    yesterday. *)
Definition db : DB :=
  {| studyModule :=
       [ aliceModule "m0" true (midnight - 5000);
         aliceModule "m1" true (midnight + 1000);
         aliceModule "m2" false (midnight + 2000) ];
     flashcard :=
       [ aliceCard None true (midnight + 1500);
         aliceCard (Some (str "m1")) false (midnight + 1600);
         aliceCard (Some (str "m2")) false (midnight + 2500);
         aliceCard (Some (str "m0")) true (midnight - 4000) ] |}.

(** The stub of the specification's end-to-end properties: a two-topic
    plan with five cards each, ten cards requested. *)
Definition plan : StudyModulePlan.t :=
  {| StudyModulePlan.title := Some (str "Photosynthesis basics");
     StudyModulePlan.description := Some (str "How plants turn light into sugar.");
     StudyModulePlan.topics :=
       Some [ str "Light reactions"; str "Calvin cycle" ];
     StudyModulePlan.learningPlan :=
       Some [ {| WeekPlan.week := 1;
                 WeekPlan.topic := str "Light reactions";
                 WeekPlan.description := str "Photosystems";
                 WeekPlan.flashcardsCount := Some 5 |};
              {| WeekPlan.week := 2;
                 WeekPlan.topic := str "Calvin cycle";
                 WeekPlan.description := str "Carbon fixation";
                 WeekPlan.flashcardsCount := Some 5 |} ];
     StudyModulePlan.estimatedHours := Some 2 |}.

Definition request : GenerateStudyModuleOptions.t :=
  {| GenerateStudyModuleOptions.topic := str "Photosynthesis";
     GenerateStudyModuleOptions.subject := None;
     GenerateStudyModuleOptions.educationLevel := None;
     GenerateStudyModuleOptions.difficultyLevel := None;
     GenerateStudyModuleOptions.numberOfCards := Some 10;
     GenerateStudyModuleOptions.estimatedHours := None |}.

Definition card (q : string) : Flashcard.t :=
  {| Flashcard.question := JSON.JStr (str q);
     Flashcard.answer := JSON.JStr (str "yes");
     Flashcard.questionType := JSON.JStr (str "true_false");
     Flashcard.difficultyLevel := JSON.JStr (str "intermediate");
     Flashcard.options := None |}.

Definition fiveCards : list Flashcard.t :=
  [ card "1"; card "2"; card "3"; card "4"; card "5" ].

(** Every call returns five cards. *)
Definition steady (i : nat) (options : GenerateFlashcardsOptions.t)
  : result (list Flashcard.t) := Ok fiveCards.

(** The first call fails, the later ones return five cards. *)
Definition failsFirst (i : nat) (options : GenerateFlashcardsOptions.t)
  : result (list Flashcard.t) :=
  match i with
  | O => Failed ProviderError
  | _ => Ok fiveCards
  end.

(** Every call fails. *)
Definition failsAlways (i : nat) (options : GenerateFlashcardsOptions.t)
  : result (list Flashcard.t) := Failed ProviderError.

(** A request for cards with every option left to its default. *)
Definition cardsRequest : GenerateFlashcardsOptions.t :=
  {| GenerateFlashcardsOptions.content := str "Photosynthesis";
     GenerateFlashcardsOptions.subject := None;
     GenerateFlashcardsOptions.educationLevel := None;
     GenerateFlashcardsOptions.difficultyLevel := None;
     GenerateFlashcardsOptions.numberOfCards := None;
     GenerateFlashcardsOptions.questionTypes := None |}.

(** A provider that answers every prompt with [text]. *)
Definition answers (text : jsstring) (prompt : Adapter.Prompt)
  : option jsstring := Some text.

(** The adapter behind a provider that answers [text]. *)
Definition service (text : jsstring) : FlashcardsAI.AIService :=
  {| FlashcardsAI.generateFlashcards :=
       Adapter.generateFlashcards (answers text);
     FlashcardsAI.generateFlashcardsFromTopic :=
       Adapter.generateFlashcardsFromTopic (answers text) |}.

Definition body : FlashcardsAI.Body :=
  {| FlashcardsAI.content := Some (JSON.JStr (str "Photosynthesis"));
     FlashcardsAI.topic := Some (JSON.JStr (str "Photosynthesis"));
     FlashcardsAI.subject := None;
     FlashcardsAI.educationLevel := None;
     FlashcardsAI.difficultyLevel := None;
     FlashcardsAI.numberOfCards := Some 1;
     FlashcardsAI.questionTypes := None |}.

(** Alice has used her thirty AI cards of the day. *)
Definition dbFull : DB :=
  {| studyModule := [];
     flashcard := repeat (aliceCard None true (midnight + 1000)) 30 |}.

End Sample.

(* ================================================================== *)
(** * Part I, continued: the code around the claims                   *)
(* ================================================================== *)

(** ** utils/rateLimit.ts: getDailyUsageSummary (lines 220-273) *)

Module UsageSummary.
Import Store.

Record Usage : Type := {
  current : Z;
  limit : Z;
  remaining : Z
}.

Record t : Type := {
  studyModules : Usage;
  aiCards : Usage
}.

(** One reading of the clock, then the two counts; [None]: the promise
    rejects (a query refuses an invalid Date). *)
Definition getDailyUsageSummary (db : DB) (now : Z) (userId : jsstring)
  : option t :=
  match RateLimit.getStartOfTodayUTC now with
  | None => None
  | Some startOfToday =>
      let studyModuleCount := Store.studyModuleCount db userId startOfToday in
      let aiCardCount := aiFlashcardCount db userId startOfToday in
      Some {| studyModules :=
                {| current := studyModuleCount;
                   limit := RateLimit.STUDY_MODULES;
                   remaining :=
                     Z.max 0 (RateLimit.STUDY_MODULES - studyModuleCount) |};
              aiCards :=
                {| current := aiCardCount;
                   limit := RateLimit.AI_CARDS;
                   remaining := Z.max 0 (RateLimit.AI_CARDS - aiCardCount) |} |}
  end.

End UsageSummary.

(** ** utils/user.ts *)

Module User.
Import JSON.

(** [req.user], which [authenticate] sets: the token payload. *)
Record t : Type := {
  userId : option jsstring
}.

(** [None]: "User not authenticated. Please login first." is thrown. *)
Definition getUserIdFromRequest (user : option t) : option jsstring :=
  match user with
  | None => None
  | Some u =>
      match userId u with
      | Some id => if nonEmpty id then Some id else None
      | None => None
      end
  end.

End User.

(** ** middleware/rateLimit.ts (lines 1-102) *)

Module RateLimitMiddleware.
Import Store.

Inductive LimitType : Type :=
| study_modules
| ai_cards.

(** The [limit] object of a 429 answer; [resetTime] is the time value
    that [toISOString] prints. *)
Record LimitBody : Type := {
  type : LimitType;
  current : Z;
  requested : option Z;
  limit : Z;
  remaining : Z;
  resetTime : Z
}.

(** [req.rateLimitInfo] *)
Record RateLimitInfo : Type := {
  infoType : LimitType;
  infoRemaining : Z
}.

(** How a middleware ends: with an answer, or with [next()] after it
    attached [req.rateLimitInfo]. *)
Inductive Outcome : Type :=
| Status429 (body : LimitBody)
| Status500
| Next (rateLimitInfo : RateLimitInfo).

(** [now] is the time value of [new Date()]; [None]: [toISOString]
    throws a RangeError on an invalid Date. *)
Definition getResetTime (now : Z) : option Z :=
  match JSDate.UTC (JSDate.getUTCFullYear now) (JSDate.getUTCMonth now)
                   (JSDate.getUTCDate now + 1) 0 0 0 0 with
  | Some t => JSDate.TimeClip t
  | None => None
  end.

(** [now] is the clock as the check reads it, [later] as [getResetTime]
    reads it afterwards. *)
Definition checkStudyModuleRateLimit (db : DB) (now later : Z)
           (user : option User.t) : Outcome :=
  match User.getUserIdFromRequest user with
  | None => Status500
  | Some userId =>
      match RateLimit.checkStudyModuleDailyLimit db now userId with
      | None => Status500
      | Some limitCheck =>
          if negb (RateLimit.allowed limitCheck) then
            match getResetTime later with
            | None => Status500
            | Some reset =>
                Status429 {| type := study_modules;
                             current := RateLimit.currentCount limitCheck;
                             requested := None;
                             limit := RateLimit.limit limitCheck;
                             remaining := 0;
                             resetTime := reset |}
            end
          else
            Next {| infoType := study_modules;
                    infoRemaining := RateLimit.remaining limitCheck |}
      end
  end.

(** [numberOfCards] is [req.body.numberOfCards]. *)
Definition checkAICardsRateLimit (db : DB) (now later : Z)
           (user : option User.t) (numberOfCards : option Z) : Outcome :=
  match User.getUserIdFromRequest user with
  | None => Status500
  | Some userId =>
      let numberOfCards := FlashcardsAI.cardsOr numberOfCards 5 in
      match RateLimit.checkAICardsDailyLimit db now userId numberOfCards with
      | None => Status500
      | Some limitCheck =>
          if negb (RateLimit.cardsAllowed limitCheck) then
            match getResetTime later with
            | None => Status500
            | Some reset =>
                Status429 {| type := ai_cards;
                             current := RateLimit.cardsCurrentCount limitCheck;
                             requested :=
                               Some (RateLimit.requestedCount limitCheck);
                             limit := RateLimit.cardsLimit limitCheck;
                             remaining := RateLimit.cardsRemaining limitCheck;
                             resetTime := reset |}
            end
          else
            Next {| infoType := ai_cards;
                    infoRemaining :=
                      RateLimit.cardsRemaining limitCheck
                      - RateLimit.requestedCount limitCheck |}
      end
  end.

End RateLimitMiddleware.

(** ** routes/study-modules.ts: POST /ai/generate (lines 17-218) *)

Module StudyModules.
Import JSON JSString Store.

(** The request body after [express.json()]; [topic], which the handler
    tests with [typeof], holds any JSON value. *)
Record Body : Type := {
  topic : option json;
  subject : option jsstring;
  educationLevel : option jsstring;
  difficultyLevel : option jsstring;
  numberOfCards : option Z;
  estimatedHours : option Z
}.

(** The [limit] object of a 429 answer. *)
Record LimitBody : Type := {
  type : RateLimitMiddleware.LimitType;
  current : Z;
  requested : option Z;
  limit : Z;
  remaining : Z
}.

Inductive Response : Type :=
| Status429 (body : LimitBody)
| Status400
| Status500
| Status201 (module : StudyModuleRow.t) (totalFlashcards : nat).

(** [estimatedHours || undefined] *)
Definition hoursOrUndefined (x : option Z) : option Z :=
  match x with
  | Some z => if z =? 0 then None else Some z
  | None => None
  end.

(** An [INTEGER] column holds 32-bit values. *)
Definition fitsInteger (x : option Z) : bool :=
  match x with
  | Some z => (-2147483648 <=? z) && (z <=? 2147483647)
  | None => true
  end.

(** [prisma.studyModule.create({ data: { userId, title, ...,
    isAIGenerated: true } })]: the row that is inserted, or [None] when
    the promise rejects: [title] is [NOT NULL], [estimatedHours] is an
    [INTEGER], and [id], which the client generates ([newId]), is the
    primary key.  The user that the token names is taken to be stored,
    so that [study_modules_userId_fkey] holds. *)
Definition createStudyModule (db : DB) (newId userId : jsstring) (now : Z)
           (plan : StudyModulePlan.t) : option StudyModuleRow.t :=
  match StudyModulePlan.title plan with
  | None => None
  | Some _ =>
      if negb (fitsInteger (StudyModulePlan.estimatedHours plan)) then None
      else if existsb (fun r => jsstring_eqb (StudyModuleRow.id r) newId)
                      (studyModule db)
      then None
      else Some {| StudyModuleRow.id := newId;
                   StudyModuleRow.userId := userId;
                   StudyModuleRow.isAIGenerated := true;
                   StudyModuleRow.createdAt := now |}
  end.

(** [card.questionType || null]; the outer [None] is a value the TEXT
    column refuses. *)
Definition questionTypeColumn (card : Flashcard.t)
  : option (option jsstring) :=
  if truthy (Flashcard.questionType card) then
    match Flashcard.questionType card with
    | JStr s => Some (Some s)
    | _ => None
    end
  else Some None.

Section Persist.

(** The runtime's [JSON.stringify]. *)
Variable stringify : json -> jsstring.

(** [card.options ? JSON.stringify(card.options) : null] *)
Definition optionsColumn (card : Flashcard.t) : option jsstring :=
  match Flashcard.options card with
  | Some v => if truthy v then Some (stringify v) else None
  | None => None
  end.

(** [prisma.flashcard.create({ data: { userId, question, answer, subject,
    difficultyLevel, educationLevel, moduleId, questionType, options,
    isAIGenerated: true } })] *)
Definition createFlashcard (userId : jsstring) (subject educationLevel
           difficultyLevel : option jsstring) (moduleId : jsstring) (now : Z)
           (card : Flashcard.t) : option FlashcardRow.t :=
  match Flashcard.question card, Flashcard.answer card,
        FlashcardsAI.difficultyColumn card difficultyLevel,
        questionTypeColumn card with
  | JStr q, JStr a, Some d, Some qt =>
      Some {| FlashcardRow.userId := userId;
              FlashcardRow.question := q;
              FlashcardRow.answer := a;
              FlashcardRow.subject := FlashcardsAI.orUndefined subject;
              FlashcardRow.difficultyLevel := d;
              FlashcardRow.educationLevel :=
                FlashcardsAI.orUndefined educationLevel;
              FlashcardRow.moduleId := Some moduleId;
              FlashcardRow.questionType := qt;
              FlashcardRow.options := optionsColumn card;
              FlashcardRow.isAIGenerated := true;
              FlashcardRow.createdAt := now |}
  | _, _, _, _ => None
  end.

(** [Promise.all(generatedModule.flashcards.map(card =>
    prisma.flashcard.create(...)))]: every create is issued; [clock i] is
    the time at which the [i]-th one is stored.  The rows of the accepted
    creates, in order, and whether all were accepted. *)
Fixpoint saveAll (userId : jsstring) (subject educationLevel
         difficultyLevel : option jsstring) (moduleId : jsstring)
         (clock : nat -> Z) (i : nat) (cards : list Flashcard.t)
  : list FlashcardRow.t * bool :=
  match cards with
  | [] => ([], true)
  | card :: rest =>
      let (rows, ok) :=
        saveAll userId subject educationLevel difficultyLevel moduleId
                clock (S i) rest in
      match createFlashcard userId subject educationLevel difficultyLevel
                            moduleId (clock i) card with
      | Some row => (row :: rows, ok)
      | None => (rows, false)
      end
  end.

Definition insertModule (db : DB) (row : StudyModuleRow.t)
           (rows : list FlashcardRow.t) : DB :=
  {| studyModule := studyModule db ++ [row];
     flashcard := flashcard db ++ rows |}.

(** The clock of one request: [checkedModules] and [checkedCards] are
    the moments at which the two checks read it, [savedModule] and
    [savedCard i] those at which the module and the [i]-th card are
    stored. *)
Record Clock : Type := {
  checkedModules : Z;
  checkedCards : Z;
  savedModule : Z;
  savedCard : nat -> Z
}.

(** [router.post("/ai/generate", authenticate, async (req, res) => ...)].
    [aiService] is [None] when [getAIService()] throws, and else the
    adapter's [generateStudyModule]; [inTime] tells whether that call
    settles before the two-minute timer of the [Promise.race].  After
    the saves the handler only reads back, with [JSON.parse], texts that
    [JSON.stringify] wrote, which does not throw. *)
Definition generateHandler (db : DB) (clock : Clock) (newId : jsstring)
           (user : option User.t) (body : Body)
           (aiService : option (GenerateStudyModuleOptions.t ->
                                result StudyModuleWithFlashcards.t))
           (inTime : bool) : Response * DB :=
  match User.getUserIdFromRequest user with
  | None => (Status500, db)
  | Some userId =>
      let n := match numberOfCards body with Some z => z | None => 20 end in
      match RateLimit.checkStudyModuleDailyLimit db (checkedModules clock)
                                                 userId,
            RateLimit.checkAICardsDailyLimit db (checkedCards clock)
                                             userId n with
      | Some studyModuleLimit, Some aiCardsLimit =>
          if negb (RateLimit.allowed studyModuleLimit) then
            (Status429
               {| type := RateLimitMiddleware.study_modules;
                  current := RateLimit.currentCount studyModuleLimit;
                  requested := None;
                  limit := RateLimit.limit studyModuleLimit;
                  remaining := 0 |}, db)
          else if negb (RateLimit.cardsAllowed aiCardsLimit) then
            (Status429
               {| type := RateLimitMiddleware.ai_cards;
                  current := RateLimit.cardsCurrentCount aiCardsLimit;
                  requested := Some n;
                  limit := RateLimit.cardsLimit aiCardsLimit;
                  remaining := RateLimit.cardsRemaining aiCardsLimit |}, db)
          else
            match topic body with
            | Some (JStr t) =>
                if negb (nonEmpty t) || negb (nonEmpty (trim t))
                then (Status400, db)
                else if (200 <? Z.of_nat (List.length t)) then (Status400, db)
                else if negb (n =? 0) && ((n <? 5) || (100 <? n))
                then (Status400, db)
                else
                  let options :=
                    {| GenerateStudyModuleOptions.topic := trim t;
                       GenerateStudyModuleOptions.subject :=
                         FlashcardsAI.orUndefined (subject body);
                       GenerateStudyModuleOptions.educationLevel :=
                         FlashcardsAI.orUndefined (educationLevel body);
                       GenerateStudyModuleOptions.difficultyLevel :=
                         FlashcardsAI.orUndefined (difficultyLevel body);
                       GenerateStudyModuleOptions.numberOfCards :=
                         Some (FlashcardsAI.cardsOr (numberOfCards body) 20);
                       GenerateStudyModuleOptions.estimatedHours :=
                         hoursOrUndefined (estimatedHours body) |} in
                  match aiService with
                  | None => (Status500, db)
                  | Some generateStudyModule =>
                      if negb inTime then (Status500, db)
                      else
                        match generateStudyModule options with
                        | Failed _ => (Status500, db)
                        | Ok generatedModule =>
                            match createStudyModule db newId userId
                                    (savedModule clock)
                                    (StudyModuleWithFlashcards.module
                                       generatedModule) with
                            | None => (Status500, db)
                            | Some saved =>
                                let (rows, ok) :=
                                  saveAll userId
                                    (GenerateStudyModuleOptions.subject options)
                                    (GenerateStudyModuleOptions.educationLevel
                                       options)
                                    (GenerateStudyModuleOptions.difficultyLevel
                                       options)
                                    (StudyModuleRow.id saved)
                                    (savedCard clock) 0
                                    (StudyModuleWithFlashcards.flashcards
                                       generatedModule) in
                                (if ok then Status201 saved (List.length rows)
                                 else Status500,
                                 insertModule db saved rows)
                            end
                        end
                  end
            | _ => (Status400, db)
            end
      | _, _ => (Status500, db)
      end
  end.

End Persist.

(** Every card that names a module names a stored one: the foreign key
    [flashcards_moduleId_fkey] of the migration. *)
Definition referential (db : DB) : Prop :=
  Forall (fun r =>
            match FlashcardRow.moduleId r with
            | Some m =>
                existsb (fun s => jsstring_eqb (StudyModuleRow.id s) m)
                        (studyModule db) = true
            | None => True
            end)
         (flashcard db).

(** An adapter that returns no more cards than it was asked for. *)
Definition bounded (generateStudyModule :
                      GenerateStudyModuleOptions.t ->
                      result StudyModuleWithFlashcards.t) : Prop :=
  forall options generated n,
    generateStudyModule options = Ok generated ->
    GenerateStudyModuleOptions.numberOfCards options = Some n ->
    0 <= n ->
    Z.of_nat (List.length (StudyModuleWithFlashcards.flashcards generated))
    <= n.

End StudyModules.

(** ** The environment and the file system *)

Module ProcessEnv.
Import JSON.

(** [process.env]: the value of a variable, [None] when it is not set. *)
Definition t : Type := jsstring -> option jsstring.

(** [process.env.NAME || fallback] *)
Definition orElse (env : t) (name fallback : jsstring) : jsstring :=
  match env name with
  | Some v => if nonEmpty v then v else fallback
  | None => fallback
  end.

(** [!!process.env.NAME] *)
Definition isSet (env : t) (name : jsstring) : bool :=
  match env name with
  | Some v => nonEmpty v
  | None => false
  end.

End ProcessEnv.

Module FileSystem.

(** What the credentials loader uses of Node's [path], [process] and
    [fs]: [readFile p] is [None] when [fs.existsSync(p)] is false or
    [fs.readFileSync(p, "utf-8")] throws. *)
Record t : Type := {
  isAbsolute : jsstring -> bool;
  join : jsstring -> jsstring -> jsstring;
  cwd : jsstring;
  readFile : jsstring -> option jsstring
}.

End FileSystem.

(** ** utils/vertex-ai-credentials.ts (lines 1-111) *)

Module VertexCredentials.
Import JSON JSString.

(** What makes [getVertexAICredentials] throw. *)
Inductive Problem : Type :=
| NotSet              (* '... is not set or is empty ...' *)
| FileUnreadable      (* 'Failed to read credentials file: ...' *)
| Unparsable          (* 'Failed to parse GOOGLE_VERTEX_AI_CREDENTIALS ...' *)
| PropertyOfNull      (* the TypeError of reading a property of null *)
| MissingProjectId    (* 'Missing project_id in ...' *)
| MissingPrivateKey   (* 'Missing private_key in ...' *)
| MissingClientEmail. (* 'Missing client_email in ...' *)

Inductive outcome (A : Type) : Type :=
| Returned (a : A)
| Thrown (problem : Problem).
Arguments Returned {A} a.
Arguments Thrown {A} problem.

(** [s.replace(/^\.\//, empty)] *)
Definition stripDotSlash (s : jsstring) : jsstring :=
  if startsWith s (str "./") then skipn 2 s else s.

(** [!x] for a property that may be undefined. *)
Definition missing (x : option json) : bool :=
  match x with
  | Some v => negb (truthy v)
  | None => true
  end.

(** The path that is read when the variable does not hold JSON text. *)
Definition filePath (fs : FileSystem.t) (credentialsEnv : jsstring)
  : jsstring :=
  if FileSystem.isAbsolute fs credentialsEnv then credentialsEnv
  else FileSystem.join fs (FileSystem.cwd fs) (stripDotSlash credentialsEnv).

(** The text given to [JSON.parse]: the variable itself when it starts
    with a brace or a double quote, and else the file it names. *)
Definition credentialsJson (fs : FileSystem.t) (credentialsEnv : jsstring)
  : option jsstring :=
  if negb (startsWith credentialsEnv (str "{"))
     && negb (startsWith credentialsEnv (dq "'"))
  then FileSystem.readFile fs (filePath fs credentialsEnv)
  else Some credentialsEnv.

(** [GOOGLE_VERTEX_AI_CREDENTIALS] is the value of the variable of that
    name. *)
Definition getVertexAICredentials (fs : FileSystem.t)
           (GOOGLE_VERTEX_AI_CREDENTIALS : option jsstring) : outcome json :=
  match option_map trim GOOGLE_VERTEX_AI_CREDENTIALS with
  | None => Thrown NotSet
  | Some credentialsEnv =>
      if negb (nonEmpty credentialsEnv)
         || jsstring_eqb credentialsEnv (dq "''")
      then Thrown NotSet
      else
        match credentialsJson fs credentialsEnv with
        | None => Thrown FileUnreadable
        | Some text =>
            match parse text with
            | None => Thrown Unparsable
            | Some credentials =>
                match getProp credentials (str "project_id"),
                      getProp credentials (str "private_key"),
                      getProp credentials (str "client_email") with
                | Some project_id, Some private_key, Some client_email =>
                    if missing project_id then Thrown MissingProjectId
                    else if missing private_key then Thrown MissingPrivateKey
                    else if missing client_email then Thrown MissingClientEmail
                    else Returned credentials
                | _, _, _ => Thrown PropertyOfNull
                end
            end
        end
  end.

(** [credentials.project_id]; [None] is [undefined]. *)
Definition getVertexAIProjectId (fs : FileSystem.t)
           (GOOGLE_VERTEX_AI_CREDENTIALS : option jsstring)
  : outcome (option json) :=
  match getVertexAICredentials fs GOOGLE_VERTEX_AI_CREDENTIALS with
  | Returned credentials =>
      match getProp credentials (str "project_id") with
      | Some project_id => Returned project_id
      | None => Thrown PropertyOfNull
      end
  | Thrown problem => Thrown problem
  end.

Definition getVertexAILocation (env : ProcessEnv.t) : jsstring :=
  ProcessEnv.orElse env (str "GOOGLE_VERTEX_AI_LOCATION") (str "us-central1").

(** services/vertex-ai.service.ts, initializeVertexAI (line 424):
    [private_key.replace(/\\n/g, "\n")], every backslash followed by
    [n] becomes a line feed. *)
Fixpoint unescapeNewlines (s : jsstring) : jsstring :=
  match s with
  | [] => []
  | c :: r =>
      match r with
      | d :: r' =>
          if ((c =? 92) && (d =? 110))%N then 10%N :: unescapeNewlines r'
          else c :: unescapeNewlines r
      | [] => [c]
      end
  end.

End VertexCredentials.

(** ** config/ai.config.ts: the configuration read from the environment
       (lines 13-45 and 71-217) *)

Module AIConfigEnv.
Import JSON AIConfig.

Definition isProviderConfigured (env : ProcessEnv.t) (provider : jsstring)
  : bool :=
  if jsstring_eqb provider VERTEX_AI then
    ProcessEnv.isSet env (str "GOOGLE_VERTEX_AI_CREDENTIALS")
    && ProcessEnv.isSet env (str "GOOGLE_CLOUD_PROJECT")
  else if jsstring_eqb provider GOOGLE_API_KEY then
    ProcessEnv.isSet env (str "GOOGLE_GEMINI_API_KEY")
  else if jsstring_eqb provider OPENAI then
    ProcessEnv.isSet env (str "OPENAI_API_KEY")
  else if jsstring_eqb provider OPENROUTER then
    ProcessEnv.isSet env (str "OPENROUTER_API_KEY")
    && ProcessEnv.isSet env (str "OPENROUTER_BASE_URL")
  else false.

(** The four members of [AIConfig.credentials]. *)
Module VertexAI.
Record t : Type := {
  credentials : jsstring;
  projectId : jsstring;
  location : jsstring;
  model : jsstring;
  temperature : jsstring;
  maxOutputTokens : jsstring
}.
End VertexAI.

Module GoogleAPIKey.
Record t : Type := {
  apiKey : jsstring;
  model : jsstring;
  temperature : jsstring;
  maxOutputTokens : jsstring
}.
End GoogleAPIKey.

Module OpenAI.
Record t : Type := {
  apiKey : jsstring;
  model : jsstring;
  temperature : jsstring;
  maxTokens : jsstring
}.
End OpenAI.

Module OpenRouter.
Record t : Type := {
  apiKey : jsstring;
  baseURL : jsstring;
  model : jsstring;
  temperature : jsstring;
  maxTokens : jsstring
}.
End OpenRouter.

Record Credentials : Type := {
  vertexAI : VertexAI.t;
  googleAPIKey : GoogleAPIKey.t;
  openAI : OpenAI.t;
  openRouter : OpenRouter.t
}.

Record t : Type := {
  provider : jsstring;
  isConfigured : bool;
  credentials : Credentials
}.

(** The configuration, and the warnings [getAIProvider] wrote. *)
Definition getAIConfig (env : ProcessEnv.t) : t * list warning :=
  let (provider, warned) := getAIProvider (env (str "AI_PROVIDER")) in
  let get := ProcessEnv.orElse env in
  ({| provider := provider;
      isConfigured := isProviderConfigured env provider;
      credentials :=
        {| vertexAI :=
             {| VertexAI.credentials :=
                  get (str "GOOGLE_VERTEX_AI_CREDENTIALS") [];
                VertexAI.projectId := get (str "GOOGLE_CLOUD_PROJECT") [];
                VertexAI.location :=
                  get (str "GOOGLE_VERTEX_AI_LOCATION") (str "us-central1");
                VertexAI.model :=
                  get (str "GOOGLE_VERTEX_AI_MODEL") (str "gemini-1.5-pro");
                VertexAI.temperature :=
                  get (str "GOOGLE_VERTEX_AI_TEMPERATURE") (str "0.7");
                VertexAI.maxOutputTokens :=
                  get (str "GOOGLE_VERTEX_AI_MAX_OUTPUT_TOKENS")
                      (str "2048") |};
           googleAPIKey :=
             {| GoogleAPIKey.apiKey := get (str "GOOGLE_GEMINI_API_KEY") [];
                GoogleAPIKey.model :=
                  get (str "GOOGLE_GEMINI_MODEL") (str "gemini-2.0-flash");
                GoogleAPIKey.temperature :=
                  get (str "GOOGLE_GEMINI_TEMPERATURE") (str "0.7");
                GoogleAPIKey.maxOutputTokens :=
                  get (str "GOOGLE_GEMINI_MAX_OUTPUT_TOKENS") (str "2048") |};
           openAI :=
             {| OpenAI.apiKey := get (str "OPENAI_API_KEY") [];
                OpenAI.model := get (str "OPENAI_MODEL") (str "gpt-4");
                OpenAI.temperature :=
                  get (str "OPENAI_TEMPERATURE") (str "0.7");
                OpenAI.maxTokens :=
                  get (str "OPENAI_MAX_TOKENS") (str "2048") |};
           openRouter :=
             {| OpenRouter.apiKey := get (str "OPENROUTER_API_KEY") [];
                OpenRouter.baseURL :=
                  get (str "OPENROUTER_BASE_URL")
                      (str "https://openrouter.ai/api/v1");
                OpenRouter.model :=
                  get (str "OPENROUTER_MODEL")
                      (str "anthropic/claude-3-sonnet");
                OpenRouter.temperature :=
                  get (str "OPENROUTER_TEMPERATURE") (str "0.7");
                OpenRouter.maxTokens :=
                  get (str "OPENROUTER_MAX_TOKENS") (str "2048") |} |} |},
   warned).

(** The lines [validateAIConfig] writes after the provider line: that
    the provider is configured, or that it is not and which variables
    it requires. *)
Inductive Verdict : Type :=
| Configured (provider : jsstring)
| NotConfigured (provider : jsstring) (required : list jsstring).

Definition required (provider : jsstring) : list jsstring :=
  if jsstring_eqb provider VERTEX_AI then
    [ str "GOOGLE_VERTEX_AI_CREDENTIALS"; str "GOOGLE_CLOUD_PROJECT" ]
  else if jsstring_eqb provider GOOGLE_API_KEY then
    [ str "GOOGLE_GEMINI_API_KEY" ]
  else if jsstring_eqb provider OPENAI then
    [ str "OPENAI_API_KEY" ]
  else if jsstring_eqb provider OPENROUTER then
    [ str "OPENROUTER_API_KEY"; str "OPENROUTER_BASE_URL" ]
  else [].

Definition validateAIConfig (env : ProcessEnv.t) : Verdict :=
  let config := fst (getAIConfig env) in
  if negb (isConfigured config)
  then NotConfigured (provider config) (required (provider config))
  else Configured (provider config).

Section ModelConfig.

(** The runtime's numbers, [parseFloat] and [parseInt(_, 10)]. *)
Variable Num : Type.
Variable parseFloat : jsstring -> Num.
Variable parseInt10 : jsstring -> Num.

Record ModelConfig : Type := {
  model : jsstring;
  temperature : Num;
  maxTokens : Num
}.

(** [None]: 'Unknown AI provider' is thrown. *)
Definition getModelConfig (env : ProcessEnv.t) : option ModelConfig :=
  let config := fst (getAIConfig env) in
  if jsstring_eqb (provider config) VERTEX_AI then
    let vertexAI := vertexAI (credentials config) in
    Some {| model := VertexAI.model vertexAI;
            temperature := parseFloat (VertexAI.temperature vertexAI);
            maxTokens := parseInt10 (VertexAI.maxOutputTokens vertexAI) |}
  else if jsstring_eqb (provider config) GOOGLE_API_KEY then
    let googleAPIKey := googleAPIKey (credentials config) in
    Some {| model := GoogleAPIKey.model googleAPIKey;
            temperature := parseFloat (GoogleAPIKey.temperature googleAPIKey);
            maxTokens :=
              parseInt10 (GoogleAPIKey.maxOutputTokens googleAPIKey) |}
  else if jsstring_eqb (provider config) OPENAI then
    let openAI := openAI (credentials config) in
    Some {| model := OpenAI.model openAI;
            temperature := parseFloat (OpenAI.temperature openAI);
            maxTokens := parseInt10 (OpenAI.maxTokens openAI) |}
  else if jsstring_eqb (provider config) OPENROUTER then
    let openRouter := openRouter (credentials config) in
    Some {| model := OpenRouter.model openRouter;
            temperature := parseFloat (OpenRouter.temperature openRouter);
            maxTokens := parseInt10 (OpenRouter.maxTokens openRouter) |}
  else None.

End ModelConfig.

End AIConfigEnv.

(** ** The adapters' constructors and the factory's state *)

Module Services.
Import JSON AIConfig.

(** services/openai.service.ts, class OpenAIService: the fields and the
    constructor (lines 17-28); [None]: the constructor throws. *)
Record OpenAIService : Type := {
  apiKey : jsstring;
  initialized : bool
}.

Definition newOpenAIService (env : ProcessEnv.t) : option OpenAIService :=
  let apiKey := ProcessEnv.orElse env (str "OPENAI_API_KEY") [] in
  if negb (nonEmpty apiKey) then None
  else Some {| apiKey := apiKey; initialized := true |}.

(** [getOpenAIService] (lines 294-299), on the module's [serviceInstance]:
    what it returns, which is also what [serviceInstance] holds
    afterwards; [None] when the constructor throws. *)
Definition getOpenAIService (serviceInstance : option OpenAIService)
           (env : ProcessEnv.t) : option OpenAIService :=
  match serviceInstance with
  | Some instance => Some instance
  | None => newOpenAIService env
  end.

(** services/vertex-ai.service.ts, class VertexAIService: the field and
    the constructor. *)
Record VertexAIService : Type := {
  vertexInitialized : bool
}.

Definition newVertexAIService (fs : FileSystem.t) (env : ProcessEnv.t)
  : option VertexAIService :=
  match VertexCredentials.getVertexAICredentials fs
          (env (str "GOOGLE_VERTEX_AI_CREDENTIALS")) with
  | VertexCredentials.Returned credentials =>
      if negb (truthy credentials) then None
      else Some {| vertexInitialized := true |}
  | VertexCredentials.Thrown _ => None
  end.

Definition getVertexAIService (serviceInstance : option VertexAIService)
           (fs : FileSystem.t) (env : ProcessEnv.t)
  : option VertexAIService :=
  match serviceInstance with
  | Some instance => Some instance
  | None => newVertexAIService fs env
  end.

Section Factory.

(** The adapters of services/google-gemini.service.ts and
    services/openrouter.service.ts. *)
Variables GoogleGeminiService OpenRouterService : Type.

Inductive AIService : Type :=
| Vertex (instance : VertexAIService)
| GoogleGemini (instance : GoogleGeminiService)
| OpenAI (instance : OpenAIService)
| OpenRouter (instance : OpenRouterService).

(** The module-level variables: [aiServiceInstance] of
    services/ai.service.ts and the [serviceInstance] of each adapter
    module among the sources. *)
Record Instances : Type := {
  aiServiceInstance : option AIService;
  openAIInstance : option OpenAIService;
  vertexInstance : option VertexAIService
}.

(** One call of [getAIService] (services/ai.service.ts, lines 20-62):
    what it returns, [None] when it throws, and the module-level
    variables afterwards.  [gemini] and [openRouter] are the outcomes
    that [getGoogleGeminiService()] and [getOpenRouterService()] have at
    this call. *)
Definition getAIService (st : Instances) (fs : FileSystem.t)
           (env : ProcessEnv.t) (gemini : option GoogleGeminiService)
           (openRouter : option OpenRouterService)
  : option AIService * Instances :=
  match aiServiceInstance st with
  | Some instance => (Some instance, st)
  | None =>
      let provider := fst (getAIProvider (env (str "AI_PROVIDER"))) in
      if jsstring_eqb provider VERTEX_AI then
        match getVertexAIService (vertexInstance st) fs env with
        | Some s =>
            (Some (Vertex s),
             {| aiServiceInstance := Some (Vertex s);
                openAIInstance := openAIInstance st;
                vertexInstance := Some s |})
        | None => (None, st)
        end
      else if jsstring_eqb provider GOOGLE_API_KEY then
        match gemini with
        | Some s =>
            (Some (GoogleGemini s),
             {| aiServiceInstance := Some (GoogleGemini s);
                openAIInstance := openAIInstance st;
                vertexInstance := vertexInstance st |})
        | None => (None, st)
        end
      else if jsstring_eqb provider OPENAI then
        match getOpenAIService (openAIInstance st) env with
        | Some s =>
            (Some (OpenAI s),
             {| aiServiceInstance := Some (OpenAI s);
                openAIInstance := Some s;
                vertexInstance := vertexInstance st |})
        | None => (None, st)
        end
      else if jsstring_eqb provider OPENROUTER then
        match openRouter with
        | Some s =>
            (Some (OpenRouter s),
             {| aiServiceInstance := Some (OpenRouter s);
                openAIInstance := openAIInstance st;
                vertexInstance := vertexInstance st |})
        | None => (None, st)
        end
      else (None, st)
  end.

(** [resetAIService] (lines 67-69) *)
Definition resetAIService (st : Instances) : Instances :=
  {| aiServiceInstance := None;
     openAIInstance := openAIInstance st;
     vertexInstance := vertexInstance st |}.

(** The state at start-up, and what every call keeps true: the adapter
    that [aiServiceInstance] holds is the one its own module holds. *)
Definition initial : Instances :=
  {| aiServiceInstance := None;
     openAIInstance := None;
     vertexInstance := None |}.

Definition coherent (st : Instances) : Prop :=
  match aiServiceInstance st with
  | Some (OpenAI s) => openAIInstance st = Some s
  | Some (Vertex s) => vertexInstance st = Some s
  | _ => True
  end.

(** The circumstances of one later call. *)
Record Call : Type := {
  fs : FileSystem.t;
  env : ProcessEnv.t;
  gemini : option GoogleGeminiService;
  openRouter : option OpenRouterService
}.

(** What a sequence of calls returns, one after the other. *)
Fixpoint getAIServiceEach (st : Instances) (calls : list Call)
  : list (option AIService) :=
  match calls with
  | [] => []
  | c :: rest =>
      let (r, st') := getAIService st (fs c) (env c) (gemini c)
                                   (openRouter c) in
      r :: getAIServiceEach st' rest
  end.

End Factory.

End Services.

(** ** Sample data for the study-module route *)

Module SampleModules.
Import Store.

(** The adapter of the sources behind a provider whose plan is
    [Sample.plan] and whose every answer holds five cards. *)
Definition adapter (options : GenerateStudyModuleOptions.t)
  : result StudyModuleWithFlashcards.t :=
  Adapter.outcome
    (Adapter.generateStudyModule (Ok Sample.plan) Sample.steady options).

Definition body (numberOfCards : option Z) : StudyModules.Body :=
  {| StudyModules.topic := Some (JSON.JStr (str "Photosynthesis"));
     StudyModules.subject := None;
     StudyModules.educationLevel := None;
     StudyModules.difficultyLevel := None;
     StudyModules.numberOfCards := numberOfCards;
     StudyModules.estimatedHours := None |}.

(** Every reading of the clock is 2025-11-03T06:06:40Z. *)
Definition clock : StudyModules.Clock :=
  {| StudyModules.checkedModules := Sample.morning;
     StudyModules.checkedCards := Sample.morning;
     StudyModules.savedModule := Sample.morning;
     StudyModules.savedCard := fun _ => Sample.morning |}.

Definition user : option User.t :=
  Some {| User.userId := Some Sample.alice |}.

(** No sample card has options, so nothing is serialized. *)
Definition stringify (v : JSON.json) : jsstring := [].

End SampleModules.

(** ** Providers that deliver what they are asked for *)

Module Providers.

(** Every request for a positive number of cards is answered with
    exactly that many. *)
Definition obedient
           (gen : nat -> GenerateFlashcardsOptions.t ->
                  result (list Flashcard.t)) : Prop :=
  forall i options n,
    GenerateFlashcardsOptions.numberOfCards options = Some (Fin n) ->
    0 < n ->
    exists cards,
      gen i options = Ok cards /\ Z.of_nat (List.length cards) = n.

(** A sample of such a provider. *)
Definition exact (i : nat) (options : GenerateFlashcardsOptions.t)
  : result (list Flashcard.t) :=
  match GenerateFlashcardsOptions.numberOfCards options with
  | Some (Fin n) => Ok (repeat (Sample.card "q") (Z.to_nat n))
  | _ => Ok []
  end.

End Providers.

(** ** routes/study-modules.ts: DELETE /:id (lines 445-468) *)

Module StudyModulesDelete.
Import JSON Store.

Inductive Response : Type :=
| Status200
| Status404
| Status500.

(** [prisma.studyModule.findFirst({ where: { id, userId } })] *)
Definition findFirst (db : DB) (id userId : jsstring)
  : option StudyModuleRow.t :=
  find (fun r => jsstring_eqb (StudyModuleRow.id r) id
                 && jsstring_eqb (StudyModuleRow.userId r) userId)
       (studyModule db).

(** What the foreign key [flashcards_moduleId_fkey] of the migration,
    declared [ON DELETE SET NULL], does to a card when the module [id]
    is deleted. *)
Definition setNull (id : jsstring) (r : FlashcardRow.t) : FlashcardRow.t :=
  match FlashcardRow.moduleId r with
  | Some m =>
      if jsstring_eqb m id then
        {| FlashcardRow.userId := FlashcardRow.userId r;
           FlashcardRow.question := FlashcardRow.question r;
           FlashcardRow.answer := FlashcardRow.answer r;
           FlashcardRow.subject := FlashcardRow.subject r;
           FlashcardRow.difficultyLevel := FlashcardRow.difficultyLevel r;
           FlashcardRow.educationLevel := FlashcardRow.educationLevel r;
           FlashcardRow.moduleId := None;
           FlashcardRow.questionType := FlashcardRow.questionType r;
           FlashcardRow.options := FlashcardRow.options r;
           FlashcardRow.isAIGenerated := FlashcardRow.isAIGenerated r;
           FlashcardRow.createdAt := FlashcardRow.createdAt r |}
      else r
  | None => r
  end.

(** [prisma.studyModule.delete({ where: { id } })] for a stored [id]. *)
Definition deleteStudyModule (db : DB) (id : jsstring) : DB :=
  {| studyModule :=
       filter (fun r => negb (jsstring_eqb (StudyModuleRow.id r) id))
              (studyModule db);
     flashcard := map (setNull id) (flashcard db) |}.

(** [router.delete("/:id", authenticate, async (req, res) => ...)];
    [id] is [req.params.id]. *)
Definition deleteHandler (db : DB) (user : option User.t) (id : jsstring)
  : Response * DB :=
  match User.getUserIdFromRequest user with
  | None => (Status500, db)
  | Some userId =>
      match findFirst db id userId with
      | None => (Status404, db)
      | Some existing => (Status200, deleteStudyModule db id)
      end
  end.

End StudyModulesDelete.

(** ** Sample data for the configuration *)

Module SampleConfig.
Import JSON JSString.

(** A service-account file at /app/credentials.json, and a process that
    runs in /app. *)
Definition credentialsText : jsstring :=
  dq "{'type':'service_account','project_id':'recall-1','private_key':'-----BEGIN-----\nMIIE\n-----END-----','client_email':'ai@recall-1.example'}".

Definition fs : FileSystem.t :=
  {| FileSystem.isAbsolute := fun p => startsWith p (str "/");
     FileSystem.join := fun a b => a ++ str "/" ++ b;
     FileSystem.cwd := str "/app";
     FileSystem.readFile :=
       fun p => if jsstring_eqb p (str "/app/credentials.json")
                then Some credentialsText
                else None |}.

(** An environment given as the list of its variables. *)
Definition envOf (vars : list (string * jsstring)) : ProcessEnv.t :=
  fun name =>
    match find (fun v => jsstring_eqb (str (fst v)) name) vars with
    | Some v => Some (snd v)
    | None => None
    end.

(** Vertex AI selected, the credentials given as a path, and
    GOOGLE_CLOUD_PROJECT not set. *)
Definition vertexEnv : ProcessEnv.t :=
  envOf [ ("AI_PROVIDER", str "Vertex-AI");
          ("GOOGLE_VERTEX_AI_CREDENTIALS", str " ./credentials.json ") ]%string.

(** OpenAI selected, with a key and a model. *)
Definition openAIEnv : ProcessEnv.t :=
  envOf [ ("AI_PROVIDER", str "openai");
          ("OPENAI_API_KEY", str "sk-1");
          ("OPENAI_MODEL", str "gpt-4o-mini") ]%string.

(** An adapter that answers [text] when asked for at most [most] cards
    and fails when asked for more. *)
Definition upTo (most : Z) (text : jsstring) : FlashcardsAI.AIService :=
  {| FlashcardsAI.generateFlashcards :=
       Adapter.generateFlashcards (Sample.answers text);
     FlashcardsAI.generateFlashcardsFromTopic :=
       fun options =>
         match GenerateFlashcardsFromTopicOptions.numberOfCards options with
         | Some (Fin n) =>
             if n <=? most
             then Adapter.generateFlashcardsFromTopic (Sample.answers text)
                                                      options
             else Failed ProviderError
         | _ => Failed ProviderError
         end |}.

End SampleConfig.

(** ** Sequences of requests to POST /api/study-modules/ai/generate *)

Module Requests.
Import Store.

(** One request and its circumstances. *)
Record t : Type := {
  clock : StudyModules.Clock;
  newId : jsstring;
  userId : jsstring;
  body : StudyModules.Body;
  aiService : option (GenerateStudyModuleOptions.t ->
                      result StudyModuleWithFlashcards.t);
  inTime : bool
}.

Section Serve.

Variable stringify : JSON.json -> jsstring.

(** The store after the handler has served the request. *)
Definition serve (db : DB) (r : t) : DB :=
  snd (StudyModules.generateHandler stringify db (clock r) (newId r)
         (Some {| User.userId := Some (userId r) |}) (body r) (aiService r)
         (inTime r)).

(** The store after a sequence of requests, served one after the
    other. *)
Definition serveAll (db : DB) (rs : list t) : DB := fold_left serve rs db.

End Serve.

(** A request of an authenticated user, checked on the UTC day that
    starts at [start], whose [numberOfCards] is not 0, and whose adapter
    returns no more cards than it is asked for. *)
Definition regular (start : Z) (r : t) : Prop :=
  JSDate.validNow (StudyModules.checkedModules (clock r))
  /\ JSDate.validNow (StudyModules.checkedCards (clock r))
  /\ DailyUsage.startOfUTCDay (StudyModules.checkedModules (clock r)) = start
  /\ DailyUsage.startOfUTCDay (StudyModules.checkedCards (clock r)) = start
  /\ JSON.nonEmpty (userId r) = true
  /\ StudyModules.numberOfCards (body r) <> Some 0
  /\ match aiService r with
     | Some generate => StudyModules.bounded generate
     | None => True
     end.

End Requests.

(* ================================================================== *)
(** * Part II: theorems                                                *)
(* ================================================================== *)

Ltac zdm := Z.div_mod_to_equations; lia.

Module JSDateFacts.
Import JSDate.

Lemma quot4_succ y :
  (y + 1 - 1969) / 4 = (y - 1969) / 4 + (if y mod 4 =? 0 then 1 else 0).
Proof. destruct (Z.eqb_spec (y mod 4) 0); zdm. Qed.

Lemma quot100_succ y :
  (y + 1 - 1901) / 100 = (y - 1901) / 100 + (if y mod 100 =? 0 then 1 else 0).
Proof. destruct (Z.eqb_spec (y mod 100) 0); zdm. Qed.

Lemma quot400_succ y :
  (y + 1 - 1601) / 400 = (y - 1601) / 400 + (if y mod 400 =? 0 then 1 else 0).
Proof. destruct (Z.eqb_spec (y mod 400) 0); zdm. Qed.

Lemma DayFromYear_succ y : DayFromYear (y + 1) = DayFromYear y + DaysInYear y.
Proof.
  unfold DayFromYear, DaysInYear.
  rewrite quot4_succ, quot100_succ, quot400_succ.
  assert (H1 : y mod 100 = 0 -> y mod 4 = 0) by zdm.
  assert (H2 : y mod 400 = 0 -> y mod 100 = 0) by zdm.
  destruct (Z.eqb_spec (y mod 4) 0), (Z.eqb_spec (y mod 100) 0),
    (Z.eqb_spec (y mod 400) 0); cbv [negb]; lia.
Qed.

Lemma DaysInYear_cases y : DaysInYear y = 365 \/ DaysInYear y = 366.
Proof.
  unfold DaysInYear.
  destruct (y mod 4 =? 0), (y mod 100 =? 0), (y mod 400 =? 0); cbv [negb]; auto.
Qed.

Lemma DayFromYear_pred y : DayFromYear (y - 1) < DayFromYear y.
Proof.
  pose proof (DayFromYear_succ (y - 1)) as H.
  replace (y - 1 + 1) with y in H by lia.
  destruct (DaysInYear_cases (y - 1)); lia.
Qed.

Lemma DayFromYear_mono a b : a <= b -> DayFromYear a <= DayFromYear b.
Proof.
  intros Hab. replace b with (a + Z.of_nat (Z.to_nat (b - a))) by lia.
  induction (Z.to_nat (b - a)) as [|n IH].
  - replace (a + Z.of_nat 0) with a by lia. lia.
  - pose proof (DayFromYear_pred (a + Z.of_nat (S n))) as H.
    replace (a + Z.of_nat (S n) - 1) with (a + Z.of_nat n) in H by lia. lia.
Qed.

Lemma DayFromYear_after k :
  0 <= k -> 365 * k <= DayFromYear (1970 + k) <= 366 * k.
Proof. unfold DayFromYear. intros. zdm. Qed.

Lemma DayFromYear_before k :
  k <= 0 -> 366 * k <= DayFromYear (1970 + k) <= 365 * k.
Proof. unfold DayFromYear. intros. zdm. Qed.

Lemma TimeFromYear_le y t : TimeFromYear y <= t <-> DayFromYear y <= Day t.
Proof. unfold TimeFromYear, Day, msPerDay. split; intros; zdm. Qed.

Lemma largestYear_spec t fuel : forall y,
  Day t < DayFromYear (y + 1) ->
  (exists y', y - Z.of_nat fuel <= y' <= y /\ DayFromYear y' <= Day t) ->
  DayFromYear (largestYear fuel y t) <= Day t
    < DayFromYear (largestYear fuel y t + 1).
Proof.
  induction fuel as [|f IH]; intros y Hup [y' [Hr Hy']]; cbn [largestYear].
  - assert (y' = y) by lia. subst. lia.
  - destruct (Z.leb_spec (TimeFromYear y) t) as [Hle|Hgt].
    + apply TimeFromYear_le in Hle. lia.
    + assert (Hn : ~ DayFromYear y <= Day t).
      { intro Hc. apply TimeFromYear_le in Hc. lia. }
      apply IH.
      * replace (y - 1 + 1) with y by lia. lia.
      * exists y'. split; [|exact Hy'].
        assert (y' <> y) by (intro; subst; lia). lia.
Qed.

(** [YearFromTime] meets its defining property, for every time value. *)
Lemma YearFromTime_spec t :
  DayFromYear (YearFromTime t) <= Day t < DayFromYear (YearFromTime t + 1).
Proof.
  unfold YearFromTime. cbv zeta.
  remember (Day t) as d eqn:Ed.
  destruct (Z.leb_spec 0 d) as [Hd|Hd].
  - rewrite Ed; apply largestYear_spec; rewrite <- Ed.
    + pose proof (DayFromYear_after (d / 365 + 1)) as H.
      replace (1970 + d / 365 + 1) with (1970 + (d / 365 + 1)) by lia.
      assert (0 <= d / 365 + 1) by zdm.
      assert (d < 365 * (d / 365 + 1)) by zdm. lia.
    + exists (1970 + d / 366). split.
      * assert (d / 366 <= d / 365) by zdm.
        rewrite Z2Nat.id by lia. lia.
      * pose proof (DayFromYear_after (d / 366)) as H.
        assert (0 <= d / 366) by zdm.
        assert (366 * (d / 366) <= d) by zdm. lia.
  - rewrite Ed; apply largestYear_spec; rewrite <- Ed.
    + pose proof (DayFromYear_before (d / 366 + 1)) as H.
      replace (1970 + d / 366 + 1) with (1970 + (d / 366 + 1)) by lia.
      assert (d / 366 + 1 <= 0) by zdm.
      assert (d < 366 * (d / 366 + 1)) by zdm. lia.
    + exists (1970 + d / 365). split.
      * assert (d / 365 <= d / 366) by zdm.
        rewrite Z2Nat.id by lia. lia.
      * pose proof (DayFromYear_before (d / 365)) as H.
        assert (d / 365 <= 0) by zdm.
        assert (365 * (d / 365) <= d) by zdm. lia.
Qed.

Lemma DayWithinYear_range t :
  0 <= DayWithinYear t < DaysInYear (YearFromTime t).
Proof.
  unfold DayWithinYear. pose proof (YearFromTime_spec t) as H.
  rewrite DayFromYear_succ in H. lia.
Qed.

(** Reassembling the calendar fields of [t] gives back its day number. *)
Lemma MakeDay_fields t :
  MakeDay (YearFromTime t) (MonthFromTime t) (DateFromTime t) = Day t.
Proof.
  pose proof (DayWithinYear_range t) as Hr.
  assert (Hm : 0 <= MonthFromTime t <= 11).
  { unfold MonthFromTime. cbv zeta.
    repeat match goal with |- context [?a <? ?b] => destruct (a <? b) end; lia. }
  unfold MakeDay. cbv zeta.
  replace (MonthFromTime t / 12) with 0 by zdm.
  replace (MonthFromTime t mod 12) with (MonthFromTime t) by zdm.
  rewrite Z.add_0_r.
  unfold DateFromTime. cbv zeta.
  assert (Hl : InLeapYear t =
               if DaysInYear (YearFromTime t) =? 366 then 1 else 0) by reflexivity.
  rewrite <- Hl.
  assert (Hd : DayWithinYear t + DayFromYear (YearFromTime t) = Day t)
    by (unfold DayWithinYear; lia).
  assert (Hleap : InLeapYear t = DaysInYear (YearFromTime t) - 365).
  { rewrite Hl. destruct (DaysInYear_cases (YearFromTime t)) as [E|E];
      rewrite E; reflexivity. }
  unfold MonthFromTime. cbv zeta.
  repeat match goal with
         | |- context [?a <? ?b] => destruct (Z.ltb_spec a b)
         end; cbn [daysBeforeMonth]; lia.
Qed.

(** [Date.UTC] of the UTC calendar fields of [now] at time 00:00:00.000 is
    the last UTC midnight at or before [now]. *)
Lemma UTC_fields_midnight now :
  validNow now ->
  UTC (getUTCFullYear now) (getUTCMonth now) (getUTCDate now) 0 0 0 0
  = Some (msPerDay * Day now).
Proof.
  intros [H0 H1]. unfold UTC, getUTCFullYear, getUTCMonth, getUTCDate.
  assert (Hy : 1970 <= YearFromTime now).
  { pose proof (YearFromTime_spec now) as [_ Hs].
    destruct (Z.le_gt_cases 1970 (YearFromTime now)) as [|Hlt]; [assumption|].
    pose proof (DayFromYear_mono (YearFromTime now + 1) 1970 ltac:(lia)) as Hm.
    assert (DayFromYear 1970 = 0) by reflexivity.
    assert (0 <= Day now) by (unfold Day, msPerDay; zdm). lia. }
  unfold MakeFullYear.
  replace ((0 <=? YearFromTime now) && (YearFromTime now <=? 99)) with false
    by (symmetry; apply andb_false_iff; right; apply Z.leb_gt; lia).
  rewrite MakeDay_fields. unfold MakeDate, MakeTime, TimeClip.
  assert (Hb : 0 <= Day now * msPerDay <= now) by (unfold Day, msPerDay; zdm).
  replace (Z.abs (Day now * msPerDay + (0 * 3600000 + 0 * 60000 + 0 * 1000 + 0))
             <=? 8640000000000000) with true
    by (symmetry; apply Z.leb_le; lia).
  f_equal. lia.
Qed.

End JSDateFacts.

(** ** The daily rate limiter *)

Module RateLimitFacts.
Import Store RateLimit DailyUsage JSDate.

Lemma countIf_filter {A : Type} (p : A -> bool) (l : list A) :
  Z.of_nat (List.length (filter p l)) = countIf p l.
Proof.
  induction l as [|x r IH]; [reflexivity|].
  cbn [filter countIf]. destruct (p x); cbn [List.length]; lia.
Qed.

Lemma countIf_ext {A : Type} (p q : A -> bool) (l : list A) :
  (forall x, In x l -> p x = q x) -> countIf p l = countIf q l.
Proof.
  induction l as [|x r IH]; intros H; [reflexivity|].
  cbn [countIf]. rewrite (H x (or_introl eq_refl)), IH; [reflexivity|].
  intros y Hy. apply H. right. exact Hy.
Qed.

Lemma countIf_none {A : Type} (p : A -> bool) (l : list A) :
  (forall x, In x l -> p x = false) -> countIf p l = 0.
Proof.
  induction l as [|x r IH]; intros H; [reflexivity|].
  cbn [countIf]. rewrite (H x (or_introl eq_refl)), IH; [reflexivity|].
  intros y Hy. apply H. right. exact Hy.
Qed.

Lemma countIf_nonneg {A : Type} (p : A -> bool) (l : list A) :
  0 <= countIf p l.
Proof.
  induction l as [|x r IH]; cbn [countIf]; [lia|]. destruct (p x); lia.
Qed.

Lemma startOfUTCDay_Day now : startOfUTCDay now = msPerDay * Day now.
Proof. unfold startOfUTCDay, Day, msPerDay. zdm. Qed.

(** For the time value of a running clock, [getStartOfTodayUTC] is the
    last UTC midnight. *)
Lemma getStartOfTodayUTC_midnight now :
  validNow now -> getStartOfTodayUTC now = Some (startOfUTCDay now).
Proof.
  intros Hv. unfold getStartOfTodayUTC.
  rewrite (JSDateFacts.UTC_fields_midnight now Hv).
  rewrite startOfUTCDay_Day. unfold TimeClip.
  destruct Hv as [H0 H1].
  assert (Hb : 0 <= msPerDay * Day now <= now) by (unfold Day, msPerDay; zdm).
  replace (Z.abs (msPerDay * Day now) <=? 8640000000000000) with true
    by (symmetry; apply Z.leb_le; lia).
  reflexivity.
Qed.

Lemma checkStudyModuleDailyLimit_eq db now userId :
  validNow now ->
  checkStudyModuleDailyLimit db now userId =
  Some {| allowed := studyModulesToday db userId now <? 3;
          currentCount := studyModulesToday db userId now;
          limit := 3;
          remaining := Z.max 0 (3 - studyModulesToday db userId now) |}.
Proof.
  intros Hv. unfold checkStudyModuleDailyLimit.
  rewrite (getStartOfTodayUTC_midnight now Hv). cbv zeta.
  unfold studyModuleCount, studyModulesToday, STUDY_MODULES.
  rewrite countIf_filter. reflexivity.
Qed.

Lemma checkAICardsDailyLimit_eq db now userId requested :
  validNow now ->
  checkAICardsDailyLimit db now userId requested =
  Some {| cardsAllowed := aiCardsToday db userId now + requested <=? 30;
          cardsCurrentCount := aiCardsToday db userId now;
          cardsLimit := 30;
          cardsRemaining := Z.max 0 (30 - aiCardsToday db userId now);
          requestedCount := requested |}.
Proof.
  intros Hv. unfold checkAICardsDailyLimit.
  rewrite (getStartOfTodayUTC_midnight now Hv). cbv zeta.
  unfold aiFlashcardCount, aiCardsToday, AI_CARDS.
  rewrite countIf_filter. reflexivity.
Qed.

End RateLimitFacts.

Import Store RateLimit DailyUsage.

(** C1.  For every state of the store, every user and every time value
    of the clock, [checkStudyModuleDailyLimit] denies exactly when the
    user's study modules created since the start of the current UTC day
    number 3 or more, [checkAICardsDailyLimit] denies exactly when the
    user's AI-generated cards of today plus the requested count exceed 30,
    the limits reported are 3 and 30, and [remaining] is
    [max 0 (limit - currentCount)]. *)
Theorem C1_daily_limit_checks db now userId requested :
  JSDate.validNow now ->
  exists m c,
    checkStudyModuleDailyLimit db now userId = Some m
    /\ checkAICardsDailyLimit db now userId requested = Some c
    /\ currentCount m = studyModulesToday db userId now
    /\ cardsCurrentCount c = aiCardsToday db userId now
    /\ (allowed m = false <-> currentCount m >= 3)
    /\ (allowed m = true <-> currentCount m < 3)
    /\ (cardsAllowed c = false <-> cardsCurrentCount c + requested > 30)
    /\ (cardsAllowed c = true <-> cardsCurrentCount c + requested <= 30)
    /\ limit m = 3 /\ cardsLimit c = 30
    /\ remaining m = Z.max 0 (limit m - currentCount m)
    /\ cardsRemaining c = Z.max 0 (cardsLimit c - cardsCurrentCount c)
    /\ requestedCount c = requested.
Proof.
  intros Hv.
  eexists. eexists.
  split; [apply (RateLimitFacts.checkStudyModuleDailyLimit_eq db now userId Hv)|].
  split; [apply (RateLimitFacts.checkAICardsDailyLimit_eq db now userId requested Hv)|].
  cbn [allowed currentCount limit remaining cardsAllowed cardsCurrentCount
       cardsLimit cardsRemaining requestedCount].
  repeat split; try reflexivity; intros H.
  - apply Z.ltb_ge in H. lia.
  - apply Z.ltb_ge. lia.
  - apply Z.ltb_lt in H. lia.
  - apply Z.ltb_lt. lia.
  - apply Z.leb_gt in H. lia.
  - apply Z.leb_gt. lia.
  - apply Z.leb_le in H. lia.
  - apply Z.leb_le. lia.
Qed.

Lemma C1_daily_limit_checks_witness :
  exists m c,
    checkStudyModuleDailyLimit Sample.db Sample.morning Sample.alice = Some m
    /\ checkAICardsDailyLimit Sample.db Sample.morning Sample.alice 28 = Some c
    /\ currentCount m = 2 /\ allowed m = true /\ remaining m = 1
    /\ cardsCurrentCount c = 2 /\ cardsAllowed c = true /\ cardsRemaining c = 28.
Proof.
  destruct (C1_daily_limit_checks Sample.db Sample.morning Sample.alice 28)
    as (m & c & Hm & Hc & Hcm & Hcc & _ & Ham & _ & Hac & Hlm & Hlc & Hrm & Hrc & _).
  - unfold JSDate.validNow, Sample.morning. lia.
  - assert (E1 : currentCount m = 2) by (rewrite Hcm; reflexivity).
    assert (E2 : cardsCurrentCount c = 2) by (rewrite Hcc; reflexivity).
    exists m, c. repeat split; try assumption.
    + apply Ham. lia.
    + rewrite Hrm, Hlm, E1. reflexivity.
    + apply Hac. lia.
    + rewrite Hrc, Hlc, E2. reflexivity.
Defined.



(** ** The persisting handlers of routes/flashcards-ai.ts *)

Module FlashcardsAIFacts.
Import JSON FlashcardsAI.

Lemma createFlashcard_unflagged userId subject educationLevel difficultyLevel
      now card row :
  createFlashcard userId subject educationLevel difficultyLevel now card
    = Some row ->
  unflagged row.
Proof.
  unfold createFlashcard. intros H.
  destruct (Flashcard.question card); try discriminate.
  destruct (Flashcard.answer card); try discriminate.
  destruct (difficultyColumn card difficultyLevel); try discriminate.
  injection H as <-. split; reflexivity.
Qed.

Lemma saveAll_unflagged userId subject educationLevel difficultyLevel clock
      cards : forall i,
  Forall unflagged
    (fst (saveAll userId subject educationLevel difficultyLevel clock i cards)).
Proof.
  induction cards as [|card rest IH]; intros i; cbn [saveAll]; [constructor|].
  specialize (IH (S i)).
  destruct (saveAll userId subject educationLevel difficultyLevel clock (S i) rest)
    as [rows ok].
  destruct (createFlashcard userId subject educationLevel difficultyLevel
                            (clock i) card) as [row|] eqn:E; cbn [fst] in *.
  - constructor; [|exact IH]. eapply createFlashcard_unflagged, E.
  - exact IH.
Qed.

Lemma insertFlashcards_nil db : insertFlashcards db [] = db.
Proof. destruct db. unfold insertFlashcards. cbn. rewrite app_nil_r. reflexivity. Qed.

Lemma aiFlashcardCount_insert db rows userId gte :
  Forall unflagged rows ->
  aiFlashcardCount (insertFlashcards db rows) userId gte
  = aiFlashcardCount db userId gte.
Proof.
  intros Hrows. unfold aiFlashcardCount, insertFlashcards.
  cbn [flashcard studyModule]. rewrite filter_app.
  replace (filter _ rows) with (@nil FlashcardRow.t).
  - rewrite app_nil_r. reflexivity.
  - symmetry. induction Hrows as [|r rows [Hf Hm] _ IH]; [reflexivity|].
    cbn [filter]. rewrite Hf, Hm. cbn [moduleIsAIGenerated orb].
    rewrite andb_false_r. exact IH.
Qed.

(** Each handler adds a list of unflagged rows that depends on the
    request and on the adapter only, and answers without reading the
    store. *)
Lemma generateHandler_shape clock userId body aiService :
  exists response rows,
    Forall unflagged rows
    /\ forall db, generateHandler db clock userId body aiService
                  = (response, insertFlashcards db rows).
Proof.
  unfold generateHandler.
  destruct (content body) as [[| | |c| |]|];
    try (exists Status400, []; split; [constructor|];
         intros db; rewrite insertFlashcards_nil; reflexivity).
  destruct (negb (nonEmpty c) || negb (nonEmpty (JSString.trim c)));
    [exists Status400, []; split; [constructor|];
     intros db; rewrite insertFlashcards_nil; reflexivity|].
  destruct (50000 <? Z.of_nat (List.length c));
    [exists Status400, []; split; [constructor|];
     intros db; rewrite insertFlashcards_nil; reflexivity|].
  destruct aiService as [service|];
    [|exists Status500, []; split; [constructor|];
      intros db; rewrite insertFlashcards_nil; reflexivity].
  cbv zeta.
  destruct (generateFlashcards service _) as [cards|cause];
    [|exists Status500, []; split; [constructor|];
      intros db; rewrite insertFlashcards_nil; reflexivity].
  match goal with
  | |- context [saveAll ?u ?s ?e ?d ?c ?i ?l] =>
      pose proof (saveAll_unflagged u s e d c l i) as Hu;
      destruct (saveAll u s e d c i l) as [rows ok]
  end.
  cbn [fst] in Hu.
  exists (if ok then Status201 (List.length rows) else Status500), rows.
  split; [exact Hu|]. intros db. reflexivity.
Qed.

Lemma generateFromTopicHandler_shape clock userId body aiService :
  exists response rows,
    Forall unflagged rows
    /\ forall db, generateFromTopicHandler db clock userId body aiService
                  = (response, insertFlashcards db rows).
Proof.
  unfold generateFromTopicHandler.
  destruct (topic body) as [[| | |t| |]|];
    try (exists Status400, []; split; [constructor|];
         intros db; rewrite insertFlashcards_nil; reflexivity).
  destruct (negb (nonEmpty t) || negb (nonEmpty (JSString.trim t)));
    [exists Status400, []; split; [constructor|];
     intros db; rewrite insertFlashcards_nil; reflexivity|].
  destruct (200 <? Z.of_nat (List.length t));
    [exists Status400, []; split; [constructor|];
     intros db; rewrite insertFlashcards_nil; reflexivity|].
  cbv zeta.
  match goal with
  | |- context [if ?b then (Status400, _) else _] => destruct b
  end;
    [exists Status400, []; split; [constructor|];
     intros db; rewrite insertFlashcards_nil; reflexivity|].
  destruct aiService as [service|];
    [|exists Status500, []; split; [constructor|];
      intros db; rewrite insertFlashcards_nil; reflexivity].
  destruct (generateFlashcardsFromTopic service _) as [cards|cause];
    [|exists Status500, []; split; [constructor|];
      intros db; rewrite insertFlashcards_nil; reflexivity].
  match goal with
  | |- context [saveAll ?u ?s ?e ?d ?c ?i ?l] =>
      pose proof (saveAll_unflagged u s e d c l i) as Hu;
      destruct (saveAll u s e d c i l) as [rows ok]
  end.
  cbn [fst] in Hu.
  exists (if ok then Status201 (List.length rows) else Status500), rows.
  split; [exact Hu|]. intros db. reflexivity.
Qed.

Lemma checks_after_insert db rows now userId requested :
  Forall unflagged rows ->
  checkAICardsDailyLimit (insertFlashcards db rows) now userId requested
  = checkAICardsDailyLimit db now userId requested.
Proof.
  intros Hrows. unfold checkAICardsDailyLimit.
  destruct (getStartOfTodayUTC now) as [start|]; [|reflexivity].
  cbv zeta. rewrite (aiFlashcardCount_insert db rows userId start Hrows).
  reflexivity.
Qed.

End FlashcardsAIFacts.

Import FlashcardsAI.

(** C2.  The rows that POST /generate and POST /generate-from-topic
    store are created without the [isAIGenerated] flag and without a
    [moduleId]; so whatever the request, the adapter's answer, the user
    and the moment of the check, the count that [checkAICardsDailyLimit]
    uses is the same after the handler as before.  Neither route runs a
    daily-quota middleware, and neither handler reads the store before
    it persists: its response and the rows it adds are the same for every
    state of the store. *)
Theorem C2_ai_routes_bypass_daily_count clock userId body aiService :
  Forall
    (fun handler =>
       exists response rows,
         Forall (fun r => FlashcardRow.isAIGenerated r = false
                          /\ FlashcardRow.moduleId r = None) rows
         /\ (forall db,
               handler db clock userId body aiService
               = (response, insertFlashcards db rows))
         /\ (forall db user gte,
               aiFlashcardCount (snd (handler db clock userId body aiService))
                                user gte
               = aiFlashcardCount db user gte)
         /\ (forall db user now requested,
               checkAICardsDailyLimit
                 (snd (handler db clock userId body aiService))
                 now user requested
               = checkAICardsDailyLimit db now user requested))
    [ generateHandler; generateFromTopicHandler ]
  /\ ~ In checkAICardsRateLimit generateMiddleware
  /\ ~ In checkAICardsRateLimit generateFromTopicMiddleware.
Proof.
  assert (Hkey : forall handler : DB -> (nat -> Z) -> jsstring -> Body ->
                                     option AIService -> Response * DB,
             (exists response rows,
                 Forall unflagged rows
                 /\ forall db, handler db clock userId body aiService
                               = (response, insertFlashcards db rows)) ->
             exists response rows,
               Forall (fun r => FlashcardRow.isAIGenerated r = false
                                /\ FlashcardRow.moduleId r = None) rows
               /\ (forall db,
                     handler db clock userId body aiService
                     = (response, insertFlashcards db rows))
               /\ (forall db user gte,
                     aiFlashcardCount
                       (snd (handler db clock userId body aiService)) user gte
                     = aiFlashcardCount db user gte)
               /\ (forall db user now requested,
                     checkAICardsDailyLimit
                       (snd (handler db clock userId body aiService))
                       now user requested
                     = checkAICardsDailyLimit db now user requested)).
  { intros handler (response & rows & Hrows & Heq).
    exists response, rows.
    split; [exact Hrows|]. split; [exact Heq|]. split.
    - intros db user gte. rewrite Heq. cbn [snd].
      apply FlashcardsAIFacts.aiFlashcardCount_insert, Hrows.
    - intros db user now requested. rewrite Heq. cbn [snd].
      apply FlashcardsAIFacts.checks_after_insert, Hrows. }
  split; [|split].
  - repeat constructor.
    + apply Hkey, FlashcardsAIFacts.generateHandler_shape.
    + apply Hkey, FlashcardsAIFacts.generateFromTopicHandler_shape.
  - cbn. intros [H|[]]. discriminate H.
  - cbn. intros [H|[]]. discriminate H.
Qed.

(** A user at the daily limit: the check denies one more card, both
    routes store the generated card all the same, and the check still
    counts thirty. *)
Lemma ai_routes_at_the_limit :
  let clock := fun _ : nat => Sample.morning in
  let text := dq "[{'question':'q','answer':'a'}]" in
  option_map cardsAllowed
    (checkAICardsDailyLimit Sample.dbFull Sample.morning Sample.alice 1)
    = Some false
  /\ Forall
       (fun handler =>
          fst (handler Sample.dbFull clock Sample.alice Sample.body
                       (Some (Sample.service text)))
            = Status201 1
          /\ List.length
               (flashcard (snd (handler Sample.dbFull clock Sample.alice
                                        Sample.body
                                        (Some (Sample.service text)))))
             = 31%nat
          /\ option_map cardsCurrentCount
               (checkAICardsDailyLimit
                  (snd (handler Sample.dbFull clock Sample.alice Sample.body
                                (Some (Sample.service text))))
                  Sample.morning Sample.alice 1)
             = Some 30)
       [ generateHandler; generateFromTopicHandler ].
Proof.
  cbv zeta. split; [vm_compute; reflexivity|].
  repeat constructor; vm_compute; reflexivity.
Qed.

(** ** The study-module orchestration *)

Module OrchestrationFacts.
Import Adapter CardFill.

Section Fill.

Variable gen : nat -> GenerateFlashcardsOptions.t -> result (list Flashcard.t).
Variables (topic subject educationLevel difficultyLevel : jsstring).
Variable totalCardsNeeded : Z.
Variable topicCount : nat.

Local Abbreviation cardsPerTopic := (fallback totalCardsNeeded topicCount).
Local Abbreviation fill :=
  (fillTopics gen subject educationLevel difficultyLevel totalCardsNeeded
              cardsPerTopic).
Local Abbreviation push := (callAndPush gen).
Local Abbreviation expect := (expected totalCardsNeeded topicCount).

Lemma accumulated_app a b from :
  accumulated gen (a ++ b) from
  = accumulated gen a from + accumulated gen b (from + List.length a).
Proof.
  revert from. induction a as [|x a IH]; intros from; cbn [app accumulated List.length].
  - rewrite Nat.add_0_r. lia.
  - rewrite IH. replace (S from + List.length a)%nat
      with (from + S (List.length a))%nat by lia. lia.
Qed.

Lemma failures_app a b from :
  failures gen (a ++ b) from
  = failures gen a from ++ failures gen b (from + List.length a).
Proof.
  revert from. induction a as [|x a IH]; intros from; cbn [app failures List.length].
  - rewrite Nat.add_0_r. reflexivity.
  - rewrite IH. replace (S from + List.length a)%nat
      with (from + S (List.length a))%nat by lia.
    rewrite app_assoc. reflexivity.
Qed.

Lemma requests_push st req : requests (push st req) = requests st ++ [req].
Proof. unfold callAndPush. destruct (gen _ req); reflexivity. Qed.

Lemma consistent_push st req : consistent gen st -> consistent gen (push st req).
Proof.
  unfold consistent. intros [Hc He].
  rewrite requests_push, accumulated_app, failures_app.
  cbn [accumulated failures]. rewrite Nat.add_0_l, <- Hc, <- He.
  unfold callAndPush.
  destruct (gen _ req) as [cards|cause]; cbn [allFlashcards errors]; split.
  - rewrite length_app. lia.
  - rewrite app_nil_r. reflexivity.
  - lia.
  - rewrite app_nil_r. reflexivity.
Qed.

Lemma cardsForThisTopic_expected entry st :
  consistent gen st ->
  cardsForThisTopic totalCardsNeeded cardsPerTopic entry st
  = expect entry (accumulated gen (requests st) 0).
Proof. unfold consistent. intros [<- _]. reflexivity. Qed.

Lemma fill_invariant entries : forall st,
  consistent gen st ->
  consistent gen (fill entries st)
  /\ exists new,
       requests (fill entries st) = requests st ++ new
       /\ (List.length new <= List.length entries)%nat
       /\ (forall i entry req,
             nth_error entries i = Some entry ->
             nth_error new i = Some req ->
             let n :=
               expect entry
                 (accumulated gen
                    (firstn (List.length (requests st) + i)
                            (requests (fill entries st))) 0) in
             GenerateFlashcardsOptions.numberOfCards req = Some n
             /\ leZero n = false)
       /\ (forall entry,
             nth_error entries (List.length new) = Some entry ->
             leZero (expect entry
                       (accumulated gen (requests (fill entries st)) 0))
             = true).
Proof.
  induction entries as [|entry rest IH]; intros st Hc; cbn [fillTopics].
  - split; [exact Hc|]. exists []. rewrite app_nil_r.
    split; [reflexivity|]. split; [cbn; lia|]. split.
    + intros i e r H. destruct i; discriminate H.
    + intros e H. discriminate H.
  - rewrite (cardsForThisTopic_expected entry st Hc).
    destruct (leZero (expect entry (accumulated gen (requests st) 0))) eqn:Hz.
    + split; [exact Hc|]. exists []. rewrite app_nil_r.
      split; [reflexivity|]. split; [cbn; lia|]. split.
      * intros i e r _ H. destruct i; discriminate H.
      * intros e H. cbn in H. injection H as <-. exact Hz.
    + set (req := requestFor subject educationLevel difficultyLevel _ _).
      destruct (IH (push st req) (consistent_push st req Hc))
        as (Hc' & new & Hreq & Hlen & Hcalls & Hstop).
      rewrite requests_push in Hreq.
      split; [exact Hc'|]. exists (req :: new).
      split; [rewrite Hreq, <- app_assoc; reflexivity|].
      split; [cbn; lia|]. split.
      * intros i e r He Hr. destruct i as [|j].
        -- cbn in He, Hr. injection He as <-. injection Hr as <-.
           rewrite Nat.add_0_r, Hreq, <- app_assoc, firstn_app.
           rewrite Nat.sub_diag, firstn_all. cbn [firstn]. rewrite app_nil_r.
           cbv zeta. split; [reflexivity|exact Hz].
        -- cbn in He, Hr. specialize (Hcalls j e r He Hr).
           rewrite requests_push, length_app in Hcalls. cbn [List.length] in Hcalls.
           replace (List.length (requests st) + 1 + j)%nat
             with (List.length (requests st) + S j)%nat in Hcalls by lia.
           exact Hcalls.
      * intros e He. cbn in He. apply Hstop, He.
Qed.

Lemma consistent_backfill st :
  consistent gen st ->
  consistent gen (backfill gen topic subject educationLevel difficultyLevel
                           totalCardsNeeded st).
Proof.
  intros Hc. unfold backfill. destruct (_ <? _); [|exact Hc].
  apply consistent_push, Hc.
Qed.

Lemma push_swallowed a b req :
  sameCards a b -> sameCards (callAndPush (swallowed gen) a req) (push b req).
Proof.
  intros [Ha Hr]. unfold callAndPush, swallowed. rewrite Hr.
  destruct (gen _ req); split; cbn [allFlashcards requests];
    rewrite ?app_nil_r; congruence.
Qed.

Lemma fill_swallowed entries : forall a b,
  sameCards a b ->
  sameCards (fillTopics (swallowed gen) subject educationLevel difficultyLevel
                        totalCardsNeeded cardsPerTopic entries a)
            (fill entries b).
Proof.
  induction entries as [|entry rest IH]; intros a b Hs; cbn [fillTopics];
    [exact Hs|].
  assert (E : cardsForThisTopic totalCardsNeeded cardsPerTopic entry a
              = cardsForThisTopic totalCardsNeeded cardsPerTopic entry b).
  { unfold cardsForThisTopic, remainingCards. destruct Hs as [-> _]. reflexivity. }
  rewrite E. destruct (leZero _); [exact Hs|].
  apply IH, push_swallowed, Hs.
Qed.

Lemma backfill_swallowed a b :
  sameCards a b ->
  sameCards (backfill (swallowed gen) topic subject educationLevel
                      difficultyLevel totalCardsNeeded a)
            (backfill gen topic subject educationLevel difficultyLevel
                      totalCardsNeeded b).
Proof.
  intros Hs. unfold backfill, remainingCards.
  destruct Hs as [Ha Hr]. rewrite Ha.
  destruct (_ <? _); [|split; assumption].
  apply push_swallowed. split; assumption.
Qed.

End Fill.

Lemma slice0_length {A : Type} (a : list A) (n : Z) :
  0 <= n -> Z.of_nat (List.length (slice0 a n)) <= n.
Proof.
  intros Hn. unfold slice0. rewrite length_firstn.
  destruct (Z.ltb_spec n 0); lia.
Qed.

(** With the three fields present, the orchestrator returns the plan
    and the truncated cards of the fill and backfill phases. *)
Lemma generateStudyModule_ok gen options plan topics learningPlan :
  wellFormed plan topics learningPlan ->
  let topic := GenerateStudyModuleOptions.topic options in
  let subject :=
    orDefault (GenerateStudyModuleOptions.subject options) (str "General") in
  let educationLevel :=
    orDefault (GenerateStudyModuleOptions.educationLevel options)
              (str "high_school") in
  let difficultyLevel :=
    orDefault (GenerateStudyModuleOptions.difficultyLevel options)
              (str "intermediate") in
  let total :=
    orDefault (GenerateStudyModuleOptions.numberOfCards options) 20 in
  let st :=
    backfill gen topic subject educationLevel difficultyLevel total
      (fillTopics gen subject educationLevel difficultyLevel total
                  (fallback total (List.length topics)) learningPlan
                  {| allFlashcards := []; requests := []; errors := [] |}) in
  generateStudyModule (Ok plan) gen options
  = {| outcome :=
         Ok {| StudyModuleWithFlashcards.module := plan;
               StudyModuleWithFlashcards.flashcards :=
                 slice0 (allFlashcards st) total |};
       made := requests st;
       logged := errors st |}.
Proof.
  intros ((title & Ht & Hne) & Htopics & Hplan). cbv zeta.
  unfold generateStudyModule. rewrite Ht, Htopics, Hplan, Hne. reflexivity.
Qed.

End OrchestrationFacts.

Import Adapter CardFill.





(** The end-to-end properties of the specification, on the stub: ten
    cards when every call succeeds; ten cards when the call for the first
    topic fails and the second topic and the backfill give five each; and
    a module without cards, after three logged failures, when every call
    fails. *)
Lemma study_module_end_to_end :
  (exists r,
      outcome (generateStudyModule (Ok Sample.plan) Sample.steady
                                   Sample.request) = Ok r
      /\ List.length (StudyModuleWithFlashcards.flashcards r) = 10%nat)
  /\ (exists r,
         outcome (generateStudyModule (Ok Sample.plan) Sample.failsFirst
                                      Sample.request) = Ok r
         /\ List.length (StudyModuleWithFlashcards.flashcards r) = 10%nat)
  /\ (exists r,
         outcome (generateStudyModule (Ok Sample.plan) Sample.failsAlways
                                      Sample.request) = Ok r
         /\ StudyModuleWithFlashcards.flashcards r = []
         /\ List.length (logged (generateStudyModule (Ok Sample.plan)
                                   Sample.failsAlways Sample.request))
            = 3%nat).
Proof.
  split; [|split]; eexists; repeat split; reflexivity.
Qed.

(** ** Provider selection *)

Module AIConfigFacts.
Import JSON AIConfig.

Lemma jsstring_eqb_eq a b : jsstring_eqb a b = true <-> a = b.
Proof.
  unfold jsstring_eqb. destruct (list_eq_dec N.eq_dec a b); split;
    intros H; congruence.
Qed.

Lemma jsstring_eqb_refl a : jsstring_eqb a a = true.
Proof. apply jsstring_eqb_eq. reflexivity. Qed.

Lemma jsstring_eqb_neq a b : jsstring_eqb a b = false <-> a <> b.
Proof.
  unfold jsstring_eqb. destruct (list_eq_dec N.eq_dec a b); split;
    intros H; congruence.
Qed.

Lemma arrayIncludes_In a x : arrayIncludes a x = true <-> In x a.
Proof.
  unfold arrayIncludes. rewrite existsb_exists. split.
  - intros (y & Hy & E). apply jsstring_eqb_eq in E. subst. exact Hy.
  - intros H. exists x. split; [exact H|apply jsstring_eqb_refl].
Qed.

Lemma validProviders_nonEmpty p : In p validProviders -> nonEmpty p = true.
Proof.
  intros [<-|[<-|[<-|[<-|[]]]]]; reflexivity.
Qed.

Lemma getAIProvider_valid v :
  In (toLowerCase v) validProviders ->
  getAIProvider (Some v) = (toLowerCase v, []).
Proof.
  intros H. unfold getAIProvider. cbn [option_map].
  rewrite (validProviders_nonEmpty _ H).
  rewrite (proj2 (arrayIncludes_In _ _) H). reflexivity.
Qed.

Lemma getAIProvider_invalid v :
  ~ In (toLowerCase v) validProviders ->
  getAIProvider (Some v)
  = (GOOGLE_API_KEY, warnings (Some (toLowerCase v))).
Proof.
  intros H. unfold getAIProvider. cbn [option_map].
  destruct (arrayIncludes validProviders (toLowerCase v)) eqn:E.
  - exfalso. apply H, arrayIncludes_In, E.
  - rewrite orb_true_r. reflexivity.
Qed.

End AIConfigFacts.

Import AIConfig.



(** ** The education-level persona *)

Module PersonaFacts.
Import JSON.

Lemma ownProperty_absent key (o : list (jsstring * jsstring)) :
  ~ In key (map fst o) -> ownProperty key o = None.
Proof.
  induction o as [|[k v] r IH]; intros H; cbn [ownProperty]; [reflexivity|].
  destruct (jsstring_eqb key k) eqn:E.
  - apply AIConfigFacts.jsstring_eqb_eq in E. exfalso. apply H. left.
    symmetry. exact E.
  - apply IH. intros Hin. apply H. right. exact Hin.
Qed.

Lemma ownProperty_None key :
  ~ In key knownLevels -> ownProperty key prompts = None.
Proof. intros H. apply ownProperty_absent. exact H. Qed.

(** A level of the table selects its own entry. *)
Lemma getEducationPrompt_known key :
  In key knownLevels ->
  exists text, ownProperty key prompts = Some text
               /\ getEducationPrompt key = Some (OwnString text).
Proof.
  intros [<-|[<-|[<-|[<-|[<-|[]]]]]]; eexists; split; reflexivity.
Qed.

(** A key that neither the table nor [Object.prototype] defines selects
    the [high_school] entry. *)
Lemma getEducationPrompt_fallback key :
  ~ In key knownLevels ->
  ~ In key objectPrototypeNames ->
  getEducationPrompt key = getEducationPrompt (str "high_school")
  /\ option_map OwnString (ownProperty (str "high_school") prompts)
     = getEducationPrompt key.
Proof.
  intros Hk Hp.
  assert (Hm : getMember prompts key = None).
  { unfold getMember. rewrite (ownProperty_None key Hk).
    destruct (existsb (jsstring_eqb key) objectPrototypeNames) eqn:E;
      [|reflexivity].
    exfalso. apply Hp. apply existsb_exists in E. destruct E as (y & Hy & E).
    apply AIConfigFacts.jsstring_eqb_eq in E. subst. exact Hy. }
  assert (Hf : getEducationPrompt key = getMember prompts (str "high_school")).
  { unfold getEducationPrompt. rewrite Hm. reflexivity. }
  rewrite Hf. split; reflexivity.
Qed.

End PersonaFacts.

(** C10, at the key [constructor].  The key is outside the table of
    education levels, and the persona selected for it is not the
    [high_school] entry: the property read finds the member of that name
    that every object literal inherits, which is truthy, so the fallback
    is not taken. *)
Theorem C10_getEducationPrompt_inherited_key :
  ~ In (str "constructor") knownLevels
  /\ getEducationPrompt (str "constructor")
     = Some (Inherited (str "constructor"))
  /\ getEducationPrompt (str "high_school")
     = option_map OwnString (ownProperty (str "high_school") prompts)
  /\ getEducationPrompt (str "constructor")
     <> getEducationPrompt (str "high_school").
Proof.
  split; [|split; [|split]].
  - cbn. intros [H|[H|[H|[H|[H|[]]]]]]; discriminate H.
  - reflexivity.
  - reflexivity.
  - intros H. discriminate H.
Qed.

(** ** Response extraction *)

Module JSONFacts.
Import JSON JSString Adapter.
Local Open Scope N_scope.

(** The parser on sample texts: values, white space, escapes, and the
    texts that [JSON.parse] refuses. *)
Lemma parse_samples :
  parse (dq "[1, -2.5e3, 'aAb', {'k': null, 'k': true}, [], {}]")
  = Some (JArr [ JNum (str "1"); JNum (str "-2.5e3"); JStr (str "aAb");
                 JObj [ (str "k", JNull); (str "k", JBool true) ];
                 JArr []; JObj [] ])
  /\ parse (9 :: 10 :: 13 :: 32 :: dq "'A\n\/'" ++ [32])
     = Some (JStr [65; 10; 47])
  /\ getProp (JObj [ (str "k", JNull); (str "k", JBool true) ]) (str "k")
     = Some (Some (JBool true))
  /\ Forall (fun text => parse text = None)
       [ dq ""; dq "[1,]"; dq "{'a':1,}"; dq "01"; dq "1 2"; dq "tru";
         dq "'abc"; dq "{a:1}"; dq "[1"; dq "+1"; dq ".5"; dq "1.";
         dq "NaN"; dq "undefined"; 11 :: dq "[]"; 160 :: dq "[]";
         65279 :: dq "[]"; dq "'a" ++ [10] ++ dq "b'"; dq "'\x'" ].
Proof.
  repeat split; try (vm_compute; reflexivity).
  repeat constructor; vm_compute; reflexivity.
Qed.

Lemma option_map_app_nil {A : Type} (o : option (list A)) :
  option_map (app []) o = o.
Proof. destruct o; reflexivity. Qed.

Lemma isJsonSpace_cases w :
  isJsonSpace w = true -> w = 9 \/ w = 10 \/ w = 13 \/ w = 32.
Proof.
  unfold isJsonSpace. rewrite !orb_true_iff, !N.eqb_eq. tauto.
Qed.

(** One more white-space code unit at the end changes no token. *)
Lemma lex_space_end w : isJsonSpace w = true ->
  forall s st, lex st (s ++ [w]) = lex st s.
Proof.
  intros Hw. induction s as [|c r IH]; intros st.
  - cbn [app lex].
    destruct (isJsonSpace_cases w Hw) as [-> | [-> | [-> | ->]]];
      destruct st as [|acc|acc|acc|acc seen value]; cbn;
      try reflexivity;
      destruct (classifyAtom (rev acc)); reflexivity.
  - cbn [app lex]. destruct (step st c) as [[ts st']|]; [|reflexivity].
    rewrite IH. reflexivity.
Qed.

Lemma parse_space_end w s : isJsonSpace w = true -> parse (s ++ [w]) = parse s.
Proof. intros Hw. unfold parse. rewrite (lex_space_end w Hw). reflexivity. Qed.

(** The code units that [trim] removes and the JSON grammar does not
    skip are refused wherever they stand outside a string. *)
Lemma trimSpace_cases c :
  isTrimSpace c = true ->
  isJsonSpace c = true \/ c = 11 \/ c = 12 \/ 160 <= c.
Proof.
  unfold isTrimSpace, isJsonSpace.
  rewrite !orb_true_iff, !andb_true_iff, !N.eqb_eq, !N.leb_le. lia.
Qed.

Ltac settle_tests :=
  repeat match goal with
         | |- context [N.eqb ?a ?b] =>
             replace (N.eqb a b) with false by (symmetry; apply N.eqb_neq; lia)
         | |- context [N.leb ?a ?b] =>
             first [ replace (N.leb a b) with true
                       by (symmetry; apply N.leb_le; lia)
                   | replace (N.leb a b) with false
                       by (symmetry; apply N.leb_gt; lia) ]
         | |- context [N.ltb ?a ?b] =>
             first [ replace (N.ltb a b) with true
                       by (symmetry; apply N.ltb_lt; lia)
                   | replace (N.ltb a b) with false
                       by (symmetry; apply N.ltb_ge; lia) ]
         end.

Lemma stepIdle_high c : 160 <= c -> stepIdle c = None.
Proof.
  intros H. unfold stepIdle, isJsonSpace, punctuation, isAtomChar, isDigit,
    isLetter. settle_tests. reflexivity.
Qed.

Lemma step_high st c : 160 <= c ->
  step st c = match st with
              | LStr acc => Some ([], LStr (c :: acc))
              | _ => None
              end.
Proof.
  intros H. destruct st as [|acc|acc|acc|acc seen value]; cbn [step].
  - apply stepIdle_high, H.
  - rewrite (stepIdle_high c H).
    unfold isAtomChar, isDigit, isLetter. settle_tests. cbn.
    destruct (classifyAtom (rev acc)); reflexivity.
  - settle_tests. reflexivity.
  - unfold escapeValue. settle_tests. reflexivity.
  - unfold hexValue, isDigit. settle_tests. reflexivity.
Qed.

(** What a code unit removed by [trim] does to the scanner. *)
Lemma step_trimSpace st c ts st' :
  isTrimSpace c = true ->
  step st c = Some (ts, st') ->
  (isJsonSpace c = true /\ st <> LStr (match st with LStr a => a | _ => [] end))
  \/ exists acc, st = LStr acc /\ st' = LStr (c :: acc) /\ ts = [].
Proof.
  intros Hc Hs.
  destruct (trimSpace_cases c Hc) as [Hj | [-> | [-> | Hh]]].
  - destruct st as [|acc|acc|acc|acc seen value].
    + left. split; [exact Hj|discriminate].
    + left. split; [exact Hj|discriminate].
    + right. exists acc.
      destruct (isJsonSpace_cases c Hj) as [-> | [-> | [-> | ->]]];
        cbn in Hs; try discriminate Hs.
      injection Hs as <- <-. auto.
    + left. split; [exact Hj|discriminate].
    + left. split; [exact Hj|discriminate].
  - destruct st as [|acc|acc|acc|acc seen value]; cbn in Hs;
      try discriminate Hs.
    destruct (classifyAtom (rev acc)); discriminate Hs.
  - destruct st as [|acc|acc|acc|acc seen value]; cbn in Hs;
      try discriminate Hs.
    destruct (classifyAtom (rev acc)); discriminate Hs.
  - rewrite (step_high st c Hh) in Hs.
    destruct st as [|acc|acc|acc|acc seen value]; try discriminate Hs.
    injection Hs as <- <-. right. exists acc. auto.
Qed.

Lemma lex_Some_inv st c r toks :
  lex st (c :: r) = Some toks ->
  exists ts st' toks',
    step st c = Some (ts, st') /\ lex st' r = Some toks' /\ toks = ts ++ toks'.
Proof.
  cbn [lex]. destruct (step st c) as [[ts st']|]; [|discriminate].
  destruct (lex st' r) as [toks'|] eqn:E; [|discriminate].
  cbn. intros H. injection H as <-. exists ts, st', toks'. auto.
Qed.

Lemma lex_trimStart s toks :
  lex LIdle s = Some toks -> lex LIdle (trimStart s) = Some toks.
Proof.
  induction s as [|c r IH]; intros H; cbn [trimStart]; [exact H|].
  destruct (isTrimSpace c) eqn:Hc; [|exact H].
  destruct (lex_Some_inv _ _ _ _ H) as (ts & st' & toks' & Hs & Hl & ->).
  destruct (step_trimSpace _ _ _ _ Hc Hs) as [[Hj _] | (acc & Habs & _)];
    [|discriminate Habs].
  cbn [step] in Hs. unfold stepIdle in Hs. rewrite Hj in Hs.
  injection Hs as <- <-. apply IH. exact Hl.
Qed.

Lemma finish_after_space st c ts st' toks' :
  isTrimSpace c = true ->
  step st c = Some (ts, st') ->
  finish st' = Some toks' ->
  finish st = Some (ts ++ toks').
Proof.
  intros Hc Hs Hf.
  destruct (step_trimSpace _ _ _ _ Hc Hs) as [[Hj _] | (acc & -> & -> & ->)];
    [|discriminate Hf].
  destruct st as [|acc|acc|acc|acc seen value].
  - cbn [step] in Hs. unfold stepIdle in Hs. rewrite Hj in Hs.
    injection Hs as <- <-. exact Hf.
  - destruct (isJsonSpace_cases c Hj) as [-> | [-> | [-> | ->]]];
      cbn in Hs; cbn [finish];
      destruct (classifyAtom (rev acc)); try discriminate Hs;
      injection Hs as <- <-; cbn in Hf; injection Hf as <-; reflexivity.
  - destruct (isJsonSpace_cases c Hj) as [-> | [-> | [-> | ->]]];
      cbn in Hs; try discriminate Hs.
    injection Hs as <- <-. discriminate Hf.
  - destruct (isJsonSpace_cases c Hj) as [-> | [-> | [-> | ->]]];
      cbn in Hs; discriminate Hs.
  - destruct (isJsonSpace_cases c Hj) as [-> | [-> | [-> | ->]]];
      cbn in Hs; discriminate Hs.
Qed.

Lemma lex_trimEnd s : forall st toks,
  lex st s = Some toks -> lex st (trimEnd s) = Some toks.
Proof.
  induction s as [|c r IH]; intros st toks H; [exact H|].
  destruct (lex_Some_inv _ _ _ _ H) as (ts & st' & toks' & Hs & Hl & ->).
  specialize (IH st' toks' Hl).
  cbn [trimEnd]. destruct (trimEnd r) as [|x r'] eqn:Er.
  - cbn [lex] in IH. destruct (isTrimSpace c) eqn:Hc.
    + cbn [lex]. apply (finish_after_space st c ts st' toks' Hc Hs IH).
    + cbn [lex]. rewrite Hs, IH. reflexivity.
  - cbn [lex] in *. rewrite Hs.
    destruct (step st' x) as [[ts2 st2]|]; [|discriminate IH].
    destruct (lex st2 r') as [toks2|]; [|discriminate IH].
    cbn in IH. injection IH as <-. reflexivity.
Qed.

(** A text that parses still parses, to the same value, once trimmed. *)
Lemma parse_trim s v : parse s = Some v -> parse (trim s) = Some v.
Proof.
  unfold parse, trim. destruct (lex LIdle s) as [toks|] eqn:E; [|discriminate].
  intros H. rewrite (lex_trimEnd _ _ _ (lex_trimStart _ _ E)). exact H.
Qed.

(** *** Fence stripping *)

Lemma startsWith_backtick s more :
  startsWith s (96 :: more) = true -> exists r, s = 96 :: r.
Proof.
  destruct s as [|c r]; cbn [startsWith]; [discriminate|].
  destruct (N.eqb_spec 96 c) as [<-|]; [|discriminate]. eauto.
Qed.

(** No JSON text starts with a backtick. *)
Lemma parse_backtick r : parse (96 :: r) = None.
Proof. reflexivity. Qed.

Lemma trimEnd_keeps_last c s :
  isTrimSpace c = false -> trimEnd (s ++ [c]) = s ++ [c].
Proof.
  intros Hc. induction s as [|x s IH]; cbn [app trimEnd].
  - rewrite Hc. reflexivity.
  - rewrite IH. destruct (s ++ [c]) eqn:E; [|reflexivity].
    destruct s; discriminate E.
Qed.

Lemma trim_fenced tag payload :
  trim (Fence.fenced tag payload) = Fence.fenced tag payload.
Proof.
  unfold trim, Fence.fenced, fence. cbn [str list_ascii_of_string map app].
  cbn [trimStart]. change (isTrimSpace (N_of_ascii "`")) with false. cbv iota.
  set (body := N_of_ascii "`" :: N_of_ascii "`" :: tag ++ LF ++ payload ++ LF).
  replace (N_of_ascii "`" :: N_of_ascii "`" :: N_of_ascii "`"
             :: tag ++ LF ++ payload ++ LF
             ++ [N_of_ascii "`"; N_of_ascii "`"; N_of_ascii "`"])
    with ((N_of_ascii "`" :: body ++ [N_of_ascii "`"; N_of_ascii "`"])
            ++ [N_of_ascii "`"]).
  - apply trimEnd_keeps_last. reflexivity.
  - unfold body. cbn [app]. rewrite <- !app_assoc. reflexivity.
Qed.

(** Where the payload holds no run of three backticks and the text goes
    on with something other than a backtick, no match of a pattern that
    begins with three backticks starts inside the payload. *)
Lemma no_match_inside p rest more :
  p <> [] ->
  includes p fence = false ->
  startsWith rest [96] = false ->
  startsWith (p ++ rest) (96 :: 96 :: 96 :: more) = false.
Proof.
  intros Hne Hinc Hrest.
  destruct p as [|c1 p]; [congruence|].
  cbn [includes] in Hinc. apply orb_false_iff in Hinc. destruct Hinc as [H3 _].
  unfold fence in H3. cbn [str list_ascii_of_string map] in H3.
  change (N_of_ascii "`") with 96 in H3.
  cbn [app startsWith] in *.
  destruct (N.eqb_spec 96 c1) as [<-|]; [|reflexivity].
  destruct p as [|c2 p]; cbn [app startsWith] in *.
  - destruct rest as [|x rest]; [reflexivity|].
    rewrite andb_true_r in Hrest. rewrite Hrest. reflexivity.
  - destruct (N.eqb_spec 96 c2) as [<-|]; [|reflexivity].
    destruct p as [|c3 p]; cbn [app startsWith] in *.
    + destruct rest as [|x rest]; [reflexivity|].
      rewrite andb_true_r in Hrest. rewrite Hrest. reflexivity.
    + cbn [andb] in *. rewrite andb_true_r in H3. rewrite H3. reflexivity.
Qed.

Lemma removeAll_clean more p : forall rest,
  includes p fence = false ->
  startsWith rest [96] = false ->
  removeAllFrom (96 :: 96 :: 96 :: more) 0 false (p ++ rest)
  = p ++ removeAllFrom (96 :: 96 :: 96 :: more) 0 false rest.
Proof.
  induction p as [|c p IH]; intros rest Hinc Hrest; [reflexivity|].
  assert (Hno : startsWith ((c :: p) ++ rest) (96 :: 96 :: 96 :: more) = false)
    by (apply no_match_inside; [discriminate|assumption|assumption]).
  cbn [includes] in Hinc. apply orb_false_iff in Hinc. destruct Hinc as [_ Hinc].
  change ((c :: p) ++ rest) with (c :: (p ++ rest)) in *.
  cbn [removeAllFrom andb]. rewrite Hno. cbn [app]. f_equal.
  apply IH; assumption.
Qed.

Lemma jsstring_eqb_length a b :
  List.length a <> List.length b -> jsstring_eqb a b = false.
Proof.
  intros H. apply AIConfigFacts.jsstring_eqb_neq. intros ->. apply H. reflexivity.
Qed.

Lemma removeAtEnd_fence p :
  removeAtEnd fence (p ++ LF ++ fence) = p ++ LF.
Proof.
  induction p as [|c p IH]; [reflexivity|].
  cbn [app removeAtEnd].
  rewrite !jsstring_eqb_length.
  - cbn [orb]. f_equal. exact IH.
  - cbn. rewrite !length_app. cbn. lia.
  - cbn. rewrite !length_app. cbn. lia.
Qed.

(** The text handed to [JSON.parse] for a fenced payload. *)
Lemma stripFence_fenced_json payload :
  includes payload fence = false ->
  stripFence (Fence.fenced Fence.jsonTag payload) = payload ++ LF.
Proof.
  intros Hinc. unfold stripFence. rewrite trim_fenced. cbv zeta.
  change (startsWith (Fence.fenced Fence.jsonTag payload) fenceJson) with true.
  cbv iota. unfold removeAll.
  change (removeAllFrom fenceJson 0 false (Fence.fenced Fence.jsonTag payload))
    with (removeAllFrom fenceJson 0 false (payload ++ LF ++ fence)).
  change fenceJson with (96 :: 96 :: 96 :: str "json").
  rewrite removeAll_clean by (assumption || reflexivity).
  change (removeAllFrom (96 :: 96 :: 96 :: str "json") 0 false (LF ++ fence))
    with (LF ++ fence).
  apply removeAtEnd_fence.
Qed.

Lemma stripFence_fenced_bare payload :
  includes payload fence = false ->
  stripFence (Fence.fenced Fence.bare payload) = payload ++ LF.
Proof.
  intros Hinc. unfold stripFence. rewrite trim_fenced. cbv zeta.
  assert (E1 : startsWith (Fence.fenced Fence.bare payload) fenceJson = false).
  { unfold Fence.fenced, Fence.bare, fence, fenceJson. cbn. reflexivity. }
  rewrite E1.
  change (startsWith (Fence.fenced Fence.bare payload) fence) with true.
  cbv iota. unfold removeAll.
  change (removeAllFrom fence 0 false (Fence.fenced Fence.bare payload))
    with (removeAllFrom fence 0 false (payload ++ LF ++ fence)).
  change fence with (96 :: 96 :: 96 :: []) at 1.
  rewrite removeAll_clean by (assumption || reflexivity).
  reflexivity.
Qed.

(** The unfenced case: a JSON text is parsed as it is. *)
Lemma extractJSON_plain payload v :
  parse payload = Some v -> extractJSON payload = Some v.
Proof.
  intros H. pose proof (parse_trim payload v H) as Ht.
  unfold extractJSON, stripFence. cbv zeta.
  destruct (startsWith (trim payload) fenceJson) eqn:E1.
  - apply startsWith_backtick in E1. destruct E1 as (r & E).
    rewrite E, parse_backtick in Ht. discriminate Ht.
  - destruct (startsWith (trim payload) fence) eqn:E2; [|exact Ht].
    apply startsWith_backtick in E2. destruct E2 as (r & E).
    rewrite E, parse_backtick in Ht. discriminate Ht.
Qed.

End JSONFacts.

Import JSON JSString.




(** ** Card normalization *)

Module NormalizeFacts.
Import OptionsInvariant.

Lemma getProp_None item k : getProp item k = None <-> item = JNull.
Proof.
  destruct item; cbn; split; intros H; congruence.
Qed.

Lemma normalizeCard_None d item : normalizeCard d item = None <-> item = JNull.
Proof.
  split.
  - intros H. destruct item; try reflexivity; cbn in H; discriminate H.
  - intros ->. reflexivity.
Qed.

(** The card built from a provider's card that is not [null]. *)
Lemma normalizeCard_Some d item card :
  normalizeCard d item = Some card ->
  exists q a ty dl o,
    getProp item (str "question") = Some q
    /\ getProp item (str "answer") = Some a
    /\ getProp item (str "questionType") = Some ty
    /\ getProp item (str "difficultyLevel") = Some dl
    /\ getProp item (str "options") = Some o
    /\ Flashcard.question card = orElse q (JStr [])
    /\ Flashcard.answer card = orElse a (JStr [])
    /\ Flashcard.questionType card = orElse ty (JStr (str "short_answer"))
    /\ Flashcard.difficultyLevel card = orElse dl (JStr d)
    /\ Flashcard.options card
       = match o with
         | Some v => if truthy v then Some v else None
         | None => None
         end.
Proof.
  unfold normalizeCard.
  destruct (getProp item (str "question")) as [q|]; [|discriminate].
  destruct (getProp item (str "answer")) as [a|]; [|discriminate].
  destruct (getProp item (str "questionType")) as [ty|]; [|discriminate].
  destruct (getProp item (str "difficultyLevel")) as [dl|]; [|discriminate].
  destruct (getProp item (str "options")) as [o|]; [|discriminate].
  intros H. injection H as <-. exists q, a, ty, dl, o.
  repeat split; reflexivity.
Qed.

Lemma mapCards_Some d items : forall cards,
  mapCards d items = Some cards <->
  Forall2 (fun item card => normalizeCard d item = Some card) items cards.
Proof.
  induction items as [|item rest IH]; intros cards; cbn [mapCards].
  - split.
    + intros H. injection H as <-. constructor.
    + intros H. inversion H. reflexivity.
  - destruct (normalizeCard d item) as [c|] eqn:E.
    + destruct (mapCards d rest) as [cs|] eqn:Er.
      * split.
        -- intros H. injection H as <-. constructor; [exact E|].
           apply IH. reflexivity.
        -- intros H. inversion H as [|? c' ? cs' Hc Hcs]; subst.
           apply IH in Hcs. congruence.
      * split; [discriminate|].
        intros H. inversion H as [|? c' ? cs' Hc Hcs]; subst.
        apply IH in Hcs. discriminate Hcs.
    + split; [discriminate|].
      intros H. inversion H as [|? c' ? cs' Hc Hcs]; subst. congruence.
Qed.

Lemma mapCards_None d items : mapCards d items = None <-> In JNull items.
Proof.
  induction items as [|item rest IH]; cbn [mapCards In].
  - split; [discriminate|tauto].
  - destruct (normalizeCard d item) as [c|] eqn:E.
    + assert (item <> JNull).
      { intros ->. discriminate E. }
      destruct (mapCards d rest) as [cs|].
      * split; [discriminate|]. intros [H1|H1]; [congruence|].
        apply IH in H1. discriminate H1.
      * split; [|reflexivity]. intros _. right. apply IH. reflexivity.
    + apply normalizeCard_None in E. split; [|reflexivity]. intros _.
      left. exact E.
Qed.

Lemma generateFlashcards_Ok respond options cards :
  generateFlashcards respond options = Ok cards ->
  exists text items,
    respond (buildPrompt options) = Some text
    /\ extractJSON text = Some (JArr items)
    /\ Forall2 (fun item card =>
                  normalizeCard (requestDifficulty options) item = Some card)
               items cards.
Proof.
  unfold generateFlashcards. cbv zeta.
  destruct (respond (buildPrompt options)) as [text|]; [|discriminate].
  destruct (extractJSON text) as [[| b | l | s | items | ms]|] eqn:Ev;
    try discriminate.
  destruct (mapCards (requestDifficulty options) items) as [cs|] eqn:Em;
    [|discriminate].
  intros H. injection H as <-. exists text, items.
  split; [reflexivity|]. split; [exact Ev|]. apply mapCards_Some, Em.
Qed.

(** Normalization hands the provider's [options] through. *)
Lemma options_pass_through d item card :
  normalizeCard d item = Some card ->
  (forall o, Flashcard.options card = Some o ->
             getProp item (str "options") = Some (Some o))
  /\ (hasFourOptions card <-> givenFourOptions item)
  /\ (Flashcard.options card = None <->
      getProp item (str "options") = Some None
      \/ exists v, getProp item (str "options") = Some (Some v)
                   /\ truthy v = false).
Proof.
  intros Hn.
  destruct (normalizeCard_Some _ _ _ Hn)
    as (q & a & ty & dl & o & _ & _ & _ & _ & Ho & _ & _ & _ & _ & Eo).
  rewrite Ho. unfold hasFourOptions, givenFourOptions. rewrite Ho, Eo.
  destruct o as [v|].
  - destruct (truthy v) eqn:Hv.
    + split; [intros o H; congruence|]. split.
      * split; intros (l & H & Hl); exists l; split; congruence.
      * split; [discriminate|].
        intros [H|(w & H & Hw)]; [discriminate H|]. congruence.
    + split; [intros o H; discriminate H|]. split.
      * split; intros (l & H & Hl); [discriminate H|].
        injection H as ->. discriminate Hv.
      * split; [|reflexivity]. intros _. right. exists v. auto.
  - split; [intros o H; discriminate H|]. split.
    + split; intros (l & H & Hl); discriminate H.
    + split; [|reflexivity]. intros _. left. reflexivity.
Qed.

End NormalizeFacts.




Import OptionsInvariant.




(* ================================================================== *)
(** * Part III: the code around the claims                             *)
(* ================================================================== *)

(** ** The usage summary and the isolation of users *)

Module UsageFacts.
Import Store RateLimit DailyUsage.

Lemma getDailyUsageSummary_eq db now userId :
  JSDate.validNow now ->
  UsageSummary.getDailyUsageSummary db now userId =
  Some {| UsageSummary.studyModules :=
            {| UsageSummary.current := studyModulesToday db userId now;
               UsageSummary.limit := 3;
               UsageSummary.remaining :=
                 Z.max 0 (3 - studyModulesToday db userId now) |};
          UsageSummary.aiCards :=
            {| UsageSummary.current := aiCardsToday db userId now;
               UsageSummary.limit := 30;
               UsageSummary.remaining :=
                 Z.max 0 (30 - aiCardsToday db userId now) |} |}.
Proof.
  intros Hv. unfold UsageSummary.getDailyUsageSummary.
  rewrite (RateLimitFacts.getStartOfTodayUTC_midnight now Hv). cbv zeta.
  unfold studyModuleCount, aiFlashcardCount, studyModulesToday, aiCardsToday,
    STUDY_MODULES, AI_CARDS.
  rewrite !RateLimitFacts.countIf_filter. reflexivity.
Qed.

Lemma studyModulesToday_nonneg db userId now :
  0 <= studyModulesToday db userId now.
Proof. apply RateLimitFacts.countIf_nonneg. Qed.

Lemma aiCardsToday_nonneg db userId now : 0 <= aiCardsToday db userId now.
Proof. apply RateLimitFacts.countIf_nonneg. Qed.

Lemma filter_none {A : Type} (p : A -> bool) (l : list A) :
  (forall x, In x l -> p x = false) -> filter p l = [].
Proof.
  induction l as [|x r IH]; intros H; [reflexivity|].
  cbn [filter]. rewrite (H x (or_introl eq_refl)).
  apply IH. intros y Hy. apply H. right. exact Hy.
Qed.

Lemma filter_same {A : Type} (p q : A -> bool) (l : list A) :
  (forall x, In x l -> p x = q x) -> filter p l = filter q l.
Proof.
  induction l as [|x r IH]; intros H; [reflexivity|].
  cbn [filter]. rewrite (H x (or_introl eq_refl)), IH; [reflexivity|].
  intros y Hy. apply H. right. exact Hy.
Qed.

End UsageFacts.

(** X1.  [getDailyUsageSummary] reports, for each of the two quotas, the
    count, the limit and the remainder that the two checks compute at the
    same moment; a remainder lies between 0 and the limit; and the
    remainders decide admission: one more study module is allowed exactly
    when the remainder of modules is positive, and a request for a
    positive number of cards is allowed exactly when that number is at
    most the remainder of cards. *)
Theorem X1_usage_summary_agrees db now userId requested :
  JSDate.validNow now ->
  0 < requested ->
  exists s m c,
    UsageSummary.getDailyUsageSummary db now userId = Some s
    /\ checkStudyModuleDailyLimit db now userId = Some m
    /\ checkAICardsDailyLimit db now userId requested = Some c
    /\ UsageSummary.current (UsageSummary.studyModules s) = currentCount m
    /\ UsageSummary.limit (UsageSummary.studyModules s) = RateLimit.limit m
    /\ UsageSummary.remaining (UsageSummary.studyModules s)
       = RateLimit.remaining m
    /\ UsageSummary.current (UsageSummary.aiCards s) = cardsCurrentCount c
    /\ UsageSummary.limit (UsageSummary.aiCards s) = cardsLimit c
    /\ UsageSummary.remaining (UsageSummary.aiCards s) = cardsRemaining c
    /\ 0 <= UsageSummary.remaining (UsageSummary.studyModules s) <= 3
    /\ 0 <= UsageSummary.remaining (UsageSummary.aiCards s) <= 30
    /\ (allowed m = true
        <-> 0 < UsageSummary.remaining (UsageSummary.studyModules s))
    /\ (cardsAllowed c = true
        <-> requested <= UsageSummary.remaining (UsageSummary.aiCards s)).
Proof.
  intros Hv Hr.
  rewrite (UsageFacts.getDailyUsageSummary_eq db now userId Hv).
  rewrite (RateLimitFacts.checkStudyModuleDailyLimit_eq db now userId Hv).
  rewrite (RateLimitFacts.checkAICardsDailyLimit_eq db now userId requested Hv).
  do 3 eexists. do 3 (split; [reflexivity|]).
  cbn [UsageSummary.current UsageSummary.limit UsageSummary.remaining
       UsageSummary.studyModules UsageSummary.aiCards
       allowed currentCount RateLimit.limit RateLimit.remaining
       cardsAllowed cardsCurrentCount cardsLimit cardsRemaining].
  pose proof (UsageFacts.studyModulesToday_nonneg db userId now) as Hm.
  pose proof (UsageFacts.aiCardsToday_nonneg db userId now) as Hc.
  do 6 (split; [reflexivity|]).
  split; [lia|]. split; [lia|]. split.
  - rewrite Z.ltb_lt. lia.
  - rewrite Z.leb_le. lia.
Qed.

Lemma X1_usage_summary_agrees_witness :
  exists s,
    UsageSummary.getDailyUsageSummary Sample.db Sample.morning Sample.alice
    = Some s
    /\ UsageSummary.remaining (UsageSummary.studyModules s) = 1
    /\ UsageSummary.remaining (UsageSummary.aiCards s) = 28.
Proof.
  destruct (X1_usage_summary_agrees Sample.db Sample.morning Sample.alice 28)
    as (s & m & c & Hs & Hm & Hc & _ & _ & Hrm & _ & _ & Hrc & _).
  - unfold JSDate.validNow, Sample.morning. lia.
  - lia.
  - exists s. split; [exact Hs|]. split.
    + rewrite Hrm. vm_compute in Hm. injection Hm as <-. reflexivity.
    + rewrite Hrc. vm_compute in Hc. injection Hc as <-. reflexivity.
Defined.

Module IsolationFacts.
Import Store RateLimit.

(** The store after more rows were inserted into the two tables. *)
Lemma studyModuleCount_others db ms cs userId gte :
  Forall (fun r => StudyModuleRow.userId r <> userId) ms ->
  studyModuleCount
    {| studyModule := studyModule db ++ ms; flashcard := flashcard db ++ cs |}
    userId gte
  = studyModuleCount db userId gte.
Proof.
  intros Hms. unfold studyModuleCount. cbn [studyModule].
  rewrite filter_app, (UsageFacts.filter_none _ ms), app_nil_r; [reflexivity|].
  intros r Hr. apply andb_false_iff. left.
  apply AIConfigFacts.jsstring_eqb_neq.
  exact (proj1 (Forall_forall _ _) Hms r Hr).
Qed.

Lemma moduleIsAIGenerated_fresh db ms cs m :
  Forall (fun r => existsb (fun s => jsstring_eqb (StudyModuleRow.id s)
                                                  (StudyModuleRow.id r))
                           (studyModule db) = false) ms ->
  existsb (fun s => jsstring_eqb (StudyModuleRow.id s) m) (studyModule db)
  = true ->
  moduleIsAIGenerated
    {| studyModule := studyModule db ++ ms; flashcard := cs |} (Some m)
  = moduleIsAIGenerated db (Some m).
Proof.
  intros Hfresh Hm. unfold moduleIsAIGenerated. cbn [studyModule].
  rewrite existsb_app.
  replace (existsb _ ms) with false; [apply orb_false_r|].
  symmetry. apply not_true_is_false. intros H.
  apply existsb_exists in H. destruct H as (r & Hr & H).
  apply andb_true_iff in H. destruct H as [H _].
  apply AIConfigFacts.jsstring_eqb_eq in H.
  pose proof (proj1 (Forall_forall _ _) Hfresh r Hr) as Hf. cbv beta in Hf.
  rewrite H in Hf. congruence.
Qed.

Lemma aiFlashcardCount_others db ms cs userId gte :
  Forall (fun r => FlashcardRow.userId r <> userId) cs ->
  StudyModules.referential db ->
  Forall (fun r => existsb (fun s => jsstring_eqb (StudyModuleRow.id s)
                                                  (StudyModuleRow.id r))
                           (studyModule db) = false) ms ->
  aiFlashcardCount
    {| studyModule := studyModule db ++ ms; flashcard := flashcard db ++ cs |}
    userId gte
  = aiFlashcardCount db userId gte.
Proof.
  intros Hcs Hfk Hfresh. unfold aiFlashcardCount. cbn [flashcard].
  rewrite filter_app, (UsageFacts.filter_none _ cs), app_nil_r.
  - f_equal. f_equal. apply UsageFacts.filter_same. intros r Hr.
    f_equal. f_equal.
    pose proof (proj1 (Forall_forall _ _) Hfk r Hr) as Hm. cbv beta in Hm.
    destruct (FlashcardRow.moduleId r) as [m|]; [|reflexivity].
    apply moduleIsAIGenerated_fresh; assumption.
  - intros r Hr. apply andb_false_iff. left. apply andb_false_iff. left.
    apply AIConfigFacts.jsstring_eqb_neq.
    exact (proj1 (Forall_forall _ _) Hcs r Hr).
Qed.

End IsolationFacts.

(** X2.  The quotas are per user.  When study modules and flashcards
    owned by other users are inserted (the new modules under fresh
    primary keys, the stored cards naming stored modules only, as the
    foreign key of the migration demands), both checks and the usage
    summary of a user give at every moment what they gave before. *)
Theorem X2_other_users_do_not_count db ms cs userId :
  Forall (fun r => StudyModuleRow.userId r <> userId) ms ->
  Forall (fun r => FlashcardRow.userId r <> userId) cs ->
  StudyModules.referential db ->
  Forall (fun r => existsb (fun s => jsstring_eqb (StudyModuleRow.id s)
                                                  (StudyModuleRow.id r))
                           (studyModule db) = false) ms ->
  let db' :=
    {| studyModule := studyModule db ++ ms;
       flashcard := flashcard db ++ cs |} in
  forall now requested,
    checkStudyModuleDailyLimit db' now userId
    = checkStudyModuleDailyLimit db now userId
    /\ checkAICardsDailyLimit db' now userId requested
       = checkAICardsDailyLimit db now userId requested
    /\ UsageSummary.getDailyUsageSummary db' now userId
       = UsageSummary.getDailyUsageSummary db now userId.
Proof.
  intros Hms Hcs Hfk Hfresh db' now requested.
  unfold checkStudyModuleDailyLimit, checkAICardsDailyLimit,
    UsageSummary.getDailyUsageSummary.
  destruct (getStartOfTodayUTC now) as [start|]; [|repeat split].
  cbv zeta. unfold db'.
  rewrite (IsolationFacts.studyModuleCount_others db ms cs userId start Hms).
  rewrite (IsolationFacts.aiFlashcardCount_others db ms cs userId start
             Hcs Hfk Hfresh).
  repeat split.
Qed.

Lemma X2_other_users_do_not_count_witness :
  checkAICardsDailyLimit
    {| studyModule :=
         studyModule Sample.db
         ++ [ {| StudyModuleRow.id := str "m-bob";
                 StudyModuleRow.userId := Sample.bob;
                 StudyModuleRow.isAIGenerated := true;
                 StudyModuleRow.createdAt := Sample.morning |} ];
       flashcard :=
         flashcard Sample.db
         ++ [ {| FlashcardRow.userId := Sample.bob;
                 FlashcardRow.question := str "q";
                 FlashcardRow.answer := str "a";
                 FlashcardRow.subject := None;
                 FlashcardRow.difficultyLevel := None;
                 FlashcardRow.educationLevel := None;
                 FlashcardRow.moduleId := Some (str "m-bob");
                 FlashcardRow.questionType := None;
                 FlashcardRow.options := None;
                 FlashcardRow.isAIGenerated := true;
                 FlashcardRow.createdAt := Sample.morning |} ] |}
    Sample.morning Sample.alice 5
  = checkAICardsDailyLimit Sample.db Sample.morning Sample.alice 5.
Proof.
  apply (X2_other_users_do_not_count Sample.db _ _ Sample.alice).
  - repeat constructor. cbn. discriminate.
  - repeat constructor. cbn. discriminate.
  - unfold StudyModules.referential. vm_compute. repeat constructor.
  - repeat constructor.
Defined.

(** ** middleware/rateLimit.ts *)

Module ResetFacts.
Import JSDate Store RateLimit DailyUsage.

Lemma MakeDay_next year month date :
  MakeDay year month (date + 1) = MakeDay year month date + 1.
Proof. unfold MakeDay. cbv zeta. lia. Qed.

Lemma YearFromTime_epoch now : validNow now -> 1970 <= YearFromTime now.
Proof.
  intros [H0 H1].
  pose proof (JSDateFacts.YearFromTime_spec now) as [_ Hs].
  destruct (Z.le_gt_cases 1970 (YearFromTime now)) as [|Hlt]; [assumption|].
  pose proof (JSDateFacts.DayFromYear_mono (YearFromTime now + 1) 1970
                ltac:(lia)) as Hm.
  assert (DayFromYear 1970 = 0) by reflexivity.
  assert (0 <= Day now) by (unfold Day, msPerDay; zdm). lia.
Qed.

(** For the time value of a running clock before the last representable
    day, [getResetTime] is the next UTC midnight. *)
Lemma getResetTime_next now :
  validNow now -> now < 8640000000000000 ->
  RateLimitMiddleware.getResetTime now = Some (startOfUTCDay now + msPerDay).
Proof.
  intros Hv Hlt. pose proof (YearFromTime_epoch now Hv) as Hy.
  destruct Hv as [H0 H1].
  unfold RateLimitMiddleware.getResetTime, UTC, getUTCFullYear, getUTCMonth,
    getUTCDate, MakeFullYear.
  replace ((0 <=? YearFromTime now) && (YearFromTime now <=? 99)) with false
    by (symmetry; apply andb_false_iff; right; apply Z.leb_gt; lia).
  rewrite MakeDay_next, JSDateFacts.MakeDay_fields.
  unfold MakeDate, MakeTime.
  assert (E : (Day now + 1) * msPerDay
              + (0 * 3600000 + 0 * 60000 + 0 * 1000 + 0)
              = startOfUTCDay now + msPerDay).
  { rewrite RateLimitFacts.startOfUTCDay_Day. lia. }
  rewrite E.
  assert (Hb : 0 <= startOfUTCDay now + msPerDay <= 8640000000000000).
  { unfold startOfUTCDay, msPerDay. zdm. }
  unfold TimeClip.
  replace (Z.abs (startOfUTCDay now + msPerDay) <=? 8640000000000000)
    with true by (symmetry; apply Z.leb_le; lia).
  replace (Z.abs (startOfUTCDay now + msPerDay) <=? 8640000000000000)
    with true by (symmetry; apply Z.leb_le; lia).
  reflexivity.
Qed.

Lemma startOfUTCDay_bounds now :
  startOfUTCDay now <= now < startOfUTCDay now + msPerDay.
Proof. unfold startOfUTCDay, msPerDay. zdm. Qed.

Lemma startOfUTCDay_midnight now :
  startOfUTCDay (startOfUTCDay now + msPerDay) = startOfUTCDay now + msPerDay.
Proof. unfold startOfUTCDay, msPerDay. zdm. Qed.

End ResetFacts.

(** X3.  The reset time that a 429 answer of the middleware announces
    is the next UTC midnight: it lies after the present moment by at most
    24 hours, it is itself the start of its UTC day, and both counters
    of every user, taken at that moment over the rows stored by now, are
    zero. *)
Theorem X3_reset_time_is_next_midnight now :
  JSDate.validNow now ->
  now < 8640000000000000 ->
  exists reset,
    RateLimitMiddleware.getResetTime now = Some reset
    /\ reset = startOfUTCDay now + JSDate.msPerDay
    /\ now < reset <= now + JSDate.msPerDay
    /\ getStartOfTodayUTC reset = Some reset
    /\ forall db userId,
         storedBy db now ->
         studyModulesToday db userId reset = 0
         /\ aiCardsToday db userId reset = 0.
Proof.
  intros Hv Hlt. exists (startOfUTCDay now + JSDate.msPerDay).
  pose proof (ResetFacts.startOfUTCDay_bounds now) as Hb.
  pose proof (ResetFacts.startOfUTCDay_midnight now) as Hs.
  split; [apply ResetFacts.getResetTime_next; assumption|].
  split; [reflexivity|]. split; [lia|]. split.
  - rewrite RateLimitFacts.getStartOfTodayUTC_midnight; [rewrite Hs; reflexivity|].
    destruct Hv as [H0 H1]. unfold JSDate.validNow.
    unfold startOfUTCDay, JSDate.msPerDay in *. zdm.
  - intros db userId [Hsm Hfc]. split.
    + unfold studyModulesToday. apply RateLimitFacts.countIf_none.
      intros r Hr. rewrite Hs.
      pose proof (proj1 (Forall_forall _ _) Hsm r Hr) as Hle. cbv beta in Hle.
      apply andb_false_iff. right. apply Z.leb_gt. lia.
    + unfold aiCardsToday. apply RateLimitFacts.countIf_none.
      intros r Hr. rewrite Hs.
      pose proof (proj1 (Forall_forall _ _) Hfc r Hr) as Hle. cbv beta in Hle.
      apply andb_false_iff. left. apply andb_false_iff. right.
      apply Z.leb_gt. lia.
Qed.

Lemma X3_reset_time_is_next_midnight_witness :
  RateLimitMiddleware.getResetTime Sample.morning
  = Some (20396 * JSDate.msPerDay).
Proof.
  destruct (X3_reset_time_is_next_midnight Sample.morning)
    as (reset & Hr & E & _).
  - unfold JSDate.validNow, Sample.morning. lia.
  - unfold Sample.morning. lia.
  - rewrite Hr, E. reflexivity.
Defined.



(** ** routes/study-modules.ts: POST /ai/generate *)

Module StudyModulesFacts.
Import JSON JSString Store RateLimit DailyUsage StudyModules.

Section Handler.

Variable stringify : json -> jsstring.

Lemma createStudyModule_Some db newId userId now plan saved :
  createStudyModule db newId userId now plan = Some saved ->
  saved = {| StudyModuleRow.id := newId;
             StudyModuleRow.userId := userId;
             StudyModuleRow.isAIGenerated := true;
             StudyModuleRow.createdAt := now |}
  /\ existsb (fun r => jsstring_eqb (StudyModuleRow.id r) newId)
             (studyModule db) = false.
Proof.
  unfold createStudyModule.
  destruct (StudyModulePlan.title plan); [|discriminate].
  destruct (negb _); [discriminate|].
  destruct (existsb _ _) eqn:E; [discriminate|].
  intros H. injection H as <-. split; reflexivity.
Qed.

Lemma createFlashcard_Some userId subject educationLevel difficultyLevel
      moduleId now card row :
  createFlashcard stringify userId subject educationLevel difficultyLevel
                  moduleId now card = Some row ->
  FlashcardRow.userId row = userId
  /\ FlashcardRow.isAIGenerated row = true
  /\ FlashcardRow.moduleId row = Some moduleId
  /\ FlashcardRow.createdAt row = now.
Proof.
  unfold createFlashcard.
  destruct (Flashcard.question card); try discriminate.
  destruct (Flashcard.answer card); try discriminate.
  destruct (FlashcardsAI.difficultyColumn card difficultyLevel);
    try discriminate.
  destruct (questionTypeColumn card); try discriminate.
  intros H. injection H as <-. repeat split.
Qed.

(** What [Promise.all] of the creates leaves in the table. *)
Lemma saveAll_rows userId subject educationLevel difficultyLevel moduleId
      clock cards : forall i,
  let saved := saveAll stringify userId subject educationLevel
                       difficultyLevel moduleId clock i cards in
  Forall (fun r => FlashcardRow.userId r = userId
                   /\ FlashcardRow.isAIGenerated r = true
                   /\ FlashcardRow.moduleId r = Some moduleId
                   /\ exists j, FlashcardRow.createdAt r = clock j)
         (fst saved)
  /\ (List.length (fst saved) <= List.length cards)%nat
  /\ (snd saved = true -> List.length (fst saved) = List.length cards).
Proof.
  induction cards as [|card rest IH]; intros i; cbn [saveAll].
  - cbn. split; [constructor|]. split; [lia|reflexivity].
  - specialize (IH (S i)). cbv zeta in IH.
    destruct (saveAll stringify userId subject educationLevel difficultyLevel
                      moduleId clock (S i) rest) as [rows ok].
    cbn [fst snd] in IH. destruct IH as (Hall & Hlen & Hok).
    destruct (createFlashcard stringify userId subject educationLevel
                difficultyLevel moduleId (clock i) card) as [row|] eqn:E;
      cbn [fst snd List.length].
    + apply createFlashcard_Some in E. destruct E as (E1 & E2 & E3 & E4).
      split; [|split; [lia|intros H; rewrite (Hok H); reflexivity]].
      constructor; [|exact Hall].
      split; [exact E1|]. split; [exact E2|]. split; [exact E3|].
      exists i. exact E4.
    + split; [exact Hall|]. split; [lia|discriminate].
Qed.

(** The module counter after a module and its cards were stored. *)
Lemma studyModuleCount_insert db saved rows userId gte :
  StudyModuleRow.userId saved = userId ->
  studyModuleCount (insertModule db saved rows) userId gte
  = studyModuleCount db userId gte
    + (if gte <=? StudyModuleRow.createdAt saved then 1 else 0).
Proof.
  intros Hu. unfold studyModuleCount, insertModule. cbn [studyModule].
  rewrite filter_app, length_app. cbn [filter].
  rewrite Hu, AIConfigFacts.jsstring_eqb_refl. cbn [andb].
  destruct (gte <=? StudyModuleRow.createdAt saved); cbn [List.length]; lia.
Qed.

(** The card counter: the cards stored before count as before, and every
    new card that is recent enough counts. *)
Lemma aiFlashcardCount_insertModule db saved rows userId gte :
  referential db ->
  existsb (fun r => jsstring_eqb (StudyModuleRow.id r)
                                 (StudyModuleRow.id saved))
          (studyModule db) = false ->
  Forall (fun r => FlashcardRow.userId r = userId
                   /\ FlashcardRow.isAIGenerated r = true) rows ->
  aiFlashcardCount (insertModule db saved rows) userId gte
  = aiFlashcardCount db userId gte
    + countIf (fun r => gte <=? FlashcardRow.createdAt r) rows.
Proof.
  intros Hfk Hfresh Hrows. unfold aiFlashcardCount, insertModule.
  cbn [flashcard]. rewrite filter_app, length_app, Nat2Z.inj_add.
  f_equal.
  - f_equal. f_equal. apply UsageFacts.filter_same. intros r Hr.
    f_equal. f_equal.
    pose proof (proj1 (Forall_forall _ _) Hfk r Hr) as Hm. cbv beta in Hm.
    destruct (FlashcardRow.moduleId r) as [m|]; [|reflexivity].
    apply (IsolationFacts.moduleIsAIGenerated_fresh db [saved]);
      [|exact Hm].
    constructor; [exact Hfresh|constructor].
  - rewrite RateLimitFacts.countIf_filter.
    apply RateLimitFacts.countIf_ext. intros r Hr.
    destruct (proj1 (Forall_forall _ _) Hrows r Hr) as [-> ->].
    rewrite AIConfigFacts.jsstring_eqb_refl. cbn [andb orb].
    apply andb_true_r.
Qed.

Lemma countIf_le_length {A : Type} (p : A -> bool) (l : list A) :
  countIf p l <= Z.of_nat (List.length l).
Proof.
  induction l as [|x r IH]; cbn [countIf List.length]; [lia|].
  destruct (p x); lia.
Qed.

Lemma countIf_all {A : Type} (p : A -> bool) (l : list A) :
  Forall (fun x => p x = true) l -> countIf p l = Z.of_nat (List.length l).
Proof.
  induction 1 as [|x r Hx _ IH]; cbn [countIf List.length]; [lia|].
  rewrite Hx. lia.
Qed.

(** The ways the handler ends: with the store as it was, or with one
    module and the accepted cards of the adapter's answer stored, after
    both checks allowed and the body was found valid. *)
Lemma generateHandler_cases db clock newId userId body service inTime
      response db' :
  nonEmpty userId = true ->
  generateHandler stringify db clock newId
    (Some {| User.userId := Some userId |}) body service inTime
  = (response, db') ->
  (db' = db
   /\ forall saved total, response <> Status201 saved total)
  \/ exists m c t generate generated saved,
       let n := match numberOfCards body with Some z => z | None => 20 end in
       let options :=
         {| GenerateStudyModuleOptions.topic := trim t;
            GenerateStudyModuleOptions.subject :=
              FlashcardsAI.orUndefined (subject body);
            GenerateStudyModuleOptions.educationLevel :=
              FlashcardsAI.orUndefined (educationLevel body);
            GenerateStudyModuleOptions.difficultyLevel :=
              FlashcardsAI.orUndefined (difficultyLevel body);
            GenerateStudyModuleOptions.numberOfCards :=
              Some (FlashcardsAI.cardsOr (numberOfCards body) 20);
            GenerateStudyModuleOptions.estimatedHours :=
              hoursOrUndefined (estimatedHours body) |} in
       let stored :=
         saveAll stringify userId
           (FlashcardsAI.orUndefined (subject body))
           (FlashcardsAI.orUndefined (educationLevel body))
           (FlashcardsAI.orUndefined (difficultyLevel body))
           newId (savedCard clock) 0
           (StudyModuleWithFlashcards.flashcards generated) in
       checkStudyModuleDailyLimit db (checkedModules clock) userId = Some m
       /\ allowed m = true
       /\ checkAICardsDailyLimit db (checkedCards clock) userId n = Some c
       /\ cardsAllowed c = true
       /\ topic body = Some (JStr t)
       /\ (n = 0 \/ 5 <= n <= 100)
       /\ service = Some generate
       /\ inTime = true
       /\ generate options = Ok generated
       /\ createStudyModule db newId userId (savedModule clock)
            (StudyModuleWithFlashcards.module generated) = Some saved
       /\ db' = insertModule db saved (fst stored)
       /\ response = if snd stored
                     then Status201 saved (List.length (fst stored))
                     else Status500.
Proof.
  intros Hid. unfold generateHandler.
  cbn [User.getUserIdFromRequest User.userId]. rewrite Hid.
  destruct (checkStudyModuleDailyLimit db (checkedModules clock) userId)
    as [m|] eqn:Em;
    [|intros H; injection H as <- <-; left; split; [reflexivity|discriminate]].
  destruct (checkAICardsDailyLimit db (checkedCards clock) userId _)
    as [c|] eqn:Ec;
    [|intros H; injection H as <- <-; left; split; [reflexivity|discriminate]].
  destruct (allowed m) eqn:Ea; cbn [negb];
    [|intros H; injection H as <- <-; left; split; [reflexivity|discriminate]].
  destruct (cardsAllowed c) eqn:Eca; cbn [negb];
    [|intros H; injection H as <- <-; left; split; [reflexivity|discriminate]].
  destruct (topic body) as [[| | |t| |]|] eqn:Et;
    try (intros H; injection H as <- <-; left;
         split; [reflexivity|discriminate]).
  destruct (negb (nonEmpty t) || negb (nonEmpty (trim t)));
    [intros H; injection H as <- <-; left; split; [reflexivity|discriminate]|].
  destruct (200 <? Z.of_nat (List.length t));
    [intros H; injection H as <- <-; left; split; [reflexivity|discriminate]|].
  destruct (negb (_ =? 0) && _) eqn:En;
    [intros H; injection H as <- <-; left; split; [reflexivity|discriminate]|].
  destruct service as [generate|];
    [|intros H; injection H as <- <-; left; split; [reflexivity|discriminate]].
  destruct inTime; cbn [negb];
    [|intros H; injection H as <- <-; left; split; [reflexivity|discriminate]].
  match goal with
  | |- context [generate ?o] => destruct (generate o) as [generated|cause] eqn:Eg
  end;
    [|intros H; injection H as <- <-; left; split; [reflexivity|discriminate]].
  destruct (createStudyModule db newId userId (savedModule clock) _)
    as [saved|] eqn:Es;
    [|intros H; injection H as <- <-; left; split; [reflexivity|discriminate]].
  destruct (createStudyModule_Some _ _ _ _ _ _ Es) as [Esaved _].
  assert (Eid : StudyModuleRow.id saved = newId) by (rewrite Esaved; reflexivity).
  rewrite Eid.
  cbn [GenerateStudyModuleOptions.subject
       GenerateStudyModuleOptions.educationLevel
       GenerateStudyModuleOptions.difficultyLevel].
  destruct (saveAll stringify userId _ _ _ newId (savedCard clock) 0 _)
    as [rows ok] eqn:Esave.
  intros H. injection H as <- <-. right.
  exists m, c, t, generate, generated, saved. cbv zeta.
  rewrite Esave. cbn [fst snd].
  repeat (split; [first [assumption | reflexivity]|]);
    try (split; [|repeat split; first [assumption | reflexivity]]).
  apply andb_false_iff in En. destruct En as [En|En].
  - left. apply negb_false_iff, Z.eqb_eq in En. exact En.
  - right. apply orb_false_iff in En. destruct En as [E1 E2].
    apply Z.ltb_ge in E1. apply Z.ltb_ge in E2. lia.
Qed.

End Handler.

End StudyModulesFacts.



(** X6.  What POST /api/study-modules/ai/generate leaves in the store.
    Either the store is as it was and the answer is not a 201, or one
    study module was stored, owned by the requester, flagged
    AI-generated and created under the new key, together with the cards
    of the adapter's answer that the table accepted, each owned by the
    requester, flagged AI-generated and linked to that module; the
    answer is then the 201 with the number of stored cards, or a 500
    when a card was refused, in which case the module and the accepted
    cards stay stored.  The module counter of the requester goes up by
    one and the card counter by the number of new cards, for every
    window that contains their creation times, and the foreign key
    still holds. *)
Theorem X6_study_module_generate_accounting
        stringify db clock newId userId body service inTime response db' :
  JSON.nonEmpty userId = true ->
  StudyModules.referential db ->
  StudyModules.generateHandler stringify db clock newId
    (Some {| User.userId := Some userId |}) body service inTime
  = (response, db') ->
  (db' = db /\ forall saved total, response <> StudyModules.Status201 saved total)
  \/ exists saved rows,
       db' = StudyModules.insertModule db saved rows
       /\ saved = {| StudyModuleRow.id := newId;
                     StudyModuleRow.userId := userId;
                     StudyModuleRow.isAIGenerated := true;
                     StudyModuleRow.createdAt :=
                       StudyModules.savedModule clock |}
       /\ Forall (fun r => FlashcardRow.userId r = userId
                           /\ FlashcardRow.isAIGenerated r = true
                           /\ FlashcardRow.moduleId r = Some newId
                           /\ exists j, FlashcardRow.createdAt r
                                        = StudyModules.savedCard clock j)
                 rows
       /\ (response = StudyModules.Status201 saved (List.length rows)
           \/ response = StudyModules.Status500)
       /\ (forall gte,
             studyModuleCount db' userId gte
             = studyModuleCount db userId gte
               + (if gte <=? StudyModules.savedModule clock then 1 else 0))
       /\ (forall gte,
             aiFlashcardCount db' userId gte
             = aiFlashcardCount db userId gte
               + countIf (fun r => gte <=? FlashcardRow.createdAt r) rows)
       /\ StudyModules.referential db'.
Proof.
  intros Hid Hfk Hrun.
  destruct (StudyModulesFacts.generateHandler_cases stringify db clock newId
              userId body service inTime response db' Hid Hrun)
    as [Hsame | (m & c & t & generate & generated & saved & Hcase)];
    [left; exact Hsame|right].
  cbv zeta in Hcase.
  destruct Hcase as (_ & _ & _ & _ & _ & _ & _ & _ & _ & Hs & Hdb & Hresp).
  destruct (StudyModulesFacts.createStudyModule_Some _ _ _ _ _ _ Hs)
    as [Esaved Hfresh].
  pose proof (StudyModulesFacts.saveAll_rows stringify userId
                (orUndefined (StudyModules.subject body))
                (orUndefined (StudyModules.educationLevel body))
                (orUndefined (StudyModules.difficultyLevel body))
                newId (StudyModules.savedCard clock)
                (StudyModuleWithFlashcards.flashcards generated) 0) as Hrows.
  cbv zeta in Hrows. destruct Hrows as (Hall & _ & _).
  match type of Hdb with
  | _ = StudyModules.insertModule _ _ (fst ?s) =>
      set (stored := s) in *
  end.
  exists saved, (fst stored).
  split; [exact Hdb|]. split; [exact Esaved|]. split; [exact Hall|].
  split; [rewrite Hresp; destruct (snd stored); [left|right]; reflexivity|].
  split; [|split].
  - intros gte. rewrite Hdb.
    rewrite (StudyModulesFacts.studyModuleCount_insert db saved (fst stored)
               userId gte) by (rewrite Esaved; reflexivity).
    rewrite Esaved. reflexivity.
  - intros gte. rewrite Hdb.
    apply StudyModulesFacts.aiFlashcardCount_insertModule; [exact Hfk| |].
    + rewrite Esaved. exact Hfresh.
    + eapply Forall_impl; [|exact Hall]. cbv beta.
      intros r (H1 & H2 & _). split; assumption.
  - rewrite Hdb. unfold StudyModules.referential, StudyModules.insertModule.
    cbn [flashcard studyModule]. apply Forall_app. split.
    + eapply Forall_impl; [|exact Hfk]. cbv beta. intros r Hr.
      destruct (FlashcardRow.moduleId r) as [mid|]; [|exact I].
      rewrite existsb_app, Hr. reflexivity.
    + eapply Forall_impl; [|exact Hall]. cbv beta.
      intros r (_ & _ & -> & _).
      rewrite existsb_app. cbn [existsb]. rewrite Esaved.
      cbn [StudyModuleRow.id]. rewrite AIConfigFacts.jsstring_eqb_refl.
      apply orb_true_iff. right. reflexivity.
Qed.

Lemma X6_study_module_generate_accounting_witness :
  exists saved db',
    StudyModules.generateHandler SampleModules.stringify Sample.db
      SampleModules.clock (str "m9") SampleModules.user
      (SampleModules.body (Some 10)) (Some SampleModules.adapter) true
    = (StudyModules.Status201 saved 10, db')
    /\ studyModuleCount db' Sample.alice Sample.midnight = 3
    /\ aiFlashcardCount db' Sample.alice Sample.midnight = 12.
Proof.
  destruct (StudyModules.generateHandler SampleModules.stringify Sample.db
              SampleModules.clock (str "m9") SampleModules.user
              (SampleModules.body (Some 10)) (Some SampleModules.adapter) true)
    as [response db'] eqn:Hrun.
  destruct (X6_study_module_generate_accounting SampleModules.stringify
              Sample.db SampleModules.clock (str "m9") Sample.alice
              (SampleModules.body (Some 10)) (Some SampleModules.adapter) true
              response db')
    as [[Hsame _] | (saved & rows & Hdb & _ & _ & _ & Hm & Hc & _)].
  - reflexivity.
  - unfold StudyModules.referential. vm_compute. repeat constructor.
  - exact Hrun.
  - exfalso. vm_compute in Hrun. injection Hrun as _ Hdb.
    rewrite <- Hdb in Hsame. discriminate Hsame.
  - vm_compute in Hrun. injection Hrun as <- <-.
    eexists. eexists. split; [reflexivity|]. split; vm_compute; reflexivity.
Defined.

Module QuotaFacts.
Import JSON JSString Store RateLimit DailyUsage StudyModules.

Lemma studyModuleCount_today db userId now :
  studyModuleCount db userId (startOfUTCDay now)
  = studyModulesToday db userId now.
Proof.
  unfold studyModuleCount, studyModulesToday.
  apply RateLimitFacts.countIf_filter.
Qed.

Lemma aiFlashcardCount_today db userId now :
  aiFlashcardCount db userId (startOfUTCDay now) = aiCardsToday db userId now.
Proof.
  unfold aiFlashcardCount, aiCardsToday.
  apply RateLimitFacts.countIf_filter.
Qed.

(** The orchestrator of the adapters never returns more cards than the
    number it was asked for. *)
Lemma adapter_bounded structure gen :
  bounded (fun options =>
             Adapter.outcome
               (Adapter.generateStudyModule (structure options) gen options)).
Proof.
  intros options generated n Hrun Hn Hpos.
  unfold Adapter.generateStudyModule in Hrun. rewrite Hn in Hrun.
  cbn [Adapter.orDefault] in Hrun.
  destruct (structure options) as [plan|cause]; [|discriminate Hrun].
  destruct (StudyModulePlan.title plan) as [title|]; [|discriminate Hrun].
  destruct (StudyModulePlan.topics plan) as [topics|]; [|discriminate Hrun].
  destruct (StudyModulePlan.learningPlan plan) as [learningPlan|];
    [|discriminate Hrun].
  destruct (nonEmpty title); [|discriminate Hrun].
  cbn [Adapter.outcome] in Hrun. injection Hrun as <-.
  cbn [StudyModuleWithFlashcards.flashcards].
  apply OrchestrationFacts.slice0_length, Hpos.
Qed.

End QuotaFacts.



(** X8.  A request to POST /api/study-modules/ai/generate with
    [numberOfCards: 0] is checked against the card quota for 0 cards,
    skips the range test, and asks the adapter for 20 cards.  So for a
    requester below the module quota whose AI cards of today number 30
    or fewer, the cards the adapter returns for that request of 20 are
    stored, the answer is 201, and the AI cards of today are as many as
    before plus all of them, which can be more than 30. *)
Theorem X8_zero_cards_bypass
        stringify db clock newId userId body generate t generated saved :
  JSDate.validNow (StudyModules.checkedModules clock) ->
  JSDate.validNow (StudyModules.checkedCards clock) ->
  JSON.nonEmpty userId = true ->
  StudyModules.referential db ->
  StudyModules.numberOfCards body = Some 0 ->
  StudyModules.topic body = Some (JStr t) ->
  JSON.nonEmpty (trim t) = true ->
  Z.of_nat (List.length t) <= 200 ->
  studyModulesToday db userId (StudyModules.checkedModules clock) < 3 ->
  aiCardsToday db userId (StudyModules.checkedCards clock) <= 30 ->
  let options :=
    {| GenerateStudyModuleOptions.topic := trim t;
       GenerateStudyModuleOptions.subject :=
         orUndefined (StudyModules.subject body);
       GenerateStudyModuleOptions.educationLevel :=
         orUndefined (StudyModules.educationLevel body);
       GenerateStudyModuleOptions.difficultyLevel :=
         orUndefined (StudyModules.difficultyLevel body);
       GenerateStudyModuleOptions.numberOfCards := Some 20;
       GenerateStudyModuleOptions.estimatedHours :=
         StudyModules.hoursOrUndefined (StudyModules.estimatedHours body) |} in
  let stored :=
    StudyModules.saveAll stringify userId
      (orUndefined (StudyModules.subject body))
      (orUndefined (StudyModules.educationLevel body))
      (orUndefined (StudyModules.difficultyLevel body))
      newId (StudyModules.savedCard clock) 0
      (StudyModuleWithFlashcards.flashcards generated) in
  generate options = Ok generated ->
  StudyModules.createStudyModule db newId userId
    (StudyModules.savedModule clock)
    (StudyModuleWithFlashcards.module generated) = Some saved ->
  snd stored = true ->
  (forall j, startOfUTCDay (StudyModules.checkedCards clock)
             <= StudyModules.savedCard clock j) ->
  let result :=
    StudyModules.generateHandler stringify db clock newId
      (Some {| User.userId := Some userId |}) body (Some generate) true in
  result
  = (StudyModules.Status201 saved
       (List.length (StudyModuleWithFlashcards.flashcards generated)),
     StudyModules.insertModule db saved (fst stored))
  /\ aiCardsToday (snd result) userId (StudyModules.checkedCards clock)
     = aiCardsToday db userId (StudyModules.checkedCards clock)
       + Z.of_nat (List.length
                     (StudyModuleWithFlashcards.flashcards generated)).
Proof.
  intros Hvm Hvc Hid Hfk Hn Ht Htrim Hlen Hmod Hcards options stored
         Hgen Hsaved Hok Hclock.
  pose proof (StudyModulesFacts.saveAll_rows stringify userId
                (orUndefined (StudyModules.subject body))
                (orUndefined (StudyModules.educationLevel body))
                (orUndefined (StudyModules.difficultyLevel body))
                newId (StudyModules.savedCard clock)
                (StudyModuleWithFlashcards.flashcards generated) 0) as Hrows.
  cbv zeta in Hrows. fold stored in Hrows. destruct Hrows as (Hall & _ & Hfull).
  specialize (Hfull Hok).
  destruct (StudyModulesFacts.createStudyModule_Some _ _ _ _ _ _ Hsaved)
    as [Esaved Hfresh].
  assert (Hne : nonEmpty t = true).
  { destruct t; [discriminate Htrim|reflexivity]. }
  assert (Hrun : StudyModules.generateHandler stringify db clock newId
                   (Some {| User.userId := Some userId |}) body (Some generate)
                   true
                 = (StudyModules.Status201 saved
                      (List.length
                         (StudyModuleWithFlashcards.flashcards generated)),
                    StudyModules.insertModule db saved (fst stored))).
  { unfold StudyModules.generateHandler.
    cbn [User.getUserIdFromRequest User.userId]. rewrite Hid, Hn.
    rewrite (RateLimitFacts.checkStudyModuleDailyLimit_eq db _ userId Hvm).
    rewrite (RateLimitFacts.checkAICardsDailyLimit_eq db _ userId _ Hvc).
    cbn [allowed cardsAllowed].
    rewrite (proj2 (Z.ltb_lt _ _) Hmod).
    rewrite (proj2 (Z.leb_le _ _)) by lia.
    cbn [negb]. rewrite Ht, Hne, Htrim. cbn [negb orb].
    rewrite (proj2 (Z.ltb_ge _ _) Hlen).
    cbn [Z.eqb negb andb FlashcardsAI.cardsOr].
    fold options. rewrite Hgen, Hsaved.
    assert (Eid : StudyModuleRow.id saved = newId)
      by (rewrite Esaved; reflexivity).
    rewrite Eid.
    cbn [GenerateStudyModuleOptions.subject
         GenerateStudyModuleOptions.educationLevel
         GenerateStudyModuleOptions.difficultyLevel options].
    fold stored. destruct stored as [rows ok]. cbn [fst snd] in *.
    rewrite Hok, Hfull. reflexivity. }
  cbv zeta. rewrite Hrun. split; [reflexivity|]. cbn [snd].
  rewrite <- !QuotaFacts.aiFlashcardCount_today.
  rewrite (StudyModulesFacts.aiFlashcardCount_insertModule db saved (fst stored)
             userId); [|exact Hfk|rewrite Esaved; exact Hfresh|].
  - rewrite StudyModulesFacts.countIf_all, Hfull; [reflexivity|].
    eapply Forall_impl; [|exact Hall]. cbv beta.
    intros r (_ & _ & _ & j & ->). apply Z.leb_le, Hclock.
  - eapply Forall_impl; [|exact Hall]. cbv beta.
    intros r (H1 & H2 & _). split; assumption.
Qed.

Lemma X8_zero_cards_bypass_witness :
  exists saved db',
    StudyModules.generateHandler SampleModules.stringify Sample.dbFull
      SampleModules.clock (str "m9") SampleModules.user
      (SampleModules.body (Some 0)) (Some SampleModules.adapter) true
    = (StudyModules.Status201 saved 15, db')
    /\ aiCardsToday Sample.dbFull Sample.alice Sample.morning = 30
    /\ aiCardsToday db' Sample.alice Sample.morning = 45.
Proof.
  destruct (SampleModules.adapter
              {| GenerateStudyModuleOptions.topic := str "Photosynthesis";
                 GenerateStudyModuleOptions.subject := None;
                 GenerateStudyModuleOptions.educationLevel := None;
                 GenerateStudyModuleOptions.difficultyLevel := None;
                 GenerateStudyModuleOptions.numberOfCards := Some 20;
                 GenerateStudyModuleOptions.estimatedHours := None |})
    as [generated|cause] eqn:Hgen; [|vm_compute in Hgen; discriminate Hgen].
  pose proof (X8_zero_cards_bypass SampleModules.stringify Sample.dbFull
                SampleModules.clock (str "m9") Sample.alice
                (SampleModules.body (Some 0)) SampleModules.adapter
                (str "Photosynthesis") generated
                {| StudyModuleRow.id := str "m9";
                   StudyModuleRow.userId := Sample.alice;
                   StudyModuleRow.isAIGenerated := true;
                   StudyModuleRow.createdAt := Sample.morning |}) as H.
  vm_compute in Hgen. injection Hgen as <-.
  cbv zeta in H. destruct H as [Hrun Hcount].
  - unfold JSDate.validNow. cbn. unfold Sample.morning. lia.
  - unfold JSDate.validNow. cbn. unfold Sample.morning. lia.
  - reflexivity.
  - unfold StudyModules.referential. vm_compute. repeat constructor.
  - reflexivity.
  - reflexivity.
  - reflexivity.
  - vm_compute. discriminate.
  - vm_compute. reflexivity.
  - vm_compute. discriminate.
  - vm_compute. reflexivity.
  - vm_compute. reflexivity.
  - vm_compute. reflexivity.
  - intros j. vm_compute. discriminate.
  - eexists. eexists. split; [exact Hrun|].
    split; vm_compute; reflexivity.
Defined.

(** ** The orchestrator with a provider that delivers *)

Module ObedientFacts.
Import JSON Adapter CardFill Providers.

Section Fill.

Variable gen : nat -> GenerateFlashcardsOptions.t -> result (list Flashcard.t).
Hypothesis Hgen : obedient gen.
Variables (topic subject educationLevel difficultyLevel : jsstring).
Variable total : Z.
Variable cardsPerTopic : jsnum.
Hypothesis Hcpt : cardsPerTopic = PosInf \/ exists c, cardsPerTopic = Fin c.

(** The state of a run so far: no more cards than asked for, nothing
    logged. *)
Local Abbreviation fine st :=
  (Z.of_nat (List.length (allFlashcards st)) <= total /\ errors st = []).

Lemma cardsForThisTopic_Fin entry st :
  exists v, cardsForThisTopic total cardsPerTopic entry st = Fin v
            /\ v <= remainingCards total st.
Proof.
  unfold cardsForThisTopic, numOr.
  destruct (WeekPlan.flashcardsCount entry) as [z|].
  - destruct (z =? 0).
    + destruct Hcpt as [->|[c ->]]; cbn [Math_min]; eexists;
        (split; [reflexivity|lia]).
    + cbn [Math_min]. eexists. split; [reflexivity|lia].
  - destruct Hcpt as [->|[c ->]]; cbn [Math_min]; eexists;
      (split; [reflexivity|lia]).
Qed.

Lemma push_fine st content v :
  fine st -> 0 < v -> v <= remainingCards total st ->
  let st' := callAndPush gen st
               (requestFor subject educationLevel difficultyLevel content
                           (Fin v)) in
  fine st'
  /\ Z.of_nat (List.length (allFlashcards st'))
     = Z.of_nat (List.length (allFlashcards st)) + v.
Proof.
  intros [Hlen Herr] Hpos Hle. cbv zeta. unfold callAndPush.
  destruct (Hgen (List.length (requests st))
              (requestFor subject educationLevel difficultyLevel content
                          (Fin v)) v eq_refl Hpos) as (cards & -> & Hcards).
  cbn [allFlashcards errors]. rewrite length_app, Nat2Z.inj_add, Hcards.
  unfold remainingCards in Hle. repeat split; [lia|exact Herr].
Qed.

Lemma fill_fine entries : forall st,
  fine st ->
  fine (fillTopics gen subject educationLevel difficultyLevel total
                   cardsPerTopic entries st).
Proof.
  induction entries as [|entry rest IH]; intros st Hst; cbn [fillTopics];
    [exact Hst|].
  destruct (cardsForThisTopic_Fin entry st) as (v & -> & Hv).
  cbn [leZero]. destruct (Z.leb_spec v 0) as [|Hpos]; [exact Hst|].
  apply IH. apply (push_fine st _ v Hst Hpos Hv).
Qed.

Lemma backfill_full st :
  fine st ->
  let st' := backfill gen topic subject educationLevel difficultyLevel
                      total st in
  Z.of_nat (List.length (allFlashcards st')) = total /\ errors st' = [].
Proof.
  intros Hst. cbv zeta. unfold backfill.
  destruct (Z.ltb_spec (Z.of_nat (List.length (allFlashcards st))) total)
    as [Hlt|Hge].
  - destruct (push_fine st (str "General questions about " ++ topic)
                (remainingCards total st) Hst) as [[_ He] Hl].
    + unfold remainingCards. lia.
    + lia.
    + split; [|exact He]. rewrite Hl. unfold remainingCards. lia.
  - destruct Hst as [Hle He]. split; [lia|exact He].
Qed.

End Fill.

Lemma fallback_shape total k :
  0 < total ->
  fallback total k = PosInf \/ exists c, fallback total k = Fin c.
Proof.
  intros Hpos. unfold fallback, floorDiv.
  destruct (Z.of_nat k =? 0).
  - rewrite (proj2 (Z.ltb_lt 0 total) Hpos). left. reflexivity.
  - right. eexists. reflexivity.
Qed.

Lemma slice0_all {A : Type} (a : list A) (n : Z) :
  Z.of_nat (List.length a) = n -> slice0 a n = a.
Proof.
  intros <-. unfold slice0.
  destruct (Z.ltb_spec (Z.of_nat (List.length a)) 0); [lia|].
  rewrite Z.min_id, Nat2Z.id. apply firstn_all.
Qed.

End ObedientFacts.





(** ** routes/flashcards-ai.ts: what the persisting handlers store *)

Module PersistFacts.
Import JSON FlashcardsAI.

Lemma createFlashcard_owner userId subject educationLevel difficultyLevel
      now card row :
  createFlashcard userId subject educationLevel difficultyLevel now card
  = Some row ->
  FlashcardRow.userId row = userId /\ FlashcardRow.createdAt row = now.
Proof.
  unfold createFlashcard. intros H.
  destruct (Flashcard.question card); try discriminate.
  destruct (Flashcard.answer card); try discriminate.
  destruct (difficultyColumn card difficultyLevel); try discriminate.
  injection H as <-. split; reflexivity.
Qed.

Lemma saveAll_owned userId subject educationLevel difficultyLevel clock cards :
  forall i,
  let saved := saveAll userId subject educationLevel difficultyLevel clock i
                       cards in
  Forall (fun r => FlashcardRow.userId r = userId
                   /\ exists j, FlashcardRow.createdAt r = clock j)
         (fst saved)
  /\ (List.length (fst saved) <= List.length cards)%nat
  /\ (snd saved = true -> List.length (fst saved) = List.length cards).
Proof.
  induction cards as [|card rest IH]; intros i; cbn [saveAll].
  - cbn. split; [constructor|]. split; [lia|reflexivity].
  - specialize (IH (S i)). cbv zeta in IH.
    destruct (saveAll userId subject educationLevel difficultyLevel clock
                      (S i) rest) as [rows ok].
    cbn [fst snd] in IH. destruct IH as (Hall & Hlen & Hok).
    destruct (createFlashcard userId subject educationLevel difficultyLevel
                              (clock i) card) as [row|] eqn:E;
      cbn [fst snd List.length].
    + apply createFlashcard_owner in E. destruct E as [E1 E2].
      split; [|split; [lia|intros H; rewrite (Hok H); reflexivity]].
      constructor; [|exact Hall]. split; [exact E1|]. exists i. exact E2.
    + split; [exact Hall|]. split; [lia|discriminate].
Qed.

(** What an answer says about the rows that were added. *)
Local Abbreviation accounted clock userId db result :=
  (Store.studyModule (snd result) = Store.studyModule db
   /\ exists rows,
        Store.flashcard (snd result) = Store.flashcard db ++ rows
        /\ Forall (fun r => FlashcardRow.userId r = userId
                            /\ exists j, FlashcardRow.createdAt r = clock j)
                  rows
        /\ (fst result = Status400 -> rows = [])
        /\ (forall n, fst result = Status201 n -> List.length rows = n)
        /\ (rows <> [] ->
            fst result = Status201 (List.length rows)
            \/ fst result = Status500)).

Lemma accounted_unchanged (clock : nat -> Z) (userId : jsstring)
      (db : Store.DB) (response : Response) :
  (forall n, response <> Status201 n) ->
  accounted clock userId db (response, db).
Proof.
  intros Hr. split; [reflexivity|]. exists []. cbn [fst snd].
  rewrite app_nil_r. split; [reflexivity|]. split; [constructor|].
  split; [reflexivity|]. split.
  - intros n H. exfalso. exact (Hr n H).
  - intros H. exfalso. apply H. reflexivity.
Qed.

Lemma accounted_saved clock userId subject educationLevel difficultyLevel
      db cards :
  accounted clock userId db
    (respondSaved db
       (saveAll userId subject educationLevel difficultyLevel clock 0 cards)).
Proof.
  pose proof (saveAll_owned userId subject educationLevel difficultyLevel
                clock cards 0) as H.
  cbv zeta in H.
  destruct (saveAll userId subject educationLevel difficultyLevel clock 0
                    cards) as [rows ok].
  cbn [fst snd] in H. destruct H as (Hall & _ & _).
  unfold respondSaved. cbn [fst snd insertFlashcards
    Store.studyModule Store.flashcard].
  split; [reflexivity|]. exists rows. split; [reflexivity|].
  split; [exact Hall|]. split; [|split].
  - destruct ok; discriminate.
  - intros n H. destruct ok; [|discriminate H]. injection H as <-. reflexivity.
  - intros _. destruct ok; [left|right]; reflexivity.
Qed.

End PersistFacts.

(** X11.  What POST /api/flashcards-ai/generate and POST
    /api/flashcards-ai/generate-from-topic leave in the store: they
    never touch the study modules, and they add flashcards only, every
    one owned by the requester.  A 400 adds nothing; a 201 reports as
    [count] exactly the number of rows added; and rows are added only
    under a 201 or under the 500 of a save in which the table refused
    some other card of the same answer. *)
Theorem X11_flashcards_ai_persist clock userId body aiService :
  Forall
    (fun handler : Store.DB -> (nat -> Z) -> jsstring -> Body ->
                   option AIService -> Response * Store.DB =>
       forall db,
         studyModule (snd (handler db clock userId body aiService))
         = studyModule db
         /\ exists rows,
              flashcard (snd (handler db clock userId body aiService))
              = flashcard db ++ rows
              /\ Forall (fun r => FlashcardRow.userId r = userId
                                  /\ exists j, FlashcardRow.createdAt r
                                               = clock j) rows
              /\ (fst (handler db clock userId body aiService) = Status400 ->
                  rows = [])
              /\ (forall n,
                    fst (handler db clock userId body aiService)
                    = Status201 n ->
                    List.length rows = n)
              /\ (rows <> [] ->
                  fst (handler db clock userId body aiService)
                  = Status201 (List.length rows)
                  \/ fst (handler db clock userId body aiService)
                     = Status500))
    [ generateHandler; generateFromTopicHandler ].
Proof.
  apply Forall_cons; [|apply Forall_cons; [|apply Forall_nil]]; intros db.
  - unfold generateHandler.
    destruct (content body) as [[| | |c| |]|];
      try (apply PersistFacts.accounted_unchanged; discriminate).
    destruct (negb (nonEmpty c) || negb (nonEmpty (trim c)));
      [apply PersistFacts.accounted_unchanged; discriminate|].
    destruct (50000 <? Z.of_nat (List.length c));
      [apply PersistFacts.accounted_unchanged; discriminate|].
    cbv zeta.
    destruct aiService as [service|];
      [|apply PersistFacts.accounted_unchanged; discriminate].
    destruct (FlashcardsAI.generateFlashcards service _) as [cards|cause];
      [|apply PersistFacts.accounted_unchanged; discriminate].
    apply PersistFacts.accounted_saved.
  - unfold generateFromTopicHandler.
    destruct (topic body) as [[| | |t| |]|];
      try (apply PersistFacts.accounted_unchanged; discriminate).
    destruct (negb (nonEmpty t) || negb (nonEmpty (trim t)));
      [apply PersistFacts.accounted_unchanged; discriminate|].
    destruct (200 <? Z.of_nat (List.length t));
      [apply PersistFacts.accounted_unchanged; discriminate|].
    cbv zeta.
    match goal with
    | |- context [if ?b then (Status400, _) else _] => destruct b
    end; [apply PersistFacts.accounted_unchanged; discriminate|].
    destruct aiService as [service|];
      [|apply PersistFacts.accounted_unchanged; discriminate].
    destruct (FlashcardsAI.generateFlashcardsFromTopic service _) as [cards|cause];
      [|apply PersistFacts.accounted_unchanged; discriminate].
    apply PersistFacts.accounted_saved.
Qed.

Lemma X11_flashcards_ai_persist_witness :
  let text := dq "[{'question':'q','answer':'a'},{'question':7,'answer':'b'}]" in
  let result :=
    generateHandler Sample.db (fun _ => Sample.morning) Sample.alice
                    Sample.body (Some (Sample.service text)) in
  fst result = Status500
  /\ exists row,
       flashcard (snd result) = flashcard Sample.db ++ [row]
       /\ FlashcardRow.userId row = Sample.alice.
Proof.
  cbv zeta.
  pose proof (X11_flashcards_ai_persist (fun _ => Sample.morning) Sample.alice
                Sample.body
                (Some (Sample.service
                         (dq "[{'question':'q','answer':'a'},{'question':7,'answer':'b'}]"))))
    as H.
  apply Forall_inv in H. specialize (H Sample.db).
  destruct H as (_ & rows & Hrows & Hown & _).
  split; [vm_compute; reflexivity|].
  assert (Hlen : List.length rows = 1%nat).
  { apply (f_equal (@List.length _)) in Hrows. rewrite length_app in Hrows.
    match type of Hrows with
    | ?l = _ => replace l with 5%nat in Hrows by (vm_compute; reflexivity)
    end.
    change (List.length (flashcard Sample.db)) with 4%nat in Hrows. lia. }
  destruct rows as [|row [|more rows]]; try discriminate Hlen.
  exists row. split; [exact Hrows|].
  apply Forall_inv in Hown. exact (proj1 Hown).
Defined.

(** ** What the routes ask of the adapter *)

Module AskFacts.
Import JSON JSString.

Lemma trimStart_length s : (List.length (trimStart s) <= List.length s)%nat.
Proof.
  induction s as [|c r IH]; cbn [trimStart List.length]; [lia|].
  destruct (isTrimSpace c); cbn [List.length]; lia.
Qed.

Lemma trimEnd_length s : (List.length (trimEnd s) <= List.length s)%nat.
Proof.
  induction s as [|c r IH]; cbn [trimEnd List.length]; [lia|].
  destruct (trimEnd r) as [|d r'].
  - destruct (isTrimSpace c); cbn [List.length]; lia.
  - cbn [List.length] in *. lia.
Qed.

Lemma trim_length s : (List.length (trim s) <= List.length s)%nat.
Proof.
  unfold trim. pose proof (trimEnd_length (trimStart s)).
  pose proof (trimStart_length s). lia.
Qed.

Lemma trimEnd_idempotent s : trimEnd (trimEnd s) = trimEnd s.
Proof.
  induction s as [|c r IH]; [reflexivity|]. cbn [trimEnd].
  destruct (trimEnd r) as [|d r'] eqn:E.
  - destruct (isTrimSpace c) eqn:Ec; [reflexivity|].
    cbn [trimEnd]. rewrite Ec. reflexivity.
  - cbn [trimEnd]. cbn [trimEnd] in IH.
    destruct (trimEnd r') as [|e r''] eqn:E'.
    + destruct (isTrimSpace d); [discriminate IH|].
      injection IH as <-. reflexivity.
    + injection IH as <-. reflexivity.
Qed.

Lemma trimStart_fixed s :
  match s with [] => True | c :: _ => isTrimSpace c = false end ->
  trimStart s = s.
Proof. destruct s as [|c r]; [reflexivity|]. cbn. intros ->. reflexivity. Qed.

Lemma trimStart_head s :
  match trimStart s with [] => True | c :: _ => isTrimSpace c = false end.
Proof.
  induction s as [|c r IH]; [exact I|]. cbn [trimStart].
  destruct (isTrimSpace c) eqn:E; [exact IH|exact E].
Qed.

Lemma trimEnd_head s :
  match s with [] => True | c :: _ => isTrimSpace c = false end ->
  match trimEnd s with [] => True | c :: _ => isTrimSpace c = false end.
Proof.
  destruct s as [|c r]; [intros _; exact I|]. intros Hc. cbn [trimEnd].
  destruct (trimEnd r); [rewrite Hc|]; exact Hc.
Qed.

Lemma trim_idempotent s : trim (trim s) = trim s.
Proof.
  unfold trim.
  rewrite (trimStart_fixed (trimEnd (trimStart s))).
  - apply trimEnd_idempotent.
  - apply trimEnd_head, trimStart_head.
Qed.

Lemma cardsOr_range x d lo hi :
  lo <= d <= hi ->
  negb (match x with Some z => z | None => d end =? 0)
  && ((match x with Some z => z | None => d end <? lo)
      || (hi <? match x with Some z => z | None => d end)) = false ->
  lo <= FlashcardsAI.cardsOr x d <= hi.
Proof.
  intros Hd H. unfold FlashcardsAI.cardsOr. destruct x as [z|]; [|lia].
  destruct (Z.eqb_spec z 0) as [->|Hz]; [lia|].
  cbn [negb andb] in H. apply orb_false_iff in H. destruct H as [H1 H2].
  apply Z.ltb_ge in H1. apply Z.ltb_ge in H2. lia.
Qed.

End AskFacts.



(** ** utils/vertex-ai-credentials.ts *)

Module CredentialFacts.
Import JSON JSString VertexCredentials.

(** Inside a string literal the scanner's next token is that string. *)
Lemma lex_in_string r : forall st ts,
  match st with
  | LStr _ | LEsc _ | LUni _ _ _ => True
  | _ => False
  end ->
  lex st r = Some ts ->
  exists s rest, ts = TString s :: rest.
Proof.
  induction r as [|c r IH]; intros st ts Hst H.
  - destruct st; try contradiction; discriminate H.
  - cbn [lex] in H.
    destruct (step st c) as [[ts0 st']|] eqn:Es; [|discriminate H].
    destruct (lex st' r) as [ts1|] eqn:El; [|discriminate H].
    cbn [option_map] in H. injection H as <-.
    destruct st as [|acc|acc|acc|acc seen value]; try contradiction;
      cbn [step] in Es.
    + destruct (c =? 34)%N.
      * injection Es as <- <-. eexists. eexists. reflexivity.
      * destruct (c =? 92)%N.
        -- injection Es as <- <-. (eapply IH; [|exact El]; exact I).
        -- destruct (c <? 32)%N; [discriminate Es|].
           injection Es as <- <-. (eapply IH; [|exact El]; exact I).
    + destruct (c =? 117)%N.
      * injection Es as <- <-. (eapply IH; [|exact El]; exact I).
      * destruct (escapeValue c); [|discriminate Es].
        injection Es as <- <-. (eapply IH; [|exact El]; exact I).
    + destruct (hexValue c); [|discriminate Es].
      destruct seen as [|[|[|[|k]]]]; injection Es as <- <-;
        (eapply IH; [|exact El]; exact I).
Qed.

(** A text that starts with a double quote parses to a string, if it
    parses at all. *)
Lemma parse_quoted text v :
  startsWith text (dq "'") = true -> parse text = Some v ->
  exists s, v = JStr s.
Proof.
  change (dq "'") with [34%N].
  destruct text as [|c r]; [discriminate|].
  cbn [startsWith]. intros Hc.
  apply andb_true_iff in Hc. destruct Hc as [Hc _].
  apply N.eqb_eq in Hc. subst c.
  unfold parse. cbn [lex step].
  change (stepIdle 34) with (Some (@nil token, LStr [])). cbv beta iota.
  destruct (lex (LStr []) r) as [ts|] eqn:El; cbn [option_map app];
    [|discriminate].
  destruct (lex_in_string r (LStr []) ts I El) as (s & rest & ->).
  cbn [prun pstep startValue complete].
  destruct rest as [|t rest]; cbn [prun pstep]; [|discriminate].
  intros H. injection H as <-. exists s. reflexivity.
Qed.

Lemma missing_false x :
  missing x = false <-> exists v, x = Some v /\ truthy v = true.
Proof.
  unfold missing. destruct x as [v|].
  - rewrite negb_false_iff. split.
    + intros H. exists v. split; [reflexivity|exact H].
    + intros (w & E & H). injection E as <-. exact H.
  - split; [discriminate|]. intros (w & E & _). discriminate E.
Qed.

(** The ways [getVertexAICredentials] ends. *)
Lemma getVertexAICredentials_Returned fs value credentials :
  getVertexAICredentials fs value = Returned credentials ->
  exists v text members,
    value = Some v
    /\ nonEmpty (trim v) = true
    /\ credentialsJson fs (trim v) = Some text
    /\ parse text = Some credentials
    /\ credentials = JObj members
    /\ missing (lookupLast (str "project_id") members) = false
    /\ missing (lookupLast (str "private_key") members) = false
    /\ missing (lookupLast (str "client_email") members) = false.
Proof.
  unfold getVertexAICredentials. destruct value as [v|]; [|discriminate].
  cbn [option_map].
  destruct (nonEmpty (trim v)) eqn:Ene; [|discriminate]. cbn [negb orb].
  destruct (jsstring_eqb (trim v) (dq "''")); [discriminate|].
  destruct (credentialsJson fs (trim v)) as [text|] eqn:Et; [|discriminate].
  destruct (parse text) as [c|] eqn:Ep; [|discriminate].
  destruct c as [|b|l|s|items|members]; cbn [getProp missing];
    try discriminate.
  destruct (missing (lookupLast (str "project_id") members)) eqn:E1;
    [discriminate|].
  destruct (missing (lookupLast (str "private_key") members)) eqn:E2;
    [discriminate|].
  destruct (missing (lookupLast (str "client_email") members)) eqn:E3;
    [discriminate|].
  intros H. injection H as <-.
  exists v, text, members. repeat split; assumption.
Qed.

End CredentialFacts.



Module UnescapeFacts.
Import JSString VertexCredentials.
Local Open Scope N_scope.

(** The two code units of a backslash followed by [n]. *)
Local Abbreviation escaped := [92; 110].

Lemma unescape_cons c d r :
  unescapeNewlines (c :: d :: r)
  = if (c =? 92) && (d =? 110) then 10 :: unescapeNewlines r
    else c :: unescapeNewlines (d :: r).
Proof. reflexivity. Qed.

Lemma includes_cons c r p :
  includes (c :: r) p = startsWith (c :: r) p || includes r p.
Proof. reflexivity. Qed.

Lemma unescape_head c r :
  exists r', unescapeNewlines (c :: r) = c :: r'
             \/ unescapeNewlines (c :: r) = 10 :: r'.
Proof.
  destruct r as [|d r'].
  - exists []. left. reflexivity.
  - rewrite unescape_cons.
    destruct ((c =? 92) && (d =? 110)); eexists; [right|left]; reflexivity.
Qed.

Lemma unescape_clean_upto n : forall s,
  (List.length s <= n)%nat -> includes (unescapeNewlines s) escaped = false.
Proof.
  induction n as [|n IH]; intros s Hn.
  - destruct s; [reflexivity|cbn in Hn; lia].
  - destruct s as [|c [|d r]]; [reflexivity| |].
    + cbn [unescapeNewlines includes startsWith].
      rewrite andb_false_r. reflexivity.
    + rewrite unescape_cons.
      destruct ((c =? 92) && (d =? 110)) eqn:E; rewrite includes_cons.
      * rewrite IH by (cbn [List.length] in Hn; lia). reflexivity.
      * rewrite (IH (d :: r)) by (cbn [List.length] in *; lia).
        rewrite orb_false_r. cbn [startsWith].
        destruct (N.eqb_spec 92 c) as [<-|]; [|reflexivity].
        cbn [andb]. change (92 =? 92) with true in E. cbn [andb] in E.
        destruct (unescape_head d r) as (r' & [-> | ->]); cbn [startsWith].
        -- rewrite N.eqb_sym, E. reflexivity.
        -- reflexivity.
Qed.

Lemma unescape_clean s : includes (unescapeNewlines s) escaped = false.
Proof. apply (unescape_clean_upto (List.length s)). lia. Qed.

Lemma unescape_fixed_upto n : forall s,
  (List.length s <= n)%nat ->
  includes s escaped = false -> unescapeNewlines s = s.
Proof.
  induction n as [|n IH]; intros s Hn H.
  - destruct s; [reflexivity|cbn in Hn; lia].
  - destruct s as [|c [|d r]]; [reflexivity|reflexivity|].
    rewrite includes_cons in H.
    apply orb_false_iff in H. destruct H as [H1 H2].
    assert (E : (c =? 92) && (d =? 110) = false).
    { cbn [startsWith] in H1. rewrite andb_true_r in H1.
      rewrite (N.eqb_sym c), (N.eqb_sym d). exact H1. }
    rewrite unescape_cons, E. f_equal.
    apply IH; [cbn [List.length] in *; lia|exact H2].
Qed.

Lemma unescape_fixed s :
  includes s escaped = false -> unescapeNewlines s = s.
Proof. apply (unescape_fixed_upto (List.length s)). lia. Qed.

Lemma unescape_length_upto n : forall s,
  (List.length s <= n)%nat ->
  (List.length (unescapeNewlines s) <= List.length s)%nat.
Proof.
  induction n as [|n IH]; intros s Hn.
  - destruct s; [cbn; lia|cbn in Hn; lia].
  - destruct s as [|c [|d r]]; [cbn; lia|cbn; lia|].
    rewrite unescape_cons. destruct ((c =? 92) && (d =? 110)).
    + cbn [List.length] in *.
      pose proof (IH r ltac:(lia)). lia.
    + pose proof (IH (d :: r) ltac:(cbn [List.length] in *; lia)).
      cbn [List.length] in *. lia.
Qed.

End UnescapeFacts.

(** X14.  The unescaping that [initializeVertexAI] applies to the
    private key, [replace(/\\n/g, "\n")]: the result holds no backslash
    followed by [n] any more, a key without one is left as it is, so
    unescaping twice is unescaping once, and the result is never longer
    than the key. *)
Theorem X14_private_key_unescape s :
  includes (VertexCredentials.unescapeNewlines s) [92%N; 110%N] = false
  /\ (includes s [92%N; 110%N] = false ->
      VertexCredentials.unescapeNewlines s = s)
  /\ VertexCredentials.unescapeNewlines (VertexCredentials.unescapeNewlines s)
     = VertexCredentials.unescapeNewlines s
  /\ (List.length (VertexCredentials.unescapeNewlines s) <= List.length s)%nat.
Proof.
  split; [apply UnescapeFacts.unescape_clean|].
  split; [apply UnescapeFacts.unescape_fixed|].
  split.
  - apply UnescapeFacts.unescape_fixed, UnescapeFacts.unescape_clean.
  - apply (UnescapeFacts.unescape_length_upto (List.length s)). lia.
Qed.

Lemma X14_private_key_unescape_witness :
  VertexCredentials.unescapeNewlines (str "BEGIN\nMIIE\nEND")
  = str "BEGIN" ++ LF ++ str "MIIE" ++ LF ++ str "END"
  /\ VertexCredentials.unescapeNewlines
       (str "BEGIN" ++ LF ++ str "MIIE" ++ LF ++ str "END")
     = str "BEGIN" ++ LF ++ str "MIIE" ++ LF ++ str "END".
Proof.
  destruct (X14_private_key_unescape (str "BEGIN\nMIIE\nEND"))
    as (_ & _ & Hidem & _).
  assert (E : VertexCredentials.unescapeNewlines (str "BEGIN\nMIIE\nEND")
              = str "BEGIN" ++ LF ++ str "MIIE" ++ LF ++ str "END")
    by (vm_compute; reflexivity).
  split; [exact E|]. rewrite <- E at 2. rewrite <- E. exact Hidem.
Defined.

(** ** config/ai.config.ts and the adapters' constructors *)

Module ConfigFacts.
Import JSON AIConfig AIConfigEnv.

(** The selection never leaves the four providers. *)
Lemma getAIProvider_range value :
  In (fst (getAIProvider value)) validProviders.
Proof.
  unfold getAIProvider. destruct value as [v|]; cbn [option_map].
  - destruct (nonEmpty (toLowerCase v)); cbn [negb orb].
    + destruct (arrayIncludes validProviders (toLowerCase v)) eqn:E;
        cbn [negb fst].
      * apply AIConfigFacts.arrayIncludes_In, E.
      * right. left. reflexivity.
    + right. left. reflexivity.
  - right. left. reflexivity.
Qed.

Lemma getAIConfig_provider env :
  provider (fst (getAIConfig env)) = fst (getAIProvider (env (str "AI_PROVIDER")))
  /\ isConfigured (fst (getAIConfig env))
     = isProviderConfigured env (fst (getAIProvider (env (str "AI_PROVIDER")))).
Proof.
  unfold getAIConfig.
  destruct (getAIProvider (env (str "AI_PROVIDER"))) as [p w].
  split; reflexivity.
Qed.

Lemma orElse_nonEmpty env name fallback :
  nonEmpty fallback = true ->
  nonEmpty (ProcessEnv.orElse env name fallback) = true.
Proof.
  intros H. unfold ProcessEnv.orElse. destruct (env name) as [v|]; [|exact H].
  destruct (nonEmpty v) eqn:E; [exact E|exact H].
Qed.

Lemma isProviderConfigured_required env p :
  In p validProviders ->
  isProviderConfigured env p = forallb (ProcessEnv.isSet env) (required p).
Proof.
  intros [<-|[<-|[<-|[<-|[]]]]]; cbn; rewrite ?andb_true_r; reflexivity.
Qed.

End ConfigFacts.

(** X15.  [getModelConfig] never reaches its [Unknown AI provider]
    branch: the provider that [getAIProvider] selects is always one of
    the four.  The model it names is that of the selected provider, its
    model variable when that is set and not empty and else its default,
    so never the empty string; and the temperature and the token limit
    are parsed from text that is never empty. *)
Theorem X15_model_config (Num : Type) (parseFloat parseInt10 : jsstring -> Num)
        (env : ProcessEnv.t) :
  In (fst (getAIProvider (env (str "AI_PROVIDER")))) validProviders
  /\ exists config temperature maxTokens,
       AIConfigEnv.getModelConfig Num parseFloat parseInt10 env = Some config
       /\ nonEmpty (AIConfigEnv.model Num config) = true
       /\ AIConfigEnv.temperature Num config = parseFloat temperature
       /\ nonEmpty temperature = true
       /\ AIConfigEnv.maxTokens Num config = parseInt10 maxTokens
       /\ nonEmpty maxTokens = true
       /\ In (fst (getAIProvider (env (str "AI_PROVIDER"))),
              AIConfigEnv.model Num config)
             [ (VERTEX_AI,
                ProcessEnv.orElse env (str "GOOGLE_VERTEX_AI_MODEL")
                                  (str "gemini-1.5-pro"));
               (GOOGLE_API_KEY,
                ProcessEnv.orElse env (str "GOOGLE_GEMINI_MODEL")
                                  (str "gemini-2.0-flash"));
               (OPENAI,
                ProcessEnv.orElse env (str "OPENAI_MODEL") (str "gpt-4"));
               (OPENROUTER,
                ProcessEnv.orElse env (str "OPENROUTER_MODEL")
                                  (str "anthropic/claude-3-sonnet")) ].
Proof.
  pose proof (ConfigFacts.getAIProvider_range (env (str "AI_PROVIDER"))) as Hp.
  split; [exact Hp|].
  unfold AIConfigEnv.getModelConfig.
  destruct (ConfigFacts.getAIConfig_provider env) as [-> _].
  unfold AIConfigEnv.getAIConfig.
  destruct (getAIProvider (env (str "AI_PROVIDER"))) as [p w].
  cbn [fst] in *. cbv zeta.
  destruct Hp as [<-|[<-|[<-|[<-|[]]]]];
    cbn [AIConfigEnv.credentials AIConfigEnv.vertexAI AIConfigEnv.googleAPIKey
         AIConfigEnv.openAI AIConfigEnv.openRouter fst];
    match goal with
    | |- context [if ?b then _ else _] =>
        let v := eval vm_compute in b in change b with v
    end; cbv iota;
    repeat match goal with
           | |- context [if ?b then _ else _] =>
               let v := eval vm_compute in b in change b with v; cbv iota
           end;
    do 3 eexists; (split; [reflexivity|]);
    cbn [AIConfigEnv.model AIConfigEnv.temperature AIConfigEnv.maxTokens
         AIConfigEnv.VertexAI.model AIConfigEnv.VertexAI.temperature
         AIConfigEnv.VertexAI.maxOutputTokens
         AIConfigEnv.GoogleAPIKey.model AIConfigEnv.GoogleAPIKey.temperature
         AIConfigEnv.GoogleAPIKey.maxOutputTokens
         AIConfigEnv.OpenAI.model AIConfigEnv.OpenAI.temperature
         AIConfigEnv.OpenAI.maxTokens
         AIConfigEnv.OpenRouter.model AIConfigEnv.OpenRouter.temperature
         AIConfigEnv.OpenRouter.maxTokens];
    (split; [apply ConfigFacts.orElse_nonEmpty; reflexivity|]);
    (split; [reflexivity|]);
    (split; [apply ConfigFacts.orElse_nonEmpty; reflexivity|]);
    (split; [reflexivity|]);
    (split; [apply ConfigFacts.orElse_nonEmpty; reflexivity|]);
    first [ left; reflexivity
          | right; left; reflexivity
          | right; right; left; reflexivity
          | right; right; right; left; reflexivity ].
Qed.

Lemma X15_model_config_witness :
  option_map (AIConfigEnv.model unit)
    (AIConfigEnv.getModelConfig unit (fun _ => tt) (fun _ => tt)
                                SampleConfig.openAIEnv)
  = Some (str "gpt-4o-mini")
  /\ option_map (AIConfigEnv.model unit)
       (AIConfigEnv.getModelConfig unit (fun _ => tt) (fun _ => tt)
                                   SampleConfig.vertexEnv)
     = Some (str "gemini-1.5-pro").
Proof.
  destruct (X15_model_config unit (fun _ => tt) (fun _ => tt)
              SampleConfig.openAIEnv)
    as (_ & c1 & _ & _ & H1 & _ & _ & _ & _ & _ & M1).
  destruct (X15_model_config unit (fun _ => tt) (fun _ => tt)
              SampleConfig.vertexEnv)
    as (_ & c2 & _ & _ & H2 & _ & _ & _ & _ & _ & M2).
  rewrite H1, H2. cbn [option_map]. split; f_equal.
  - destruct M1 as [M|[M|[M|[M|[]]]]];
      apply pair_equal_spec in M; destruct M as [Hp Hm];
      first [ vm_compute in Hp; discriminate Hp
            | rewrite <- Hm; vm_compute; reflexivity ].
  - destruct M2 as [M|[M|[M|[M|[]]]]];
      apply pair_equal_spec in M; destruct M as [Hp Hm];
      first [ vm_compute in Hp; discriminate Hp
            | rewrite <- Hm; vm_compute; reflexivity ].
Defined.

(** X16.  The start-up validation against the constructors.
    [validateAIConfig] reports the selected provider as configured
    exactly when every variable that its error message would list as
    required is set and not empty.  For OpenAI that is exactly when the
    constructor of [OpenAIService] does not throw.  For Vertex AI it is
    not: with credentials from which the constructor of
    [VertexAIService] succeeds, the validation still reports the
    provider as not configured unless GOOGLE_CLOUD_PROJECT is set. *)
Theorem X16_validation_and_constructors (env : ProcessEnv.t) :
  let selected := fst (getAIProvider (env (str "AI_PROVIDER"))) in
  (AIConfigEnv.validateAIConfig env
   = if forallb (ProcessEnv.isSet env) (AIConfigEnv.required selected)
     then AIConfigEnv.Configured selected
     else AIConfigEnv.NotConfigured selected (AIConfigEnv.required selected))
  /\ AIConfigEnv.required selected <> []
  /\ (selected = OPENAI ->
      (AIConfigEnv.validateAIConfig env = AIConfigEnv.Configured OPENAI
       <-> exists service, Services.newOpenAIService env = Some service))
  /\ (selected = VERTEX_AI ->
      forall fs service,
        Services.newVertexAIService fs env = Some service ->
        (AIConfigEnv.validateAIConfig env = AIConfigEnv.Configured VERTEX_AI
         <-> ProcessEnv.isSet env (str "GOOGLE_CLOUD_PROJECT") = true)).
Proof.
  cbv zeta.
  pose proof (ConfigFacts.getAIProvider_range (env (str "AI_PROVIDER"))) as Hp.
  assert (Hv : AIConfigEnv.validateAIConfig env
               = if forallb (ProcessEnv.isSet env)
                            (AIConfigEnv.required
                               (fst (getAIProvider (env (str "AI_PROVIDER")))))
                 then AIConfigEnv.Configured
                        (fst (getAIProvider (env (str "AI_PROVIDER"))))
                 else AIConfigEnv.NotConfigured
                        (fst (getAIProvider (env (str "AI_PROVIDER"))))
                        (AIConfigEnv.required
                           (fst (getAIProvider (env (str "AI_PROVIDER")))))).
  { unfold AIConfigEnv.validateAIConfig.
    destruct (ConfigFacts.getAIConfig_provider env) as [-> ->].
    rewrite (ConfigFacts.isProviderConfigured_required env _ Hp).
    destruct (forallb _ _); reflexivity. }
  split; [exact Hv|]. split; [|split].
  - destruct Hp as [<-|[<-|[<-|[<-|[]]]]]; discriminate.
  - intros Hsel. rewrite Hv, Hsel.
    change (AIConfigEnv.required OPENAI) with [str "OPENAI_API_KEY"].
    cbn [forallb]. rewrite andb_true_r.
    unfold Services.newOpenAIService, ProcessEnv.isSet, ProcessEnv.orElse.
    destruct (env (str "OPENAI_API_KEY")) as [[|c key]|];
      cbn [nonEmpty negb]; split;
      first [ discriminate
            | intros [service H]; discriminate H
            | intros _; eexists; reflexivity
            | reflexivity ].
  - intros Hsel fs service Hnew. rewrite Hv, Hsel.
    change (AIConfigEnv.required VERTEX_AI)
      with [str "GOOGLE_VERTEX_AI_CREDENTIALS"; str "GOOGLE_CLOUD_PROJECT"].
    cbn [forallb]. rewrite andb_true_r.
    assert (Hc : ProcessEnv.isSet env (str "GOOGLE_VERTEX_AI_CREDENTIALS")
                 = true).
    { unfold Services.newVertexAIService in Hnew.
      destruct (VertexCredentials.getVertexAICredentials fs
                  (env (str "GOOGLE_VERTEX_AI_CREDENTIALS")))
        as [credentials|problem] eqn:E; [|discriminate Hnew].
      destruct (CredentialFacts.getVertexAICredentials_Returned _ _ _ E)
        as (v & _ & _ & Hvalue & Hne & _).
      unfold ProcessEnv.isSet. rewrite Hvalue.
      destruct v as [|c r]; [discriminate Hne|reflexivity]. }
    rewrite Hc. cbn [andb].
    destruct (ProcessEnv.isSet env (str "GOOGLE_CLOUD_PROJECT"));
      split; first [reflexivity|discriminate].
Qed.

Lemma X16_validation_and_constructors_witness :
  Services.newVertexAIService SampleConfig.fs SampleConfig.vertexEnv
  = Some {| Services.vertexInitialized := true |}
  /\ AIConfigEnv.validateAIConfig SampleConfig.vertexEnv
     = AIConfigEnv.NotConfigured VERTEX_AI
         [ str "GOOGLE_VERTEX_AI_CREDENTIALS"; str "GOOGLE_CLOUD_PROJECT" ]
  /\ AIConfigEnv.validateAIConfig SampleConfig.openAIEnv
     = AIConfigEnv.Configured OPENAI.
Proof.
  pose proof (X16_validation_and_constructors SampleConfig.vertexEnv) as Hv.
  pose proof (X16_validation_and_constructors SampleConfig.openAIEnv) as Ho.
  cbv zeta in Hv, Ho.
  destruct Hv as (Hv & _). destruct Ho as (_ & _ & Ho & _).
  split; [vm_compute; reflexivity|]. split.
  - rewrite Hv. vm_compute. reflexivity.
  - apply Ho; [vm_compute; reflexivity|].
    eexists. vm_compute. reflexivity.
Defined.

(** ** services/ai.service.ts: the factory's state *)

Module FactoryFacts.
Import JSON AIConfig Services.

Section Factory.

Variables GoogleGeminiService OpenRouterService : Type.

Local Abbreviation Service := (AIService GoogleGeminiService OpenRouterService).
Local Abbreviation State := (Instances GoogleGeminiService OpenRouterService).
Local Abbreviation get := (getAIService GoogleGeminiService OpenRouterService).
Local Abbreviation reset :=
  (resetAIService GoogleGeminiService OpenRouterService).
Local Abbreviation ok := (coherent GoogleGeminiService OpenRouterService).

(** One call: a failure leaves every module-level variable as it was, a
    success leaves the returned adapter in [aiServiceInstance]. *)
Lemma getAIService_step (st : State) fs env gemini openRouter r st' :
  ok st ->
  get st fs env gemini openRouter = (r, st') ->
  ok st'
  /\ match r with
     | Some instance =>
         aiServiceInstance _ _ st' = Some instance
     | None => st' = st
     end.
Proof.
  unfold getAIService, coherent. intros Hok.
  destruct (aiServiceInstance _ _ st) as [instance|] eqn:Ei.
  - intros H. injection H as <- <-. rewrite Ei. split; [exact Hok|reflexivity].
  - destruct (jsstring_eqb _ VERTEX_AI).
    { destruct (getVertexAIService _ fs env) as [s|];
        intros H; injection H as <- <-; cbn; [split; reflexivity|].
      rewrite Ei. split; [exact I|reflexivity]. }
    destruct (jsstring_eqb _ GOOGLE_API_KEY).
    { destruct gemini as [s|];
        intros H; injection H as <- <-; cbn; [split; [exact I|reflexivity]|].
      rewrite Ei. split; [exact I|reflexivity]. }
    destruct (jsstring_eqb _ OPENAI).
    { destruct (getOpenAIService _ env) as [s|];
        intros H; injection H as <- <-; cbn; [split; reflexivity|].
      rewrite Ei. split; [exact I|reflexivity]. }
    destruct (jsstring_eqb _ OPENROUTER).
    { destruct openRouter as [s|];
        intros H; injection H as <- <-; cbn; [split; [exact I|reflexivity]|].
      rewrite Ei. split; [exact I|reflexivity]. }
    intros H. injection H as <- <-. rewrite Ei. split; [exact I|reflexivity].
Qed.

Lemma getAIServiceEach_cached (st : State) instance calls :
  aiServiceInstance _ _ st = Some instance ->
  Forall (eq (Some instance))
         (getAIServiceEach GoogleGeminiService OpenRouterService st calls).
Proof.
  intros Hi. induction calls as [|c rest IH]; cbn [getAIServiceEach];
    [constructor|].
  unfold getAIService. rewrite Hi. constructor; [reflexivity|exact IH].
Qed.

(** With the adapters' getters taken as their outcomes, a call returns
    and caches what the factory of the provider selection returns and
    caches. *)
Lemma getAIService_outcomes (st : State) fs env gemini openRouter :
  let r := get st fs env gemini openRouter in
  (fst r, aiServiceInstance _ _ (snd r))
  = AIConfig.getAIService Service
      (option_map (Vertex _ _)
                  (getVertexAIService (vertexInstance _ _ st) fs env))
      (option_map (GoogleGemini _ _) gemini)
      (option_map (OpenAI _ _)
                  (getOpenAIService (openAIInstance _ _ st) env))
      (option_map (OpenRouter _ _) openRouter)
      (aiServiceInstance _ _ st) (env (str "AI_PROVIDER")).
Proof.
  cbv zeta. unfold getAIService, AIConfig.getAIService, construct.
  destruct (aiServiceInstance _ _ st) as [instance|] eqn:Ei.
  - cbn [fst snd]. rewrite Ei. reflexivity.
  - cbv zeta.
    destruct (jsstring_eqb _ VERTEX_AI).
    { destruct (getVertexAIService _ fs env); cbn; rewrite ?Ei; reflexivity. }
    destruct (jsstring_eqb _ GOOGLE_API_KEY).
    { destruct gemini; cbn; rewrite ?Ei; reflexivity. }
    destruct (jsstring_eqb _ OPENAI).
    { destruct (getOpenAIService _ env); cbn; rewrite ?Ei; reflexivity. }
    destruct (jsstring_eqb _ OPENROUTER).
    { destruct openRouter; cbn; rewrite ?Ei; reflexivity. }
    cbn. rewrite Ei. reflexivity.
Qed.

End Factory.

End FactoryFacts.

(** X17.  The factory is a singleton over singletons.  Once
    [getAIService] has returned an adapter, every later call returns
    that same adapter, whatever AI_PROVIDER, the credentials and the
    file system have become.  A call that throws changes nothing, so the
    next call tries again.  And [resetAIService] clears the factory's
    own variable only: after it, a call that selects OpenAI or Vertex AI
    gets the instance that the adapter's module still holds, without the
    constructor running again, even if its key or credentials have been
    removed meanwhile. *)
Theorem X17_factory_singleton
        (GoogleGeminiService OpenRouterService : Type)
        (st : Services.Instances GoogleGeminiService OpenRouterService)
        fs env gemini openRouter r st' :
  Services.coherent _ _ st ->
  Services.getAIService _ _ st fs env gemini openRouter = (r, st') ->
  Services.coherent _ _ st'
  /\ (r = None -> st' = st)
  /\ (forall instance,
         r = Some instance ->
         (forall calls,
             Forall (eq (Some instance))
                    (Services.getAIServiceEach _ _ st' calls))
         /\ (forall s fs' env' gemini' openRouter',
                instance = Services.OpenAI _ _ s ->
                fst (getAIProvider (env' (str "AI_PROVIDER"))) = OPENAI ->
                Services.getAIService _ _ (Services.resetAIService _ _ st')
                                      fs' env' gemini' openRouter'
                = (Some instance, st'))
         /\ (forall s fs' env' gemini' openRouter',
                instance = Services.Vertex _ _ s ->
                fst (getAIProvider (env' (str "AI_PROVIDER"))) = VERTEX_AI ->
                Services.getAIService _ _ (Services.resetAIService _ _ st')
                                      fs' env' gemini' openRouter'
                = (Some instance, st'))).
Proof.
  intros Hok Hrun.
  destruct (FactoryFacts.getAIService_step _ _ st fs env gemini openRouter
              r st' Hok Hrun) as [Hok' Hr].
  split; [exact Hok'|]. split.
  - intros ->. exact Hr.
  - intros instance ->. split; [|split].
    + intros calls. apply FactoryFacts.getAIServiceEach_cached, Hr.
    + intros s fs' env' gemini' openRouter' -> Hsel.
      unfold Services.coherent in Hok'. rewrite Hr in Hok'.
      unfold Services.getAIService, Services.resetAIService.
      cbn [Services.aiServiceInstance Services.openAIInstance
           Services.vertexInstance].
      rewrite Hsel, Hok'.
      change (jsstring_eqb OPENAI VERTEX_AI) with false.
      change (jsstring_eqb OPENAI GOOGLE_API_KEY) with false.
      change (jsstring_eqb OPENAI OPENAI) with true.
      cbn [Services.getOpenAIService]. f_equal.
      destruct st' as [a o v]. cbn in *. congruence.
    + intros s fs' env' gemini' openRouter' -> Hsel.
      unfold Services.coherent in Hok'. rewrite Hr in Hok'.
      unfold Services.getAIService, Services.resetAIService.
      cbn [Services.aiServiceInstance Services.openAIInstance
           Services.vertexInstance].
      rewrite Hsel, Hok'.
      change (jsstring_eqb VERTEX_AI VERTEX_AI) with true.
      cbn [Services.getVertexAIService]. f_equal.
      destruct st' as [a o v]. cbn in *. congruence.
Qed.

Lemma X17_factory_singleton_witness :
  let withKey : ProcessEnv.t :=
    fun name =>
      if jsstring_eqb name (str "AI_PROVIDER") then Some (str "openai")
      else if jsstring_eqb name (str "OPENAI_API_KEY") then Some (str "sk-1")
      else None in
  let withoutKey : ProcessEnv.t :=
    fun name =>
      if jsstring_eqb name (str "AI_PROVIDER") then Some (str "OpenAI")
      else None in
  let fs :=
    {| FileSystem.isAbsolute := fun _ => true;
       FileSystem.join := fun a b => a ++ b;
       FileSystem.cwd := str "/";
       FileSystem.readFile := fun _ => None |} in
  let first := Services.getAIService unit unit (Services.initial unit unit)
                                     fs withKey None None in
  fst first
  = Some (Services.OpenAI unit unit
            {| Services.apiKey := str "sk-1"; Services.initialized := true |})
  /\ Services.getAIService unit unit
       (Services.resetAIService unit unit (snd first)) fs withoutKey None None
     = first
  /\ Services.newOpenAIService withoutKey = None.
Proof.
  cbv zeta.
  match goal with
  | |- fst (Services.getAIService unit unit ?st ?fs ?env None None) = _ /\ _ =>
      destruct (Services.getAIService unit unit st fs env None None)
        as [r st'] eqn:Hrun;
      pose proof (X17_factory_singleton unit unit st fs env None None r st')
        as H
  end.
  destruct H as (_ & _ & H); [exact I|exact Hrun|].
  vm_compute in Hrun. injection Hrun as <- <-.
  split; [reflexivity|]. split; [|reflexivity].
  match goal with
  | |- Services.getAIService unit unit _ ?fs ?env None None = _ =>
      destruct (H _ eq_refl) as (_ & Hreset & _);
      apply (Hreset _ fs env None None eq_refl)
  end.
  vm_compute. reflexivity.
Defined.

(** ** routes/study-modules.ts: DELETE /:id *)

Module DeleteFacts.
Import JSON Store DailyUsage StudyModulesDelete.

Lemma findFirst_Some db id userId row :
  findFirst db id userId = Some row ->
  In row (studyModule db)
  /\ StudyModuleRow.id row = id
  /\ StudyModuleRow.userId row = userId.
Proof.
  unfold findFirst. intros H. apply find_some in H. destruct H as [Hin H].
  apply andb_true_iff in H. destruct H as [H1 H2].
  apply AIConfigFacts.jsstring_eqb_eq in H1, H2. repeat split; assumption.
Qed.

Lemma findFirst_None db id userId :
  findFirst db id userId = None ->
  forall r, In r (studyModule db) ->
            ~ (StudyModuleRow.id r = id /\ StudyModuleRow.userId r = userId).
Proof.
  unfold findFirst. intros H r Hr [H1 H2].
  pose proof (find_none _ _ H r Hr) as Hn. cbv beta in Hn.
  rewrite H1, H2, !AIConfigFacts.jsstring_eqb_refl in Hn. discriminate Hn.
Qed.

Lemma countIf_map {A B : Type} (f : A -> B) (p : B -> bool) (l : list A) :
  countIf p (map f l) = countIf (fun x => p (f x)) l.
Proof.
  induction l as [|x r IH]; [reflexivity|]. cbn [map countIf].
  rewrite IH. reflexivity.
Qed.

Lemma countIf_mono {A : Type} (p q : A -> bool) (l : list A) :
  (forall x, In x l -> p x = true -> q x = true) ->
  countIf p l <= countIf q l.
Proof.
  induction l as [|x r IH]; intros H; cbn [countIf]; [lia|].
  assert (Hr : countIf p r <= countIf q r).
  { apply IH. intros y Hy. apply H. right. exact Hy. }
  pose proof (H x (or_introl eq_refl)) as Hx.
  destruct (p x); destruct (q x);
    first [lia | specialize (Hx eq_refl); discriminate Hx].
Qed.

Lemma filter_all {A : Type} (q : A -> bool) (l : list A) :
  (forall x, In x l -> q x = true) -> filter q l = l.
Proof.
  induction l as [|x r IH]; intros H; [reflexivity|]. cbn [filter].
  rewrite (H x (or_introl eq_refl)). f_equal.
  apply IH. intros y Hy. apply H. right. exact Hy.
Qed.

(** Removing the one row that has a given key. *)
Lemma countIf_remove (p : StudyModuleRow.t -> bool) id row :
  forall l,
  NoDup (map StudyModuleRow.id l) ->
  In row l ->
  StudyModuleRow.id row = id ->
  countIf p (filter (fun r => negb (jsstring_eqb (StudyModuleRow.id r) id)) l)
  = countIf p l - (if p row then 1 else 0).
Proof.
  induction l as [|x r IH]; intros Hnd Hin Hid; [destruct Hin|].
  cbn [map] in Hnd. inversion Hnd as [|? ? Hx Hnd']; subst.
  cbn [filter countIf].
  destruct (jsstring_eqb (StudyModuleRow.id x) (StudyModuleRow.id row)) eqn:E;
    cbn [negb].
  - apply AIConfigFacts.jsstring_eqb_eq in E.
    assert (Hrow : row = x).
    { destruct Hin as [<-|Hin]; [reflexivity|]. exfalso. apply Hx.
      rewrite E. apply in_map, Hin. }
    subst row. rewrite filter_all; [lia|].
    intros y Hy. apply negb_true_iff, AIConfigFacts.jsstring_eqb_neq.
    intros Ey. apply Hx. rewrite <- Ey. apply in_map, Hy.
  - cbn [countIf]. rewrite IH; [lia|exact Hnd'| |reflexivity].
    destruct Hin as [<-|Hin]; [|exact Hin].
    rewrite AIConfigFacts.jsstring_eqb_refl in E. discriminate E.
Qed.

Lemma existsb_filter {A : Type} (f q : A -> bool) (l : list A) :
  (forall x, In x l -> f x = true -> q x = true) ->
  existsb f (filter q l) = existsb f l.
Proof.
  induction l as [|x r IH]; intros H; [reflexivity|]. cbn [filter existsb].
  assert (Hr : existsb f (filter q r) = existsb f r).
  { apply IH. intros y Hy. apply H. right. exact Hy. }
  pose proof (H x (or_introl eq_refl)) as Hx.
  destruct (q x); cbn [existsb]; rewrite Hr; [reflexivity|].
  destruct (f x); [specialize (Hx eq_refl); discriminate Hx|reflexivity].
Qed.

(** Modules other than the deleted one are AI-generated as before. *)
Lemma moduleIsAIGenerated_delete db id m :
  m <> id ->
  moduleIsAIGenerated (deleteStudyModule db id) (Some m)
  = moduleIsAIGenerated db (Some m).
Proof.
  intros Hm. unfold moduleIsAIGenerated, deleteStudyModule. cbn [studyModule].
  apply existsb_filter. intros x _ Hx.
  apply andb_true_iff in Hx. destruct Hx as [Hx _].
  apply AIConfigFacts.jsstring_eqb_eq in Hx.
  apply negb_true_iff, AIConfigFacts.jsstring_eqb_neq. congruence.
Qed.

(** How a card counts after the deletion, against how it counted. *)
Lemma counted_after_delete db id userId gte r :
  let before :=
    jsstring_eqb (FlashcardRow.userId r) userId
    && (gte <=? FlashcardRow.createdAt r)
    && (FlashcardRow.isAIGenerated r
        || moduleIsAIGenerated db (FlashcardRow.moduleId r)) in
  let after :=
    jsstring_eqb (FlashcardRow.userId (setNull id r)) userId
    && (gte <=? FlashcardRow.createdAt (setNull id r))
    && (FlashcardRow.isAIGenerated (setNull id r)
        || moduleIsAIGenerated (deleteStudyModule db id)
                               (FlashcardRow.moduleId (setNull id r))) in
  (after = true -> before = true)
  /\ ((FlashcardRow.moduleId r = Some id ->
       FlashcardRow.isAIGenerated r = true) ->
      after = before).
Proof.
  cbv zeta. unfold setNull.
  destruct (FlashcardRow.moduleId r) as [m|] eqn:Em.
  - destruct (jsstring_eqb m id) eqn:E.
    + apply AIConfigFacts.jsstring_eqb_eq in E. subst m.
      cbn [FlashcardRow.userId FlashcardRow.createdAt
           FlashcardRow.isAIGenerated FlashcardRow.moduleId].
      change (moduleIsAIGenerated (deleteStudyModule db id) None) with false.
      rewrite orb_false_r. split.
      * intros H. apply andb_true_iff in H. destruct H as [H1 H2].
        rewrite H1, H2. reflexivity.
      * intros H. rewrite (H eq_refl). reflexivity.
    + apply AIConfigFacts.jsstring_eqb_neq in E. rewrite Em.
      rewrite (moduleIsAIGenerated_delete db id m E).
      split; [intros H; exact H|intros _; reflexivity].
  - rewrite Em. split; [intros H; exact H|intros _; reflexivity].
Qed.

Lemma find_last {A : Type} (p : A -> bool) (l : list A) (x : A) :
  (forall r, In r l -> p r = false) -> p x = true ->
  find p (l ++ [x]) = Some x.
Proof.
  intros Hl Hx. induction l as [|y l IH]; cbn [app find].
  - rewrite Hx. reflexivity.
  - rewrite (Hl y (or_introl eq_refl)). apply IH.
    intros r Hr. apply Hl. right. exact Hr.
Qed.

(** The card counters after a deletion. *)
Lemma aiFlashcardCount_delete db id user gte :
  aiFlashcardCount (deleteStudyModule db id) user gte
  <= aiFlashcardCount db user gte
  /\ (Forall (fun r => FlashcardRow.moduleId r = Some id ->
                       FlashcardRow.isAIGenerated r = true)
             (flashcard db) ->
      aiFlashcardCount (deleteStudyModule db id) user gte
      = aiFlashcardCount db user gte).
Proof.
  unfold aiFlashcardCount. rewrite !RateLimitFacts.countIf_filter.
  unfold deleteStudyModule at 2 4. cbn [flashcard].
  rewrite countIf_map. split.
  - apply countIf_mono. intros r _.
    apply (counted_after_delete db id user gte r).
  - intros Hflag. apply RateLimitFacts.countIf_ext. intros r Hr.
    apply (counted_after_delete db id user gte r).
    exact (proj1 (Forall_forall _ _) Hflag r Hr).
Qed.

End DeleteFacts.

(** X18.  DELETE /api/study-modules/:id.  When no module with that id
    belongs to the requester the answer is 404 and nothing changes, so a
    user cannot delete the module of another.  Otherwise the answer is
    200: exactly the module with that id is gone, no flashcard is
    removed, and the requester's module counter drops by one for every
    window that holds the module's creation time.  As the foreign key
    of the migration sets [moduleId] to NULL, no card counter rises, and
    the counters stay as they were when every card of the module was
    flagged AI-generated itself, as the cards stored by the generate
    route are. *)
Theorem X18_delete_study_module db userId id :
  JSON.nonEmpty userId = true ->
  NoDup (map StudyModuleRow.id (studyModule db)) ->
  let result :=
    StudyModulesDelete.deleteHandler db
      (Some {| User.userId := Some userId |}) id in
  match StudyModulesDelete.findFirst db id userId with
  | None =>
      result = (StudyModulesDelete.Status404, db)
      /\ forall r, In r (studyModule db) ->
                   StudyModuleRow.id r = id ->
                   StudyModuleRow.userId r <> userId
  | Some existing =>
      fst result = StudyModulesDelete.Status200
      /\ In existing (studyModule db)
      /\ StudyModuleRow.userId existing = userId
      /\ (forall r, In r (studyModule (snd result))
                    <-> In r (studyModule db) /\ StudyModuleRow.id r <> id)
      /\ List.length (flashcard (snd result)) = List.length (flashcard db)
      /\ (forall gte,
            studyModuleCount (snd result) userId gte
            = studyModuleCount db userId gte
              - (if gte <=? StudyModuleRow.createdAt existing then 1 else 0))
      /\ (forall user gte,
            aiFlashcardCount (snd result) user gte
            <= aiFlashcardCount db user gte)
      /\ (Forall (fun r => FlashcardRow.moduleId r = Some id ->
                           FlashcardRow.isAIGenerated r = true)
                 (flashcard db) ->
          forall user gte,
            aiFlashcardCount (snd result) user gte
            = aiFlashcardCount db user gte)
  end.
Proof.
  intros Hid Hnd. cbv zeta. unfold StudyModulesDelete.deleteHandler.
  cbn [User.getUserIdFromRequest User.userId]. rewrite Hid.
  destruct (StudyModulesDelete.findFirst db id userId) as [existing|] eqn:Ef.
  - destruct (DeleteFacts.findFirst_Some db id userId existing Ef)
      as (Hin & Hrow & Hu).
    cbn [fst snd].
    split; [reflexivity|]. split; [exact Hin|]. split; [exact Hu|].
    split; [|split; [|split; [|split]]].
    + intros r. unfold StudyModulesDelete.deleteStudyModule. cbn [studyModule].
      rewrite filter_In, negb_true_iff, AIConfigFacts.jsstring_eqb_neq.
      reflexivity.
    + unfold StudyModulesDelete.deleteStudyModule. cbn [flashcard].
      apply length_map.
    + intros gte. unfold studyModuleCount.
      rewrite !RateLimitFacts.countIf_filter.
      unfold StudyModulesDelete.deleteStudyModule. cbn [studyModule].
      rewrite (DeleteFacts.countIf_remove _ id existing _ Hnd Hin Hrow).
      rewrite Hu, AIConfigFacts.jsstring_eqb_refl. reflexivity.
    + intros user gte. apply DeleteFacts.aiFlashcardCount_delete.
    + intros Hflag user gte.
      apply DeleteFacts.aiFlashcardCount_delete, Hflag.
  - split; [reflexivity|]. intros r Hr Hrid Hru.
    apply (DeleteFacts.findFirst_None db id userId Ef r Hr).
    split; assumption.
Qed.

Lemma X18_delete_study_module_witness :
  StudyModulesDelete.deleteHandler Sample.db
    (Some {| User.userId := Some Sample.bob |}) (str "m1")
  = (StudyModulesDelete.Status404, Sample.db)
  /\ studyModuleCount
       (snd (StudyModulesDelete.deleteHandler Sample.db
               (Some {| User.userId := Some Sample.alice |}) (str "m1")))
       Sample.alice Sample.midnight
     = 1.
Proof.
  pose proof (X18_delete_study_module Sample.db Sample.bob (str "m1")) as Hb.
  pose proof (X18_delete_study_module Sample.db Sample.alice (str "m1")) as Ha.
  cbv zeta in Hb, Ha. split.
  - destruct (StudyModulesDelete.findFirst Sample.db (str "m1") Sample.bob)
      eqn:E; [vm_compute in E; discriminate E|].
    apply Hb; [reflexivity|].
    vm_compute. repeat constructor; cbn; intuition discriminate.
  - destruct (StudyModulesDelete.findFirst Sample.db (str "m1") Sample.alice)
      as [existing|] eqn:E; [|vm_compute in E; discriminate E].
    destruct Ha as (_ & _ & _ & _ & _ & Hcount & _); [reflexivity| |].
    + vm_compute. repeat constructor; cbn; intuition discriminate.
    + rewrite Hcount. vm_compute in E. injection E as <-.
      vm_compute. reflexivity.
Defined.

(** X19.  Generating a study module and then deleting it.  After a 201
    of POST /api/study-modules/ai/generate, the requester's DELETE of
    the new module answers 200 and puts the table of study modules back
    to what it was before the generation, so the module counters are
    back as well and the day's module quota is not used up; the cards
    that were generated stay stored and flagged, so the card counter
    keeps counting every one of them. *)
Theorem X19_generate_then_delete
        stringify db clock newId userId body service inTime saved total db1 :
  JSON.nonEmpty userId = true ->
  StudyModules.referential db ->
  StudyModules.generateHandler stringify db clock newId
    (Some {| User.userId := Some userId |}) body service inTime
  = (StudyModules.Status201 saved total, db1) ->
  let result :=
    StudyModulesDelete.deleteHandler db1
      (Some {| User.userId := Some userId |}) newId in
  fst result = StudyModulesDelete.Status200
  /\ studyModule (snd result) = studyModule db
  /\ (forall user gte,
        studyModuleCount (snd result) user gte = studyModuleCount db user gte)
  /\ List.length (flashcard (snd result))
     = (List.length (flashcard db) + total)%nat
  /\ (forall gte,
        aiFlashcardCount (snd result) userId gte
        = aiFlashcardCount db1 userId gte)
  /\ (forall gte,
        (forall j, gte <= StudyModules.savedCard clock j) ->
        aiFlashcardCount (snd result) userId gte
        = aiFlashcardCount db userId gte + Z.of_nat total).
Proof.
  intros Hid Hfk Hrun. cbv zeta.
  destruct (StudyModulesFacts.generateHandler_cases stringify db clock newId
              userId body service inTime _ db1 Hid Hrun)
    as [[_ Hno] | (m & c & t & generate & generated & saved' & Hcase)];
    [exfalso; exact (Hno saved total eq_refl)|].
  cbv zeta in Hcase.
  destruct Hcase as (_ & _ & _ & _ & _ & _ & _ & _ & _ & Hs & Hdb & Hresp).
  destruct (StudyModulesFacts.createStudyModule_Some _ _ _ _ _ _ Hs)
    as [Esaved Hfresh].
  pose proof (StudyModulesFacts.saveAll_rows stringify userId
                (orUndefined (StudyModules.subject body))
                (orUndefined (StudyModules.educationLevel body))
                (orUndefined (StudyModules.difficultyLevel body))
                newId (StudyModules.savedCard clock)
                (StudyModuleWithFlashcards.flashcards generated) 0) as Hrows.
  cbv zeta in Hrows. destruct Hrows as (Hall & _ & _).
  match type of Hdb with
  | _ = StudyModules.insertModule _ _ (fst ?s) => set (stored := s) in *
  end.
  assert (Htotal : List.length (fst stored) = total).
  { destruct (snd stored); [|discriminate Hresp].
    injection Hresp as _ <-. reflexivity. }
  assert (Hold : forall r, In r (studyModule db) ->
                           jsstring_eqb (StudyModuleRow.id r) newId = false).
  { intros r Hr. apply not_true_is_false. intros E.
    assert (existsb (fun x => jsstring_eqb (StudyModuleRow.id x) newId)
                    (studyModule db) = true)
      by (apply existsb_exists; exists r; split; assumption).
    congruence. }
  assert (Hfind : StudyModulesDelete.findFirst db1 newId userId = Some saved').
  { unfold StudyModulesDelete.findFirst. rewrite Hdb.
    unfold StudyModules.insertModule. cbn [studyModule].
    apply DeleteFacts.find_last.
    - intros r Hr. rewrite (Hold r Hr). reflexivity.
    - rewrite Esaved. cbn [StudyModuleRow.id StudyModuleRow.userId].
      rewrite !AIConfigFacts.jsstring_eqb_refl. reflexivity. }
  assert (Htable : studyModule (StudyModulesDelete.deleteStudyModule db1 newId)
                   = studyModule db).
  { unfold StudyModulesDelete.deleteStudyModule. cbn [studyModule].
    rewrite Hdb. unfold StudyModules.insertModule. cbn [studyModule].
    rewrite filter_app. cbn [filter]. rewrite Esaved.
    cbn [StudyModuleRow.id]. rewrite AIConfigFacts.jsstring_eqb_refl.
    cbn [negb]. rewrite app_nil_r. apply DeleteFacts.filter_all.
    intros r Hr. rewrite (Hold r Hr). reflexivity. }
  assert (Hflag : Forall (fun r => FlashcardRow.moduleId r = Some newId ->
                                   FlashcardRow.isAIGenerated r = true)
                         (flashcard db1)).
  { rewrite Hdb. unfold StudyModules.insertModule. cbn [flashcard].
    apply Forall_app. split.
    - apply Forall_forall. intros r Hr Hm. exfalso.
      pose proof (proj1 (Forall_forall _ _) Hfk r Hr) as Href.
      cbv beta in Href. rewrite Hm in Href. congruence.
    - eapply Forall_impl; [|exact Hall]. cbv beta.
      intros r (_ & H & _) _. exact H. }
  unfold StudyModulesDelete.deleteHandler.
  cbn [User.getUserIdFromRequest User.userId]. rewrite Hid, Hfind.
  cbn [fst snd].
  split; [reflexivity|]. split; [exact Htable|]. split; [|split; [|split]].
  - intros user gte. unfold studyModuleCount. rewrite Htable. reflexivity.
  - unfold StudyModulesDelete.deleteStudyModule. cbn [flashcard].
    rewrite length_map, Hdb. unfold StudyModules.insertModule.
    cbn [flashcard]. rewrite length_app, Htotal. reflexivity.
  - intros gte. apply DeleteFacts.aiFlashcardCount_delete, Hflag.
  - intros gte Hclock.
    rewrite (proj2 (DeleteFacts.aiFlashcardCount_delete db1 newId userId gte)
               Hflag).
    rewrite Hdb.
    rewrite (StudyModulesFacts.aiFlashcardCount_insertModule db saved' (fst stored)
               userId gte Hfk).
    + rewrite StudyModulesFacts.countIf_all, Htotal; [reflexivity|].
      eapply Forall_impl; [|exact Hall]. cbv beta.
      intros r (_ & _ & _ & j & ->). apply Z.leb_le, Hclock.
    + rewrite Esaved. exact Hfresh.
    + eapply Forall_impl; [|exact Hall]. cbv beta.
      intros r (H1 & H2 & _). split; assumption.
Qed.

Lemma X19_generate_then_delete_witness :
  exists saved db1,
    StudyModules.generateHandler SampleModules.stringify Sample.db
      SampleModules.clock (str "m9") SampleModules.user
      (SampleModules.body (Some 10)) (Some SampleModules.adapter) true
    = (StudyModules.Status201 saved 10, db1)
    /\ studyModuleCount
         (snd (StudyModulesDelete.deleteHandler db1 SampleModules.user
                 (str "m9")))
         Sample.alice Sample.midnight
       = 2
    /\ aiFlashcardCount
         (snd (StudyModulesDelete.deleteHandler db1 SampleModules.user
                 (str "m9")))
         Sample.alice Sample.midnight
       = 12.
Proof.
  destruct (StudyModules.generateHandler SampleModules.stringify Sample.db
              SampleModules.clock (str "m9") SampleModules.user
              (SampleModules.body (Some 10)) (Some SampleModules.adapter) true)
    as [response db1] eqn:Hrun.
  assert (Hresp : exists saved, response = StudyModules.Status201 saved 10).
  { vm_compute in Hrun. injection Hrun as <- _. eexists. reflexivity. }
  destruct Hresp as [saved ->].
  exists saved, db1. split; [reflexivity|].
  destruct (X19_generate_then_delete SampleModules.stringify Sample.db
              SampleModules.clock (str "m9") Sample.alice
              (SampleModules.body (Some 10)) (Some SampleModules.adapter) true
              saved 10%nat db1)
    as (_ & _ & Hm & _ & _ & Hc).
  - reflexivity.
  - unfold StudyModules.referential. vm_compute. repeat constructor.
  - exact Hrun.
  - split.
    + unfold SampleModules.user. rewrite Hm. vm_compute. reflexivity.
    + unfold SampleModules.user. rewrite Hc; [vm_compute; reflexivity|].
      intros j. vm_compute. discriminate.
Defined.

(** ** The quotas as an invariant of the store *)

Module InvariantFacts.
Import JSON Store RateLimit DailyUsage StudyModules.

Section Step.

Variable stringify : json -> jsstring.

(** One regular request: the foreign key still holds afterwards, and no
    counter of any user has been taken over its limit. *)
Lemma serve_step db start r :
  Requests.regular start r ->
  referential db ->
  referential (Requests.serve stringify db r)
  /\ forall user,
       studyModuleCount (Requests.serve stringify db r) user start
       <= Z.max 3 (studyModuleCount db user start)
       /\ aiFlashcardCount (Requests.serve stringify db r) user start
          <= Z.max 30 (aiFlashcardCount db user start).
Proof.
  intros (Hvm & Hvc & Hsm & Hsc & Hid & Hn0 & Hb) Hfk.
  unfold Requests.serve.
  destruct (generateHandler stringify db (Requests.clock r) (Requests.newId r)
              (Some {| User.userId := Some (Requests.userId r) |})
              (Requests.body r) (Requests.aiService r) (Requests.inTime r))
    as [response db'] eqn:Hrun.
  cbn [snd].
  destruct (StudyModulesFacts.generateHandler_cases stringify db _ _ _ _ _ _
              response db' Hid Hrun)
    as [[-> _] | (m & c & t & g & generated & saved & Hcase)].
  { split; [exact Hfk|]. intros user. split; lia. }
  cbv zeta in Hcase.
  destruct Hcase as (Hm & Ha & Hc & Hca & _ & Hn & Hg & _ & Hgen & Hs & Hdb & _).
  rewrite Hg in Hb.
  rewrite (RateLimitFacts.checkStudyModuleDailyLimit_eq db _ _ Hvm) in Hm.
  rewrite (RateLimitFacts.checkAICardsDailyLimit_eq db _ _ _ Hvc) in Hc.
  injection Hm as <-. injection Hc as <-.
  cbn [allowed cardsAllowed] in Ha, Hca.
  apply Z.ltb_lt in Ha. apply Z.leb_le in Hca.
  rewrite <- QuotaFacts.studyModuleCount_today, Hsm in Ha.
  rewrite <- QuotaFacts.aiFlashcardCount_today, Hsc in Hca.
  destruct (StudyModulesFacts.createStudyModule_Some _ _ _ _ _ _ Hs)
    as [Esaved Hfresh].
  pose proof (StudyModulesFacts.saveAll_rows stringify (Requests.userId r)
                (FlashcardsAI.orUndefined (subject (Requests.body r)))
                (FlashcardsAI.orUndefined (educationLevel (Requests.body r)))
                (FlashcardsAI.orUndefined (difficultyLevel (Requests.body r)))
                (Requests.newId r) (savedCard (Requests.clock r))
                (StudyModuleWithFlashcards.flashcards generated) 0) as Hrows.
  cbv zeta in Hrows. destruct Hrows as (Hall & Hlen & _).
  match type of Hdb with
  | _ = insertModule _ _ (fst ?s) => set (stored := s) in *
  end.
  assert (Hfresh' : existsb (fun x => jsstring_eqb (StudyModuleRow.id x)
                                                    (StudyModuleRow.id saved))
                            (studyModule db) = false)
    by (rewrite Esaved; exact Hfresh).
  split.
  - rewrite Hdb. unfold referential, insertModule.
    cbn [flashcard studyModule]. apply Forall_app. split.
    + eapply Forall_impl; [|exact Hfk]. cbv beta. intros x Hx.
      destruct (FlashcardRow.moduleId x) as [mid|]; [|exact I].
      rewrite existsb_app, Hx. reflexivity.
    + eapply Forall_impl; [|exact Hall]. cbv beta.
      intros x (_ & _ & -> & _).
      rewrite existsb_app. cbn [existsb]. rewrite Esaved.
      cbn [StudyModuleRow.id]. rewrite AIConfigFacts.jsstring_eqb_refl.
      apply orb_true_iff. right. reflexivity.
  - intros user. rewrite Hdb.
    destruct (list_eq_dec N.eq_dec user (Requests.userId r)) as [->|Hother].
    + split.
      * rewrite (StudyModulesFacts.studyModuleCount_insert db saved
                   (fst stored) (Requests.userId r))
          by (rewrite Esaved; reflexivity).
        destruct (_ <=? _); lia.
      * rewrite (StudyModulesFacts.aiFlashcardCount_insertModule db saved
                   (fst stored) (Requests.userId r) start Hfk Hfresh').
        -- pose proof (StudyModulesFacts.countIf_le_length
                         (fun x => start <=? FlashcardRow.createdAt x)
                         (fst stored)) as Hle.
           assert (Hk : FlashcardsAI.cardsOr
                          (numberOfCards (Requests.body r)) 20
                        = match numberOfCards (Requests.body r) with
                          | Some z => z
                          | None => 20
                          end).
           { unfold FlashcardsAI.cardsOr.
             destruct (numberOfCards (Requests.body r)) as [z|];
               [|reflexivity].
             destruct (Z.eqb_spec z 0) as [->|]; [|reflexivity].
             exfalso. apply Hn0. reflexivity. }
           assert (Hpos : 0 <= FlashcardsAI.cardsOr
                                 (numberOfCards (Requests.body r)) 20).
           { rewrite Hk.
             destruct (numberOfCards (Requests.body r)) as [z|]; [|lia].
             destruct Hn as [->|Hn]; [exfalso; apply Hn0; reflexivity|lia]. }
           pose proof (Hb _ generated _ Hgen eq_refl Hpos) as Hbound.
           rewrite Hk in Hbound. lia.
        -- eapply Forall_impl; [|exact Hall]. cbv beta.
           intros x (H1 & H2 & _). split; assumption.
    + unfold insertModule. split.
      * rewrite (IsolationFacts.studyModuleCount_others db [saved]
                   (fst stored) user start); [lia|].
        constructor; [|constructor]. rewrite Esaved.
        cbn [StudyModuleRow.userId]. congruence.
      * rewrite (IsolationFacts.aiFlashcardCount_others db [saved]
                   (fst stored) user start); [lia| |exact Hfk|].
        -- eapply Forall_impl; [|exact Hall]. cbv beta.
           intros x (H1 & _). congruence.
        -- constructor; [exact Hfresh'|constructor].
Qed.

End Step.

End InvariantFacts.


